(** * AutoReadme: the project-traversal and ignore-pattern engine

    A shallow embedding of [auto_readme.py] (class [AutoReadme]) and of the
    parts of the Python library it calls ([str] methods, [posixpath],
    [fnmatch], [os.walk], [json.loads], [json.dump]), followed by the
    properties of the specification that speak about them and by further
    properties of the methods around them.

    The library functions follow CPython 3.11 on POSIX.

    Conventions of the embedding.
    - A Python [str] is a [string] holding the UTF-8 encoding of its code
      points.  Searching, splitting and stripping for ASCII characters is the
      same on both sides; where Python looks at one code point ([str.strip]
      on Unicode white space, [?] and bracket classes of [fnmatch], [\u]
      escapes of JSON) the model decodes or encodes.
    - A function that can raise returns a [result]; a method that reads or
      writes the file system or the log runs in the monad [M] over [world].
    - The log keeps the records at level INFO and above: both entry points
      of the script configure [logging.basicConfig(level=logging.INFO)], so
      [logging.debug] records are dropped by the logger.
    - The file system is a finite tree without symbolic links.  The order of
      a directory's entries is the order in which [os.listdir]/[os.scandir]
      report them, which the operating system chooses; so is the place that
      a newly created entry takes in it.  The model of a write puts the new
      entry last, and what is proved of a directory after a write speaks of
      its names and of what they lead to, not of their order.
    - On CPython 3.11 [os.walk] and [generate_project_structure] enter one
      more frame for each level of the tree, and a tree nested deeper than
      the recursion limit of the interpreter makes them raise
      [RecursionError].  The traversals are modelled without that limit:
      what is proved of the result of a traversal over an arbitrary tree is
      stated for the runs that return, or with that error set apart.
    - The command that [os.system] hands to the shell is modelled for a
      path that the shell reads as one word.
    - The texts of files are UTF-8, and a text that is written can be
      encoded (it holds no lone surrogate): [open], [read] and [write] raise
      no [UnicodeError]. *)

From Stdlib Require Import String Ascii List Bool Arith PeanoNat NArith Lia.
From Stdlib Require Import Permutation Sorted.
Import ListNotations.
Open Scope string_scope.

Set Implicit Arguments.

(** ** Python strings *)

Module PyStr.

Definition chr (n : nat) : ascii := ascii_of_nat n.
Definition str1 (c : ascii) : string := String c EmptyString.

(** The characters that cannot be written inside a literal. *)
Definition dquote : string := str1 (chr 34).
Definition newline : string := str1 (chr 10).

Definition is_empty (s : string) : bool :=
  match s with EmptyString => true | String _ _ => false end.

Fixpoint rev_onto (s acc : string) : string :=
  match s with
  | EmptyString => acc
  | String c s' => rev_onto s' (String c acc)
  end.

Definition rev (s : string) : string := rev_onto s EmptyString.

(** [s.startswith(p)] *)
Fixpoint startswith (s p : string) : bool :=
  match p with
  | EmptyString => true
  | String a p' =>
      match s with
      | EmptyString => false
      | String b s' => Ascii.eqb a b && startswith s' p'
      end
  end.

(** [s.endswith(p)] *)
Definition endswith (s p : string) : bool := startswith (rev s) (rev p).

(** [sub in s] *)
Fixpoint contains (sub s : string) : bool :=
  startswith s sub ||
  match s with
  | EmptyString => false
  | String _ s' => contains sub s'
  end.

Fixpoint mem_char (c : ascii) (chars : string) : bool :=
  match chars with
  | EmptyString => false
  | String a chars' => Ascii.eqb a c || mem_char c chars'
  end.

(** [s.split(sep)] for a one-character separator: never an empty list. *)
Fixpoint split (sep : ascii) (s : string) : list string :=
  match s with
  | EmptyString => [EmptyString]
  | String c s' =>
      if Ascii.eqb c sep then EmptyString :: split sep s'
      else match split sep s' with
           | [] => [str1 c]
           | piece :: pieces => String c piece :: pieces
           end
  end.

(** [sep.join(parts)] *)
Definition join (sep : string) (parts : list string) : string :=
  String.concat sep parts.

(** [s * n] *)
Fixpoint repeat_str (s : string) (n : nat) : string :=
  match n with
  | O => EmptyString
  | S n' => s ++ repeat_str s n'
  end.

(** [s.lstrip(chars)] and [s.rstrip(chars)]: [chars] is a set of
    characters, not a prefix. *)
Fixpoint lstrip_chars (chars s : string) : string :=
  match s with
  | EmptyString => EmptyString
  | String c s' => if mem_char c chars then lstrip_chars chars s' else s
  end.

Definition rstrip_chars (chars s : string) : string :=
  rev (lstrip_chars chars (rev s)).

(** White space as [str.isspace] sees it.  One-byte characters:
    U+0009..U+000D, U+001C..U+001F, U+0020. *)
Definition is_space1 (a : ascii) : bool :=
  let n := nat_of_ascii a in
  (((9 <=? n) && (n <=? 13)) || ((28 <=? n) && (n <=? 32)))%nat.

(** Two-byte characters: U+0085 (C2 85) and U+00A0 (C2 A0). *)
Definition is_space2 (a b : ascii) : bool :=
  ((nat_of_ascii a =? 194) &&
   ((nat_of_ascii b =? 133) || (nat_of_ascii b =? 160)))%nat.

(** Three-byte characters: U+1680, U+2000..U+200A, U+2028, U+2029, U+202F,
    U+205F, U+3000. *)
Definition is_space3 (a b c : ascii) : bool :=
  let x := nat_of_ascii a in
  let y := nat_of_ascii b in
  let z := nat_of_ascii c in
  (((x =? 225) && (y =? 154) && (z =? 128)) ||
   ((x =? 226) && (y =? 128) &&
      (((128 <=? z) && (z <=? 138)) || (z =? 168) || (z =? 169) || (z =? 175))) ||
   ((x =? 226) && (y =? 129) && (z =? 159)) ||
   ((x =? 227) && (y =? 128) && (z =? 128)))%nat.

(** [s.lstrip()] *)
Fixpoint lstrip (s : string) : string :=
  match s with
  | EmptyString => EmptyString
  | String a s1 =>
      if is_space1 a then lstrip s1
      else match s1 with
           | EmptyString => s
           | String b s2 =>
               if is_space2 a b then lstrip s2
               else match s2 with
                    | EmptyString => s
                    | String c s3 => if is_space3 a b c then lstrip s3 else s
                    end
           end
  end.

(** The same scan over the reversed string: the bytes of a character come
    last byte first. *)
Fixpoint lstrip_rev (s : string) : string :=
  match s with
  | EmptyString => EmptyString
  | String a s1 =>
      if is_space1 a then lstrip_rev s1
      else match s1 with
           | EmptyString => s
           | String b s2 =>
               if is_space2 b a then lstrip_rev s2
               else match s2 with
                    | EmptyString => s
                    | String c s3 => if is_space3 c b a then lstrip_rev s3 else s
                    end
           end
  end.

(** [s.rstrip()] *)
Definition rstrip (s : string) : string := rev (lstrip_rev (rev s)).

(** [s.strip()] *)
Definition strip (s : string) : string := rstrip (lstrip s).

(** [s.lower()].  Only [A-Z] are mapped.  The one use in the program is
    [sub in s.lower()] for an ASCII [sub]; no other code point lower-cases
    to text in which an ASCII word could occur (U+0130 gives [i] followed
    by U+0307, U+212A gives [k]), so for the search of [config] the
    restriction is exact. *)
Definition lower_char (a : ascii) : ascii :=
  let n := nat_of_ascii a in
  if ((65 <=? n) && (n <=? 90))%nat then ascii_of_nat (n + 32) else a.

Definition upper_char (a : ascii) : ascii :=
  let n := nat_of_ascii a in
  if ((97 <=? n) && (n <=? 122))%nat then ascii_of_nat (n - 32) else a.

Definition is_cased (a : ascii) : bool :=
  let n := nat_of_ascii a in
  (((65 <=? n) && (n <=? 90)) || ((97 <=? n) && (n <=? 122)))%nat.

Fixpoint lower (s : string) : string :=
  match s with
  | EmptyString => EmptyString
  | String c s' => String (lower_char c) (lower s')
  end.

(** [s.title()] on ASCII letters: a letter that follows a letter is
    lower-cased, any other letter is upper-cased.  Cased letters outside
    ASCII, which [str.title] treats alike, are left as they are. *)
Fixpoint title_from (previous_is_cased : bool) (s : string) : string :=
  match s with
  | EmptyString => EmptyString
  | String c s' =>
      String (if previous_is_cased then lower_char c else upper_char c)
             (title_from (is_cased c) s')
  end.

Definition title (s : string) : string := title_from false s.

(** The lines a text file yields when iterated over.  The file is opened
    in text mode, so [\r\n] and a lone [\r] arrive as [\n]; every line
    keeps its [\n], the last one may lack it, and no line is empty. *)
Fixpoint universal_newlines (s : string) : string :=
  match s with
  | EmptyString => EmptyString
  | String c s' =>
      if (nat_of_ascii c =? 13)%nat then
        match s' with
        | String d s'' =>
            if (nat_of_ascii d =? 10)%nat
            then String (chr 10) (universal_newlines s'')
            else String (chr 10) (universal_newlines s')
        | EmptyString => String (chr 10) EmptyString
        end
      else String c (universal_newlines s')
  end.

Fixpoint lines_keepends (s : string) : list string :=
  match s with
  | EmptyString => []
  | String c s' =>
      if (nat_of_ascii c =? 10)%nat then str1 c :: lines_keepends s'
      else match lines_keepends s' with
           | [] => [str1 c]
           | l :: ls => String c l :: ls
           end
  end.

Definition file_lines (content : string) : list string :=
  lines_keepends (universal_newlines content).

End PyStr.

(** ** Errors *)

(** The exceptions that the modelled code and library calls raise. *)
Inductive pyerr : Type :=
| FileNotFoundError
| NotADirectoryError
| IsADirectoryError
| OSError
| ValueError
| TypeError
| KeyError
| JSONDecodeError
| RecursionError
| CollaboratorError (reason : string).

Inductive result (A : Type) : Type :=
| Ok (value : A)
| Raise (e : pyerr).

Arguments Ok {A} value.
Arguments Raise {A} e.

(** ** [posixpath] *)

Module PosixPath.
Import PyStr.

Definition sep : ascii := "/"%char.

Definition isabs (p : string) : bool := startswith p "/".

(** [os.path.join(a, b)] *)
Definition join (a b : string) : string :=
  if startswith b "/" then b
  else if is_empty a || endswith a "/" then a ++ b
  else a ++ "/" ++ b.

(** [os.path.join(a, *p)] *)
Definition join_many (a : string) (p : list string) : string :=
  fold_left join p a.

(** The loop of [normpath] over the components, [new_comps] kept with its
    last element first. *)
Fixpoint normpath_comps (initial_slashes : bool) (comps new_comps : list string)
  : list string :=
  match comps with
  | [] => List.rev new_comps
  | comp :: comps' =>
      if String.eqb comp EmptyString || String.eqb comp "." then
        normpath_comps initial_slashes comps' new_comps
      else if negb (String.eqb comp "..")
              || (negb initial_slashes && match new_comps with [] => true | _ => false end)
              || match new_comps with last :: _ => String.eqb last ".." | [] => false end
      then normpath_comps initial_slashes comps' (comp :: new_comps)
      else match new_comps with
           | _ :: popped => normpath_comps initial_slashes comps' popped
           | [] => normpath_comps initial_slashes comps' new_comps
           end
  end.

(** [os.path.normpath(path)] *)
Definition normpath (path : string) : string :=
  if is_empty path then "."
  else
    let initial_slashes :=
      if startswith path "/" then
        if startswith path "//" && negb (startswith path "///") then 2 else 1
      else 0 in
    let comps := normpath_comps (negb (Nat.eqb initial_slashes 0)) (split sep path) [] in
    let path' := repeat_str "/" initial_slashes ++ PyStr.join "/" comps in
    if is_empty path' then "." else path'.

(** [os.path.abspath(path)], [cwd] being the value of [os.getcwd()]. *)
Definition abspath (cwd path : string) : string :=
  normpath (if isabs path then path else join cwd path).

(** [len(commonprefix([l1, l2]))] for two lists of components: the number
    of leading components the two share.  ([commonprefix] walks the
    smaller of the two lists against the greater; the count is the same.) *)
Fixpoint commonprefix_len (l1 l2 : list string) : nat :=
  match l1, l2 with
  | x :: l1', y :: l2' => if String.eqb x y then S (commonprefix_len l1' l2') else 0
  | _, _ => 0
  end.

Definition nonempty_comps (p : string) : list string :=
  filter (fun x => negb (is_empty x)) (split sep p).

(** [os.path.relpath(path, start)] *)
Definition relpath (cwd path start : string) : result string :=
  if is_empty path then Raise ValueError
  else
    let start_list := nonempty_comps (abspath cwd start) in
    let path_list := nonempty_comps (abspath cwd path) in
    let i := commonprefix_len start_list path_list in
    let rel_list := (repeat ".." (List.length start_list - i) ++ skipn i path_list)%list in
    match rel_list with
    | [] => Ok "."
    | a :: p => Ok (join_many a p)
    end.

End PosixPath.

(** ** [fnmatch] *)

Module Fnmatch.

Local Open Scope N_scope.

Definition byte (a : ascii) : N := N_of_ascii a.

Definition is_cont (b : N) : bool := (128 <=? b) && (b <=? 191).

(** The code points of a [str].  A byte that starts no well-formed
    sequence stands for itself, as a lone surrogate U+DC80..U+DCFF (what
    the file-system encoding does with an undecodable byte). *)
Fixpoint code_points (s : string) : list N :=
  match s with
  | EmptyString => []
  | String a s1 =>
      let b0 := byte a in
      let escaped := (56320 + b0) :: code_points s1 in
      if b0 <? 128 then b0 :: code_points s1
      else match s1 with
           | EmptyString => escaped
           | String a1 s2 =>
               let b1 := byte a1 in
               if (194 <=? b0) && (b0 <=? 223) then
                 if is_cont b1
                 then ((b0 - 192) * 64 + (b1 - 128)) :: code_points s2
                 else escaped
               else match s2 with
                    | EmptyString => escaped
                    | String a2 s3 =>
                        let b2 := byte a2 in
                        if (224 <=? b0) && (b0 <=? 239) then
                          if is_cont b1 && is_cont b2
                          then ((b0 - 224) * 4096 + (b1 - 128) * 64 + (b2 - 128))
                                 :: code_points s3
                          else escaped
                        else match s3 with
                             | EmptyString => escaped
                             | String a3 s4 =>
                                 let b3 := byte a3 in
                                 if (240 <=? b0) && (b0 <=? 244)
                                    && is_cont b1 && is_cont b2 && is_cont b3
                                 then ((b0 - 240) * 262144 + (b1 - 128) * 4096
                                       + (b2 - 128) * 64 + (b3 - 128))
                                        :: code_points s4
                                 else escaped
                             end
                    end
           end
  end.

Definition c_star : N := 42.
Definition c_question : N := 63.
Definition c_lbracket : N := 91.
Definition c_rbracket : N := 93.
Definition c_bang : N := 33.
Definition c_hyphen : N := 45.
Definition c_caret : N := 94.

(** What one position of the translated expression accepts. *)
Inductive atom : Type :=
| Lit (c : N)                                    (* an escaped character *)
| AnyChar                                        (* [.] *)
| Never                                          (* [(?!)] *)
| Class (negated : bool) (first : list N) (rest : list (list N)).
    (* [[stuff]]: the chunks of [stuff]; between two chunks stands the
       hyphen of a range *)

Inductive item : Type :=
| STAR
| Fixed (a : atom).

(** [pat.find(']', j)] on the text that follows the position [j]. *)
Fixpoint find_rbracket (s : list N) : option (list N * list N) :=
  match s with
  | [] => None
  | c :: s' =>
      if c =? c_rbracket then Some ([], s')
      else match find_rbracket s' with
           | Some (stuff, after) => Some (c :: stuff, after)
           | None => None
           end
  end.

(** The scan for the closing bracket: a leading [!] and a [']'] right
    after it are stepped over first.  Gives [pat[i:j]] and [pat[j+1:]]. *)
Definition bracket_body (s : list N) : option (list N * list N) :=
  let (pre1, s1) :=
    match s with
    | c :: s' => if c =? c_bang then ([c], s') else ([], s)
    | [] => ([], s)
    end in
  let (pre2, s2) :=
    match s1 with
    | c :: s' => if c =? c_rbracket then ([c], s') else ([], s1)
    | [] => ([], s1)
    end in
  match find_rbracket s2 with
  | Some (stuff, after) => Some ((pre1 ++ pre2 ++ stuff)%list, after)
  | None => None
  end.

(** The chunks of [stuff]: it is cut at each hyphen found by
    [pat.find('-', k, j)]; [skip] is the distance to [k], [cur] the
    current chunk, last character first.  The last chunk may come out
    empty. *)
Fixpoint cut_chunks (skip : nat) (cur : list N) (s : list N) : list (list N) :=
  match s with
  | [] => [List.rev cur]
  | c :: s' =>
      match skip with
      | S skip' => cut_chunks skip' (c :: cur) s'
      | O => if c =? c_hyphen then List.rev cur :: cut_chunks 2 [] s'
             else cut_chunks 0 (c :: cur) s'
      end
  end.

(** [chunks.append(chunk) if chunk else chunks[-1] += '-'] *)
Fixpoint close_chunks (chunks : list (list N)) : list (list N) :=
  match chunks with
  | [] => []
  | [c] => [c]
  | [c; []] => [(c ++ [c_hyphen])%list]
  | c :: chunks' => c :: close_chunks chunks'
  end.

(** The loop that removes the empty ranges, from the last pair of chunks
    to the first. *)
Fixpoint remove_empty_ranges (chunks : list (list N)) : list (list N) :=
  match chunks with
  | [] => []
  | c1 :: chunks' =>
      match remove_empty_ranges chunks' with
      | [] => [c1]
      | c2 :: tl =>
          if hd 0 c2 <? last c1 0
          then (removelast c1 ++ List.tl c2)%list :: tl
          else c1 :: c2 :: tl
      end
  end.

Definition chunks_of (stuff : list N) : list (list N) :=
  if existsb (N.eqb c_hyphen) stuff then
    let skip := match stuff with
                | c :: _ => if c =? c_bang then 2%nat else 1%nat
                | [] => 1%nat
                end in
    remove_empty_ranges (close_chunks (cut_chunks skip [] stuff))
  else [stuff].

(** The atom for [[stuff]]. *)
Definition class_atom (stuff : list N) : atom :=
  match chunks_of stuff with
  | [] => Never
  | first :: rest =>
      match first, rest with
      | [], [] => Never
      | [c], [] => if c =? c_bang then AnyChar else Class false first rest
      | c :: first', _ =>
          if c =? c_bang then Class true first' rest else Class false first rest
      | [], _ => Class false first rest
      end
  end.

(** The first loop of [translate]; consecutive stars are compressed.
    [skip] counts the characters of a bracket expression that the loop has
    already consumed ([i = j+1]). *)
Fixpoint translate_from (skip : nat) (previous_is_star : bool) (pat : list N)
  : list item :=
  match pat with
  | [] => []
  | c :: pat' =>
      match skip with
      | S skip' => translate_from skip' previous_is_star pat'
      | O =>
          if c =? c_star then
            if previous_is_star then translate_from 0 true pat'
            else STAR :: translate_from 0 true pat'
          else if c =? c_question then
            Fixed AnyChar :: translate_from 0 false pat'
          else if c =? c_lbracket then
            match bracket_body pat' with
            | None => Fixed (Lit c) :: translate_from 0 false pat'
            | Some (stuff, _) =>
                Fixed (class_atom stuff)
                  :: translate_from (S (List.length stuff)) false pat'
            end
          else Fixed (Lit c) :: translate_from 0 false pat'
      end
  end.

Definition translate (pat : list N) : list item :=
  translate_from 0 false pat.

Definition in_chunk (x : N) (chunk : list N) : bool := existsb (N.eqb x) chunk.

(** Membership in the set that [first-rest1-rest2...] denotes: the last
    character of a chunk and the first of the next bound a range. *)
Fixpoint in_chunks (x : N) (first : list N) (rest : list (list N)) : bool :=
  match rest with
  | [] => in_chunk x first
  | next :: rest' =>
      in_chunk x (removelast first)
      || ((last first 0 <=? x) && (x <=? hd 0 next))
      || in_chunks x (List.tl next) rest'
  end.

Definition atom_accepts (a : atom) (x : N) : bool :=
  match a with
  | Lit c => x =? c
  | AnyChar => true
  | Never => false
  | Class negated first rest => xorb negated (in_chunks x first rest)
  end.

(** [fixed] matched at the start of [name]: what follows the match. *)
Fixpoint match_fixed (fixed : list atom) (name : list N) : option (list N) :=
  match fixed with
  | [] => Some name
  | a :: fixed' =>
      match name with
      | [] => None
      | x :: name' => if atom_accepts a x then match_fixed fixed' name' else None
      end
  end.

(** [(?>.*?fixed)]: the first place where [fixed] matches, no way back. *)
Fixpoint match_first (fixed : list atom) (name : list N) : option (list N) :=
  match match_fixed fixed name with
  | Some after => Some after
  | None => match name with
            | [] => None
            | _ :: name' => match_first fixed name'
            end
  end.

(** [.*fixed\Z]: [fixed] matches the end of [name]. *)
Definition match_last (fixed : list atom) (name : list N) : bool :=
  match match_fixed fixed (skipn (List.length name - List.length fixed) name) with
  | Some [] => true
  | _ => false
  end.

(** The pieces of the translated pattern: the atoms before the first star
    and, for each star, the atoms that follow it. *)
Fixpoint groups_of (items : list item) : list atom * list (list atom) :=
  match items with
  | [] => ([], [])
  | Fixed a :: items' => let (fixed, groups) := groups_of items' in (a :: fixed, groups)
  | STAR :: items' => let (fixed, groups) := groups_of items' in ([], fixed :: groups)
  end.

(** The second loop of [translate], run against a name: a star with
    atoms and a further star after it is [(?>.*?fixed)], the last star is
    [.*fixed]. *)
Fixpoint match_stars (groups : list (list atom)) (name : list N) : bool :=
  match groups with
  | [] => match name with [] => true | _ => false end
  | [fixed] => match_last fixed name
  | fixed :: groups' =>
      match match_first fixed name with
      | Some after => match_stars groups' after
      | None => false
      end
  end.

(** [re.compile(translate(pat)).match(name) is not None]; without a star
    the expression is [fixed\Z]. *)
Definition matches (pat name : list N) : bool :=
  let (fixed, groups) := groups_of (translate pat) in
  match match_fixed fixed name with
  | None => false
  | Some after => match_stars groups after
  end.

(** [fnmatch.fnmatch(name, pat)]; [os.path.normcase] is the identity on
    POSIX. *)
Definition fnmatch (name pat : string) : bool :=
  matches (code_points pat) (code_points name).

End Fnmatch.

(** ** The file system *)

#[warnings="-register-all"]
Inductive node : Type :=
| File (content : string)
| Special                                (* a socket or a device *)
| Dir (entries : list (string * node)).

Module FS.
Import PyStr.

Definition is_dir (n : node) : bool :=
  match n with Dir _ => true | _ => false end.

Definition is_file (n : node) : bool :=
  match n with File _ => true | _ => false end.

Fixpoint lookup (name : string) (entries : list (string * node)) : option node :=
  match entries with
  | [] => None
  | (k, n) :: entries' => if String.eqb k name then Some n else lookup name entries'
  end.

(** Path resolution, one component at a time.  [trail] holds, innermost
    first, the name under which each directory on the way was entered and
    the directory it was entered from. *)
Fixpoint resolve_comps (trail : list (string * node)) (cur : node)
         (comps : list string) : result (list (string * node) * node) :=
  match comps with
  | [] => Ok (trail, cur)
  | comp :: comps' =>
      match cur with
      | Dir entries =>
          if String.eqb comp EmptyString || String.eqb comp "." then
            resolve_comps trail cur comps'
          else if String.eqb comp ".." then
            match trail with
            | [] => resolve_comps [] cur comps'
            | (_, parent) :: trail' => resolve_comps trail' parent comps'
            end
          else
            match lookup comp entries with
            | Some child => resolve_comps ((comp, cur) :: trail) child comps'
            | None => Raise FileNotFoundError
            end
      | _ => Raise NotADirectoryError
      end
  end.

Definition comps_from_root (cwd path : string) : list string :=
  if PosixPath.isabs path then split PosixPath.sep path
  else (split PosixPath.sep cwd ++ split PosixPath.sep path)%list.

Definition resolve_trail (root : node) (cwd path : string)
  : result (list (string * node) * node) :=
  if is_empty path then Raise FileNotFoundError
  else resolve_comps [] root (comps_from_root cwd path).

Definition resolve (root : node) (cwd path : string) : result node :=
  match resolve_trail root cwd path with
  | Ok (_, n) => Ok n
  | Raise e => Raise e
  end.

(** [os.path.exists], [os.path.isdir], [os.path.isfile] *)
Definition path_exists (root : node) (cwd path : string) : bool :=
  match resolve root cwd path with Ok _ => true | Raise _ => false end.

Definition path_isdir (root : node) (cwd path : string) : bool :=
  match resolve root cwd path with Ok n => is_dir n | Raise _ => false end.

Definition path_isfile (root : node) (cwd path : string) : bool :=
  match resolve root cwd path with Ok n => is_file n | Raise _ => false end.

(** The directory behind [os.listdir(path)] and [os.scandir(path)]. *)
Definition opendir (root : node) (cwd path : string)
  : result (list (string * node)) :=
  match resolve root cwd path with
  | Ok (Dir entries) => Ok entries
  | Ok _ => Raise NotADirectoryError
  | Raise e => Raise e
  end.

(** [open(path, "r").read()] *)
Definition read_text (root : node) (cwd path : string) : result string :=
  match resolve root cwd path with
  | Ok (File content) => Ok (universal_newlines content)
  | Ok (Dir _) => Raise IsADirectoryError
  | Ok Special => Raise OSError
  | Raise e => Raise e
  end.

(** The entry [name] set to the file [content]: replaced where it is, or
    added.  Where a new entry shows in the listing is the choice of the
    operating system; the model adds it at the end. *)
Fixpoint set_file (name content : string) (entries : list (string * node))
  : list (string * node) :=
  match entries with
  | [] => [(name, File content)]
  | (k, n) :: entries' =>
      if String.eqb k name then (k, File content) :: entries'
      else (k, n) :: set_file name content entries'
  end.

(** The tree with the entries of the directory at [names] replaced. *)
Fixpoint update_dir (names : list string)
         (f : list (string * node) -> list (string * node)) (n : node) : node :=
  match n with
  | Dir entries =>
      match names with
      | [] => Dir (f entries)
      | name :: names' =>
          Dir ((fix update_entry (entries : list (string * node)) :=
                  match entries with
                  | [] => []
                  | (k, child) :: entries' =>
                      if String.eqb k name
                      then (k, update_dir names' f child) :: entries'
                      else (k, child) :: update_entry entries'
                  end) entries)
      end
  | _ => n
  end.

(** The components of a path up to the last one that is not empty: the
    empty components that separators at the end of the path leave are
    dropped. *)
Fixpoint named_comps (comps : list string) : list string :=
  match comps with
  | [] => []
  | comp :: comps' =>
      match named_comps comps' with
      | [] => if String.eqb comp EmptyString then [] else [comp]
      | named => comp :: named
      end
  end.

(** [open(path, "w").write(content)]: the new tree.  For a path that ends
    with a separator the file cannot be created: once the directory above
    the last name is found, the error is [IsADirectoryError] whatever the
    name leads to. *)
Definition write_text (root : node) (cwd path content : string) : result node :=
  if is_empty path then Raise FileNotFoundError
  else
    let comps := comps_from_root cwd path in
    let name := last comps EmptyString in
    if String.eqb name EmptyString then
      match resolve_comps [] root (removelast (named_comps comps)) with
      | Raise e => Raise e
      | Ok (_, Dir _) => Raise IsADirectoryError
      | Ok (_, _) => Raise NotADirectoryError
      end
    else
      match resolve_comps [] root (removelast comps) with
      | Raise e => Raise e
      | Ok (trail, Dir entries) =>
          if String.eqb name "." || String.eqb name ".."
          then Raise IsADirectoryError
          else match lookup name entries with
               | Some (Dir _) => Raise IsADirectoryError
               | Some Special => Raise OSError
               | Some (File _) | None =>
                   Ok (update_dir (List.rev (map fst trail))
                                  (set_file name content) root)
               end
      | Ok (_, _) => Raise NotADirectoryError
      end.

End FS.

(** ** The log *)

Inductive level : Type := INFO | WARNING | ERROR.

(** A value interpolated into a log message. *)
Inductive logarg : Type :=
| LStr (s : string)
| LList (l : list string)
| LNat (n : nat)
| LErr (e : pyerr).

(** A record: its level, the text of the message with [{}] for each
    interpolated value, and the values. *)
Record log_record : Type := Log {
  log_level : level;
  log_text : string;
  log_args : list logarg
}.

(** ** The world and the monad of the methods *)

Record world : Type := World {
  fs_root : node;
  cwd : string;                            (* [os.getcwd()] *)
  log : list log_record                    (* oldest record first *)
}.

Definition M (A : Type) : Type := world -> result A * world.

Definition ret {A} (a : A) : M A := fun w => (Ok a, w).

Definition raise {A} (e : pyerr) : M A := fun w => (Raise e, w).

Definition bind {A B} (m : M A) (k : A -> M B) : M B :=
  fun w => match m w with
           | (Ok a, w') => k a w'
           | (Raise e, w') => (Raise e, w')
           end.

Notation "x <- m ;; k" := (bind m (fun x => k))
  (at level 61, m at next level, right associativity).
Notation "m ;;; k" := (bind m (fun _ => k))
  (at level 61, right associativity).

(** A pure computation that can raise. *)
Definition lift {A} (r : result A) : M A := fun w => (r, w).

(** A read of the file system. *)
Definition reading {A} (f : node -> string -> result A) : M A :=
  fun w => (f (fs_root w) (cwd w), w).

Definition getcwd : M string := fun w => (Ok (cwd w), w).

Definition logging (l : level) (text : string) (args : list logarg) : M unit :=
  fun w => (Ok tt, World (fs_root w) (cwd w) (log w ++ [Log l text args])).

(** [try: m / except Exception as e: handler e] *)
Definition try_except {A} (m : M A) (handler : pyerr -> M A) : M A :=
  fun w => match m w with
           | (Ok a, w') => (Ok a, w')
           | (Raise e, w') => handler e w'
           end.

(** A [for] loop that updates the local [acc]. *)
Fixpoint for_each {A S} (l : list A) (body : A -> S -> M S) (acc : S) : M S :=
  match l with
  | [] => ret acc
  | a :: l' => acc' <- body a acc ;; for_each l' body acc'
  end.

(** [open(path, "w")] followed by [write(content)]. *)
Definition write_file (path content : string) : M unit :=
  fun w => match FS.write_text (fs_root w) (cwd w) path content with
           | Ok root' => (Ok tt, World root' (cwd w) (log w))
           | Raise e => (Raise e, w)
           end.

(** ** [json.loads] *)

Module Json.
Import PyStr.

(** The Python values that a JSON document decodes to.  A number keeps
    its literal; an object is a [dict], its keys in insertion order. *)
#[warnings="-register-all"]
Inductive value : Type :=
| Null
| Boolean (b : bool)
| Number (literal : string)
| Str (s : string)
| Array (items : list value)
| Object (members : list (string * value)).

(** [sys.int_info.default_max_str_digits]: a longer integer literal makes
    [int()] raise [ValueError]. *)
Definition int_max_str_digits : nat := 4300.

Definition code (a : ascii) : nat := nat_of_ascii a.

Definition is_ws (a : ascii) : bool :=
  ((code a =? 32) || (code a =? 9) || (code a =? 10) || (code a =? 13))%nat.

Definition is_digit (a : ascii) : bool :=
  ((48 <=? code a) && (code a <=? 57))%nat.

(** [WHITESPACE.match(s, end).end()] *)
Fixpoint skip_ws (s : string) : string :=
  match s with
  | String c s' => if is_ws c then skip_ws s' else s
  | EmptyString => EmptyString
  end.

Definition hex_digit (a : ascii) : option N :=
  let n := code a in
  if ((48 <=? n) && (n <=? 57))%nat then Some (N.of_nat (n - 48))
  else if ((97 <=? n) && (n <=? 102))%nat then Some (N.of_nat (n - 87))
  else if ((65 <=? n) && (n <=? 70))%nat then Some (N.of_nat (n - 55))
  else None.

(** The four hexadecimal digits of a [\u] escape. *)
Definition hex4 (s : string) : option (N * string) :=
  match s with
  | String a (String b (String c (String d rest))) =>
      match hex_digit a, hex_digit b, hex_digit c, hex_digit d with
      | Some x, Some y, Some z, Some t =>
          Some ((x * 4096 + y * 256 + z * 16 + t)%N, rest)
      | _, _, _, _ => None
      end
  | _ => None
  end.

Definition byte_of (n : N) : ascii := ascii_of_N n.

(** [chr(cp)] in UTF-8; a lone surrogate takes the three-byte form. *)
Definition utf8 (cp : N) : string :=
  (if cp <? 128 then str1 (byte_of cp)
   else if cp <? 2048 then
     String (byte_of (192 + cp / 64)) (str1 (byte_of (128 + cp mod 64)))
   else if cp <? 65536 then
     String (byte_of (224 + cp / 4096))
       (String (byte_of (128 + (cp / 64) mod 64))
          (str1 (byte_of (128 + cp mod 64))))
   else
     String (byte_of (240 + cp / 262144))
       (String (byte_of (128 + (cp / 4096) mod 64))
          (String (byte_of (128 + (cp / 64) mod 64))
             (str1 (byte_of (128 + cp mod 64))))))%N.

(** The table [BACKSLASH]. *)
Definition backslash (a : ascii) : option ascii :=
  let n := code a in
  if (n =? 34)%nat then Some a                      (* the double quote *)
  else if (n =? 92)%nat then Some a                 (* \ *)
  else if (n =? 47)%nat then Some a                 (* / *)
  else if (n =? 98)%nat then Some (chr 8)           (* b *)
  else if (n =? 102)%nat then Some (chr 12)         (* f *)
  else if (n =? 110)%nat then Some (chr 10)         (* n *)
  else if (n =? 114)%nat then Some (chr 13)         (* r *)
  else if (n =? 116)%nat then Some (chr 9)          (* t *)
  else None.

(** A second [\uXXXX] right after a high surrogate: the low surrogate and
    what follows it, if it is one. *)
Definition low_surrogate (s : string) : result (option (N * string)) :=
  match s with
  | String a (String b rest) =>
      if ((code a =? 92) && (code b =? 117))%nat then
        match hex4 rest with
        | None => Raise JSONDecodeError
        | Some (uni2, rest') =>
            if ((56320 <=? uni2) && (uni2 <=? 57343))%N
            then Ok (Some (uni2, rest')) else Ok None
        end
      else Ok None
  | _ => Ok None
  end.

(** [scanstring(s, end)], strict: [s] starts after the opening quote; the
    decoded string and the text after the closing quote. *)
Fixpoint scanstring (s : string) : result (string * string) :=
  let cons (piece : string) (r : result (string * string)) :=
    match r with
    | Ok (decoded, rest) => Ok (piece ++ decoded, rest)
    | Raise e => Raise e
    end in
  match s with
  | EmptyString => Raise JSONDecodeError          (* unterminated *)
  | String c s1 =>
      if (code c =? 34)%nat then Ok (EmptyString, s1)
      else if (code c =? 92)%nat then
        match s1 with
        | EmptyString => Raise JSONDecodeError
        | String esc s2 =>
            if (code esc =? 117)%nat then
              match s2 with
              | String h1 (String h2 (String h3 (String h4 s6))) =>
                  match hex4 s2 with
                  | None => Raise JSONDecodeError
                  | Some (uni, _) =>
                      if ((55296 <=? uni) && (uni <=? 56319))%N then
                        match low_surrogate s6 with
                        | Raise e => Raise e
                        | Ok None => cons (utf8 uni) (scanstring s6)
                        | Ok (Some (uni2, _)) =>
                            match s6 with
                            | String _ (String _ (String _ (String _
                                (String _ (String _ s12))))) =>
                                cons (utf8 (65536 + (uni - 55296) * 1024
                                            + (uni2 - 56320))%N)
                                     (scanstring s12)
                            | _ => Raise JSONDecodeError
                            end
                        end
                      else cons (utf8 uni) (scanstring s6)
                  end
              | _ => Raise JSONDecodeError
              end
            else match backslash esc with
                 | Some ch => cons (str1 ch) (scanstring s2)
                 | None => Raise JSONDecodeError
                 end
        end
      else if (code c <? 32)%nat then Raise JSONDecodeError   (* control character *)
      else cons (str1 c) (scanstring s1)
  end.

(** The digits at the start of [s], and the rest. *)
Fixpoint span_digits (s : string) : string * string :=
  match s with
  | String c s' =>
      if is_digit c then let (ds, rest) := span_digits s' in (String c ds, rest)
      else (EmptyString, s)
  | EmptyString => (EmptyString, EmptyString)
  end.

(** The number at the start of [s]: its literal, whether it is a float,
    and the rest; [None] when no number starts there. *)
Definition match_number (s : string) : option (string * bool * string) :=
  let (sign, s1) :=
    match s with
    | String c s' => if (code c =? 45)%nat then ("-", s') else (EmptyString, s)
    | EmptyString => (EmptyString, s)
    end in
  match s1 with
  | String d s2 =>
      if is_digit d then
        let (int_digits, s3) :=
          if (code d =? 48)%nat then (str1 d, s2)
          else let (ds, rest) := span_digits s2 in (String d ds, rest) in
        let (frac, s4) :=
          match s3 with
          | String dot s3' =>
              if (code dot =? 46)%nat then
                match span_digits s3' with
                | (EmptyString, _) => (EmptyString, s3)
                | (ds, rest) => (String dot ds, rest)
                end
              else (EmptyString, s3)
          | EmptyString => (EmptyString, s3)
          end in
        let (exp, s5) :=
          match s4 with
          | String e s4' =>
              if ((code e =? 101) || (code e =? 69))%nat then
                let (esign, s4'') :=
                  match s4' with
                  | String g rest =>
                      if ((code g =? 43) || (code g =? 45))%nat
                      then (str1 g, rest) else (EmptyString, s4')
                  | EmptyString => (EmptyString, s4')
                  end in
                match span_digits s4'' with
                | (EmptyString, _) => (EmptyString, s4)
                | (ds, rest) => (String e (esign ++ ds), rest)
                end
              else (EmptyString, s4)
          | EmptyString => (EmptyString, s4)
          end in
        let is_float := negb (is_empty frac) || negb (is_empty exp) in
        Some (sign ++ int_digits ++ frac ++ exp, is_float, s5)
      else None
  | EmptyString => None
  end.

(** [dict(pairs)]: a later pair with the same key replaces the value and
    keeps the place of the first. *)
Fixpoint dict_set {A} (k : string) (v : A) (d : list (string * A))
  : list (string * A) :=
  match d with
  | [] => [(k, v)]
  | (k', v') :: d' =>
      if String.eqb k' k then (k', v) :: d' else (k', v') :: dict_set k v d'
  end.

Fixpoint dict_get {A} (k : string) (d : list (string * A)) : option A :=
  match d with
  | [] => None
  | (k', v) :: d' => if String.eqb k' k then Some v else dict_get k d'
  end.

(** The outcome of a scan; [None] is kept for a loop that would run out
    of steps, which [scan_once_some] below shows never to happen. *)
Definition scanned : Type := option (result (value * string)).

(** The loop of [JSONArray], entered at the first value. *)
Fixpoint array_items (scan : string -> scanned) (steps : nat) (s : string)
         (values : list value) : scanned :=
  match steps with
  | O => None
  | S steps' =>
      match scan s with
      | None => None
      | Some (Raise e) => Some (Raise e)
      | Some (Ok (v, rest)) =>
          match skip_ws rest with
          | String c rest' =>
              if (code c =? 93)%nat then
                Some (Ok (Array (values ++ [v]), rest'))
              else if (code c =? 44)%nat then
                array_items scan steps' (skip_ws rest') (values ++ [v])
              else Some (Raise JSONDecodeError)
          | EmptyString => Some (Raise JSONDecodeError)
          end
      end
  end.

(** The loop of [JSONObject], entered after the quote that opens a key. *)
Fixpoint object_members (scan : string -> scanned) (steps : nat) (s : string)
         (pairs : list (string * value)) : scanned :=
  match steps with
  | O => None
  | S steps' =>
      match scanstring s with
      | Raise e => Some (Raise e)
      | Ok (key, rest) =>
          match skip_ws rest with
          | String colon rest1 =>
              if (code colon =? 58)%nat then
                match scan (skip_ws rest1) with
                | None => None
                | Some (Raise e) => Some (Raise e)
                | Some (Ok (v, rest2)) =>
                    match skip_ws rest2 with
                    | String c rest3 =>
                        if (code c =? 125)%nat then
                          Some (Ok (Object (dict_set key v pairs), rest3))
                        else if (code c =? 44)%nat then
                          match skip_ws rest3 with
                          | String q rest4 =>
                              if (code q =? 34)%nat then
                                object_members scan steps' rest4
                                               (dict_set key v pairs)
                              else Some (Raise JSONDecodeError)
                          | EmptyString => Some (Raise JSONDecodeError)
                          end
                        else Some (Raise JSONDecodeError)
                    | EmptyString => Some (Raise JSONDecodeError)
                    end
                end
              else Some (Raise JSONDecodeError)
          | EmptyString => Some (Raise JSONDecodeError)
          end
      end
  end.

(** The branches of [scan_once] for the constants and for numbers. *)
Definition scan_scalar (s : string) : result (value * string) :=
  if startswith s "null" then Ok (Null, substring 4 (String.length s) s)
  else if startswith s "true" then Ok (Boolean true, substring 4 (String.length s) s)
  else if startswith s "false" then Ok (Boolean false, substring 5 (String.length s) s)
  else if startswith s "NaN" then Ok (Number "NaN", substring 3 (String.length s) s)
  else if startswith s "Infinity" then
    Ok (Number "Infinity", substring 8 (String.length s) s)
  else if startswith s "-Infinity" then
    Ok (Number "-Infinity", substring 9 (String.length s) s)
  else
    match match_number s with
    | None => Raise JSONDecodeError
    | Some (literal, is_float, rest) =>
        if negb is_float
           && (int_max_str_digits <? String.length (lstrip_chars "-" literal))%nat
        then Raise ValueError
        else Ok (Number literal, rest)
    end.

(** [scan_once(s, idx)].  [depth] is the number of containers that may
    still be entered before the interpreter raises [RecursionError]. *)
Fixpoint scan_once (depth : nat) (s : string) : scanned :=
  match s with
  | EmptyString => Some (Raise JSONDecodeError)
  | String c s' =>
      if (code c =? 34)%nat then
        match scanstring s' with
        | Ok (str, rest) => Some (Ok (Str str, rest))
        | Raise e => Some (Raise e)
        end
      else if (code c =? 123)%nat then
        match depth with
        | O => Some (Raise RecursionError)
        | S depth' =>
            match skip_ws s' with
            | String q rest =>
                if (code q =? 125)%nat then Some (Ok (Object [], rest))
                else if (code q =? 34)%nat then
                  object_members (scan_once depth') (S (String.length rest)) rest []
                else Some (Raise JSONDecodeError)
            | EmptyString => Some (Raise JSONDecodeError)
            end
        end
      else if (code c =? 91)%nat then
        match depth with
        | O => Some (Raise RecursionError)
        | S depth' =>
            match skip_ws s' with
            | String q rest =>
                if (code q =? 93)%nat then Some (Ok (Array [], rest))
                else array_items (scan_once depth')
                                 (S (String.length rest)) (String q rest) []
            | EmptyString => Some (Raise JSONDecodeError)
            end
        end
      else Some (scan_scalar s)
  end.

(** [json.loads(s)] *)
Definition loads (depth : nat) (s : string) : result value :=
  match scan_once depth (skip_ws s) with
  | Some (Ok (v, rest)) =>
      if is_empty (skip_ws rest) then Ok v else Raise JSONDecodeError
  | Some (Raise e) => Raise e
  | None => Raise JSONDecodeError
  end.

End Json.

(** ** Code points *)

Module CodePoints.
Import PyStr.

(** A byte that continues a character in UTF-8. *)
Definition is_continuation (a : ascii) : bool :=
  ((128 <=? nat_of_ascii a) && (nat_of_ascii a <=? 191))%nat.

Definition continues (s : string) : bool :=
  match s with
  | String c _ => is_continuation c
  | EmptyString => false
  end.

(** [list(s)]: the characters of [s], each with its bytes. *)
Fixpoint chars (s : string) : list string :=
  match s with
  | EmptyString => []
  | String c s' =>
      if continues s' then
        match chars s' with
        | piece :: pieces => String c piece :: pieces
        | [] => [str1 c]
        end
      else str1 c :: chars s'
  end.

(** [s[:n]] *)
Definition slice_to (n : nat) (s : string) : string :=
  String.concat EmptyString (firstn n (chars s)).

(** [s[-n:]] *)
Definition slice_last (n : nat) (s : string) : string :=
  match n with
  | O => s
  | _ => String.concat EmptyString (skipn (List.length (chars s) - n) (chars s))
  end.

(** [s.replace(c, '')] for a one-byte [c]. *)
Fixpoint remove_char (c : ascii) (s : string) : string :=
  match s with
  | EmptyString => EmptyString
  | String a s' => if Ascii.eqb a c then remove_char c s' else String a (remove_char c s')
  end.

End CodePoints.

(** ** [json.dump] *)

Module JsonEncoder.
Import PyStr.

Definition hex_digit_char (n : nat) : ascii :=
  if (n <? 10)%nat then ascii_of_nat (48 + n) else ascii_of_nat (87 + n).

(** The table [ESCAPE_DCT] over the characters that [ESCAPE] matches: the
    double quote, the backslash and the control characters. *)
Definition escape (c : ascii) : string :=
  let n := nat_of_ascii c in
  if (n =? 34)%nat then String (chr 92) (str1 (chr 34))
  else if (n =? 92)%nat then String (chr 92) (str1 (chr 92))
  else if (n =? 8)%nat then String (chr 92) "b"
  else if (n =? 12)%nat then String (chr 92) "f"
  else if (n =? 10)%nat then String (chr 92) "n"
  else if (n =? 13)%nat then String (chr 92) "r"
  else if (n =? 9)%nat then String (chr 92) "t"
  else if (n <? 32)%nat then
    String (chr 92)
      ("u00" ++ String (hex_digit_char (n / 16)) (str1 (hex_digit_char (n mod 16))))
  else str1 c.

Fixpoint escaped (s : string) : string :=
  match s with
  | EmptyString => EmptyString
  | String c s' => escape c ++ escaped s'
  end.

(** [encode_basestring(s)], the encoder of a string when [ensure_ascii]
    is false. *)
Definition encode_basestring (s : string) : string :=
  dquote ++ escaped s ++ dquote.

Definition member (kv : string * string) : string :=
  encode_basestring (fst kv) ++ ": " ++ encode_basestring (snd kv).

(** [json.dumps(d, ensure_ascii=False, indent=4)] for a [dict] whose keys
    and values are [str]: what [json.dump] writes to the file. *)
Definition dumps (d : list (string * string)) : string :=
  match d with
  | [] => "{}"
  | _ =>
      "{" ++ newline ++ "    "
      ++ PyStr.join ("," ++ newline ++ "    ") (map member d)
      ++ newline ++ "}"
  end.

End JsonEncoder.

(** ** The class [AutoReadme] *)

Module AutoReadme.
Import PyStr.

(** The attributes that [__init__] sets.  [None] is a possible value of
    the two optional texts. *)
Record t : Type := Make {
  project_name : string;
  project_dir : string;
  project_description : option string;
  project_author : string;
  project_author_info : option string;
  language : string;
  config_dir : string;
  model : string;
  out_put_dir : string;
  readme_path : string
}.

(** [f"{x}"] for an optional text. *)
Definition str_of (x : option string) : string :=
  match x with Some s => s | None => "None" end.

(** A message of a prompt: its role and its content. *)
Definition message : Type := (string * string)%type.

(** *** Ignore patterns *)

(** The body of the loop over the lines of [.gitignore]. *)
Definition add_pattern (ignore_files : list string) (line : string) : list string :=
  if negb (is_empty line) && negb (startswith line "#") then
    let line := lstrip_chars "/" (strip line) in
    let line := if endswith line "/" then line ++ "*" else line in
    (ignore_files ++ [line])%list
  else ignore_files.

Definition patterns_of_lines (lines : list string) : list string :=
  fold_left add_pattern lines [].

Definition load_ignore_files (self : t) : M (list string) :=
  logging INFO "Loading ignore files" [] ;;;
  let gitignore_path := PosixPath.join (project_dir self) ".gitignore" in
  found <- reading (fun root cwd => Ok (FS.path_exists root cwd gitignore_path)) ;;
  ignore_files <-
    (if found : bool then
       content <- reading (fun root cwd => FS.read_text root cwd gitignore_path) ;;
       ret (patterns_of_lines (lines_keepends content))
     else ret []) ;;
  logging INFO ".gitignore patterns: {}" [LList ignore_files] ;;;
  ret ignore_files.

(** [any(part.startswith('.') for part in filepath.split('/'))] *)
Definition any_dot_part (filepath : string) : bool :=
  existsb (fun part => startswith part ".") (split PosixPath.sep filepath).

(** [is_ignored], [cwd] being the working directory that
    [os.path.relpath] consults. *)
Definition is_ignored_from (cwd : string) (self : t) (filepath : string)
           (ignore_files : list string) : result bool :=
  match PosixPath.relpath cwd filepath (project_dir self) with
  | Raise e => Raise e
  | Ok relative_path =>
      if any_dot_part filepath || contains "__pycache__" relative_path
      then Ok true
      else if existsb (fun pattern => Fnmatch.fnmatch relative_path pattern)
                      ignore_files
      then Ok true
      else Ok false
  end.

Definition is_ignored (self : t) (filepath : string) (ignore_files : list string)
  : M bool :=
  cwd <- getcwd ;;
  lift (is_ignored_from cwd self filepath ignore_files).

(** *** The flat list of scripts and configuration files *)

(** [os.walk(top)] below the directory [n] found at [top]: the triples
    [(root, dirs, files)], top-down.  An entry's node tells whether it is
    a directory; [files] keeps the node for the later [os.path.isfile].
    The tree has no symbolic links, which [os.walk] would list without
    entering them, and the walk has no recursion limit. *)
Fixpoint os_walk (top : string) (n : node)
  : list (string * list string * list (string * node)) :=
  match n with
  | Dir entries =>
      (top,
       map fst (filter (fun e => FS.is_dir (snd e)) entries),
       filter (fun e => negb (FS.is_dir (snd e))) entries)
      :: (fix below (entries : list (string * node)) :=
            match entries with
            | [] => []
            | (dirname, child) :: entries' =>
                if FS.is_dir child
                then (os_walk (PosixPath.join top dirname) child ++ below entries')%list
                else below entries'
            end) entries
  | _ => []
  end.

(** [os.walk(top)] from a path: a directory that cannot be listed yields
    nothing, [onerror] being [None]. *)
Definition walk (top : string)
  : M (list (string * list string * list (string * node))) :=
  fun w => match FS.resolve (fs_root w) (cwd w) top with
           | Ok n => (Ok (os_walk top n), w)
           | Raise _ => (Ok [], w)
           end.

(** The test that selects a script or a configuration file. *)
Definition is_script_or_config (root file : string) : bool :=
  endswith file ".py" || endswith file ".sh" || endswith file ".bash"
  || (endswith file ".json" && contains "config" (lower root)).

Definition find_all_scripts_and_config_files (self : t) : M (list string) :=
  logging INFO "Finding all scripts in {}" [LStr (project_dir self)] ;;;
  ignore_files <- load_ignore_files self ;;
  triples <- walk (project_dir self) ;;
  scripts <-
    for_each triples (fun '(root, _, files) scripts =>
      for_each files (fun '(file, n) scripts =>
        let filepath := PosixPath.join root file in
        ignored <- is_ignored self filepath ignore_files ;;
        if negb ignored then
          if is_script_or_config root file && FS.is_file n
          then ret (scripts ++ [filepath])%list
          else ret scripts
        else ret scripts) scripts) [] ;;
  logging INFO "Found {} scripts" [LNat (List.length scripts)] ;;;
  ret scripts.

(** *** The structural listing *)

(** [sorted(...)] on names, each name carrying what the loop needs. *)
Fixpoint insert_sorted {A} (x : string * A) (l : list (string * A))
  : list (string * A) :=
  match l with
  | [] => [x]
  | y :: l' =>
      if String.leb (fst x) (fst y) then x :: l else y :: insert_sorted x l'
  end.

Definition sorted {A} (l : list (string * A)) : list (string * A) :=
  fold_right insert_sorted [] l.

Definition directory_line (indent_level : nat) (item : string) : string :=
  repeat_str "  " indent_level ++ "- **" ++ item ++ "/**".

Definition file_line (indent_level : nat) (item : string) : string :=
  repeat_str "  " indent_level ++ "- " ++ item.

(** The body of [generate_project_structure] once [ignore_files] is set,
    for the directory [n] found at [dir_path].  Each entry is paired with
    the listing of its own subtree, which the loop runs for the
    directories it keeps.  The tree has no symbolic links, which
    [os.path.isdir] and [os.listdir] would follow, and the recursion has
    no limit. *)
Fixpoint structure_of (self : t) (ignore_files : list string) (n : node)
         (dir_path : string) (indent_level : nat) {struct n} : M (list string) :=
  match n with
  | Dir entries =>
      let items :=
        (fix pair_up (entries : list (string * node)) :=
           match entries with
           | [] => []
           | (item, child) :: entries' =>
               (item,
                (FS.is_dir child,
                 structure_of self ignore_files child
                              (PosixPath.join dir_path item) (S indent_level)))
               :: pair_up entries'
           end) entries in
      for_each (sorted items)
        (fun '(item, (isdir, recurse)) markdown_lines =>
           let item_path := PosixPath.join dir_path item in
           ignored <- is_ignored self item_path ignore_files ;;
           if ignored : bool then ret markdown_lines
           else
             logging INFO "Add to structure: {}" [LStr item_path] ;;;
             if isdir : bool then
               below <- recurse ;;
               ret (markdown_lines ++ [directory_line indent_level item] ++ below)%list
             else ret (markdown_lines ++ [file_line indent_level item])%list)
        []
  | _ => raise NotADirectoryError
  end.

Definition generate_project_structure (self : t) (dir_path : string)
           (indent_level : nat) (ignore_files : option (list string))
  : M (list string) :=
  ignore_files <- match ignore_files with
                  | None => load_ignore_files self
                  | Some l => ret l
                  end ;;
  n <- reading (fun root cwd => FS.resolve root cwd dir_path) ;;
  structure_of self ignore_files n dir_path indent_level.

(** *** Dependencies and the README *)

(** [output_dict["requirements"]] *)
Definition subscript (v : Json.value) (key : string) : result Json.value :=
  match v with
  | Json.Object members =>
      match Json.dict_get key members with
      | Some x => Ok x
      | None => Raise KeyError
      end
  | _ => Raise TypeError
  end.

Definition find_imports (content : string) : list string :=
  fold_left (fun import_code_lines line =>
               if startswith line "import" || startswith line "from"
               then (import_code_lines ++ [line])%list
               else import_code_lines)
            (split (chr 10) content) [].

Definition save_content_to_file (content file_path : string) : M unit :=
  write_file file_path content ;;;
  logging INFO "Saved to {}" [LStr file_path].

Definition is_dependency_file (file : string) : bool :=
  String.eqb file "requirements.txt" || String.eqb file "PROJECT_STRUCTURE.md"
  || String.eqb file "SCRIPT_DESCRIPTION.json" || contains "README" file.

Definition get_dependency_content (self : t) : M (list (string * string)) :=
  logging INFO "Reading dependency content" [] ;;;
  entries <- reading (fun root cwd => FS.opendir root cwd (out_put_dir self)) ;;
  let files := map fst entries in
  match files with
  | [] => ret []
  | _ =>
      for_each files (fun file dependency_content =>
        if is_dependency_file file then
          content <- reading (fun root cwd =>
                       FS.read_text root cwd (PosixPath.join (out_put_dir self) file)) ;;
          ret (Json.dict_set (title file) content dependency_content)
        else ret dependency_content) []
  end.

Section Collaborators.

(** [llm_api.get_model_answer(model_name, inputs_list, config_dir)]: the
    text-generation service, which answers or raises. *)
Variable get_model_answer : string -> list message -> string -> result string.

(** What [pip freeze] prints. *)
Variable pip_freeze : string.

(** The number of nested arrays and objects that [json.loads] can enter
    before the interpreter raises [RecursionError]; it depends on the
    recursion limit and on the depth of the stack at the call. *)
Variable json_depth : nat.

(** [os.system(f"pip freeze > {path}")]: the shell creates the file if
    it can; a failure is not an exception.  The path stands unquoted in
    the command: the model is that of a path that the shell reads as one
    word, for which the redirection goes to the path itself. *)
Definition system_pip_freeze (path : string) : M unit :=
  fun w => match FS.write_text (fs_root w) (cwd w) path pip_freeze with
           | Ok root' => (Ok tt, World root' (cwd w) (log w))
           | Raise _ => (Ok tt, w)
           end.

Definition generate_environment_requirements (self : t) : M (list string) :=
  let path := PosixPath.join (out_put_dir self) "requirements_env.txt" in
  logging INFO "Generating environment requirements..." [] ;;;
  logging WARNING
    "Please ensure that the environment requirements are accurate and up-to-date!" [] ;;;
  system_pip_freeze path ;;;
  logging INFO "Environment requirements have been saved to {}" [LStr path] ;;;
  content <- reading (fun root cwd => FS.read_text root cwd path) ;;
  ret (map strip (lines_keepends content)).

(** The local function of [generate_project_requirements]. *)
Definition parse_requirements_output (output : string) : M Json.value :=
  try_except
    (let output_str := rstrip_chars "```" (lstrip_chars "```json" output) in
     output_dict <- lift (Json.loads json_depth output_str) ;;
     lift (subscript output_dict "requirements"))
    (fun e =>
       logging ERROR "Error parsing requirements output: {}, {}"
               [LStr output; LErr e] ;;;
       ret (Json.Array [])).

Definition requirements_instruction
           (import_code_lines_str environment_requirements_str : string) : string :=
  "Based on the following Python code and the existing environment-exported `requirements.txt`, generate a new `requirements.txt` file. "
  ++ "Ensure that the final file accurately reflects the modules used in the code, removing any unnecessary dependencies and including the correct versions."
  ++ newline
  ++ "```python" ++ newline
  ++ import_code_lines_str ++ newline
  ++ "```" ++ newline
  ++ "Existing `requirements.txt` content:" ++ newline
  ++ "```" ++ newline
  ++ environment_requirements_str ++ newline
  ++ "```" ++ newline
  ++ "The output should be a markdown code snippet formatted in JSON, such as: "
  ++ "```json {" ++ dquote ++ "requirements" ++ dquote ++ ": ["
  ++ dquote ++ "module1==1.0.0" ++ dquote ++ ", "
  ++ dquote ++ "module2==2.0.0" ++ dquote ++ "]} ```".

(** The statements of [generate_project_requirements] that build the
    prompt. *)
Definition requirements_prompt (self : t) : M (list message) :=
  environment_requirements <- generate_environment_requirements self ;;
  let environment_requirements_str := PyStr.join newline environment_requirements in
  logging INFO "Generating project requirements..." [] ;;;
  scripts <- find_all_scripts_and_config_files self ;;
  import_code_lines <-
    for_each scripts (fun script import_code_lines =>
      content <- reading (fun root cwd => FS.read_text root cwd script) ;;
      ret (import_code_lines ++ find_imports content)%list) [] ;;
  let import_code_lines_str := PyStr.join newline import_code_lines in
  let sys_instruction :=
    requirements_instruction import_code_lines_str environment_requirements_str in
  ret [("system", sys_instruction)].

Definition generate_project_requirements (self : t) : M Json.value :=
  prompt <- requirements_prompt self ;;
  answer <- lift (get_model_answer (model self) prompt (config_dir self)) ;;
  requirements_list <- parse_requirements_output answer ;;
  ret requirements_list.

Definition readme_instruction (self : t) : string :=
  "Generate a comprehensive README file for this project that includes, but is not limited to the following sections. If specific details are unknown, set <> as placeholders: "
  ++ "1. Project Title: The name of the project."
  ++ "2. Description: A brief overview of the project's purpose, features, and key functionalities."
  ++ "3. Configuration: Information on any configuration files or environment variables required."
  ++ "4. Installation: Step-by-step instructions on how to install and set up the project, including any dependencies."
  ++ "5. Usage: Examples of how to use the project, including any command-line instructions or code snippets. Indicates main function or entry of the program."
  ++ "6. Output: The expected output position and data formats of the output."
  ++ "7. Contact Information: How to reach the maintainers or developers for support or inquiries."
  ++ "Ensure that the README is clear, well-organized, and helpful for both new users and contributors."
  ++ (if String.eqb (language self) "cn" then "用中文回答。" else EmptyString).

Definition readme_query (self : t) (dependencies : list (string * string)) : string :=
  fold_left (fun query '(title, content) =>
               query ++ newline ++ newline ++ title ++ ":" ++ newline ++ content)
            dependencies
            ("The information of this project is as follows:" ++ newline
             ++ "project_name: " ++ project_name self ++ newline
             ++ "project_author: " ++ project_author self ++ newline
             ++ "project_author_info: " ++ str_of (project_author_info self) ++ newline
             ++ "project_short_description: " ++ str_of (project_description self)
             ++ newline).

Definition generate_readme (self : t) : M unit :=
  let sys_instruction := readme_instruction self in
  dependencies <- get_dependency_content self ;;
  match dependencies with
  | [] =>
      logging ERROR
        "No dependency files found. Please run 'generate_dependency' first." []
  | _ =>
      let query := readme_query self dependencies in
      let prompt := [("system", sys_instruction); ("user", query)] in
      answer <- lift (get_model_answer (model self) prompt (config_dir self)) ;;
      save_content_to_file answer (readme_path self) ;;;
      logging INFO "README has been generated and saved to {}"
              [LStr (readme_path self)]
  end.

(** [sep.join(v)] for a value that [json.loads] returned: a list must hold
    strings only, a string gives its characters, a [dict] its keys; any
    other value is not iterable. *)
Definition join_value (sep : string) (v : Json.value) : result string :=
  match v with
  | Json.Array items =>
      match
        fold_right (fun item strs =>
                      match item, strs with
                      | Json.Str s, Some l => Some (s :: l)
                      | _, _ => None
                      end) (Some []) items
      with
      | Some strs => Ok (PyStr.join sep strs)
      | None => Raise TypeError
      end
  | Json.Str s => Ok (PyStr.join sep (CodePoints.chars s))
  | Json.Object members => Ok (PyStr.join sep (map fst members))
  | _ => Raise TypeError
  end.

Definition description_instruction (self : t) : string :=
  "Please generate a summarized description that outlines the functionality of the following code/script,"
  ++ " including its input and output parameters, key algorithms or logic."
  ++ " Ensure the description is clear and concise, suitable for technical documentation or code comments."
  ++ (if String.eqb (language self) "cn" then "用中文回答。" else EmptyString).

Definition generate_file_description (self : t) (script_path : string) : M string :=
  script_content <- reading (fun root cwd => FS.read_text root cwd script_path) ;;
  let sys_instruction := description_instruction self in
  let prompt := [("system", sys_instruction); ("user", script_content)] in
  answer <- lift (get_model_answer (model self) prompt (config_dir self)) ;;
  ret answer.

Definition generate_description_of_all_scripts (self : t)
  : M (list (string * string)) :=
  logging INFO "Generating description of all scripts..." [] ;;;
  scripts <- find_all_scripts_and_config_files self ;;
  for_each scripts (fun script script_description =>
    description <- generate_file_description self script ;;
    let script_description := Json.dict_set script description script_description in
    let brief_start :=
      CodePoints.remove_char (chr 10) (CodePoints.slice_to 20 description) in
    let brief_end :=
      CodePoints.remove_char (chr 10) (CodePoints.slice_last 20 description) in
    logging INFO "Description of {}: {}...{}"
            [LStr script; LStr brief_start; LStr brief_end] ;;;
    ret script_description) [].

Definition generate_dependency (self : t) : M unit :=
  logging INFO "Generating project structure..." [] ;;;
  project_structure <- generate_project_structure self (project_dir self) 0 None ;;
  save_content_to_file (PyStr.join newline project_structure)
                       (PosixPath.join (out_put_dir self) "PROJECT_STRUCTURE.md") ;;;
  requirements <- generate_project_requirements self ;;
  requirements_text <- lift (join_value newline requirements) ;;
  save_content_to_file requirements_text
                       (PosixPath.join (out_put_dir self) "requirements.txt") ;;;
  scripts_description <- generate_description_of_all_scripts self ;;
  write_file (PosixPath.join (out_put_dir self) "SCRIPT_DESCRIPTION.json")
             (JsonEncoder.dumps scripts_description) ;;;
  logging INFO "Dependencies have been generated and saved to {}"
          [LStr (out_put_dir self)].

End Collaborators.

End AutoReadme.

(** ** The notions of the specification *)

Module Spec.
Import PyStr.

(** A line of a text file, with its newline. *)
Definition line (text : string) : string := text ++ newline.

(** A blank line: nothing but white space. *)
Definition is_blank (line : string) : bool := is_empty (strip line).

(** The pattern that the loop of [load_ignore_files] appends for a line
    it keeps. *)
Definition pattern_of_line (line : string) : string :=
  let p := lstrip_chars "/" (strip line) in
  if endswith p "/" then p ++ "*" else p.

(** The ignore-file rule as the specification words it: blank lines and
    comment lines are skipped; a kept line loses its surrounding white
    space and one leading path separator. *)
Definition strip_one_separator (s : string) : string :=
  match s with
  | String c s' => if Ascii.eqb c "/" then s' else s
  | EmptyString => s
  end.

Definition patterns_as_specified (lines : list string) : list string :=
  map (fun line => strip_one_separator (strip line))
      (filter (fun line => negb (is_blank line) && negb (startswith line "#")) lines).

(** The name of a dependency entry, as the specification words it (a name
    plus an optional version): the text before the first character of a
    version specifier. *)
Fixpoint dependency_name (entry : string) : string :=
  match entry with
  | EmptyString => EmptyString
  | String c entry' =>
      if mem_char c "=<>!~" then EmptyString else String c (dependency_name entry')
  end.

Definition dependency_names (requirements : Json.value) : list string :=
  match requirements with
  | Json.Array items =>
      flat_map (fun item => match item with
                            | Json.Str entry => [dependency_name entry]
                            | _ => []
                            end) items
  | _ => []
  end.

(** The paths that a run of the structural walk kept, read off its
    [logging.info(f"Add to structure: {item_path}")] records. *)
Definition added_to_structure (records : list log_record) : list string :=
  flat_map (fun r =>
              match log_args r with
              | [LStr item_path] =>
                  if String.eqb (log_text r) "Add to structure: {}"
                  then [item_path] else []
              | _ => []
              end) records.

(** The names that a directory can hold: not empty, no separator. *)
Definition valid_name (name : string) : bool :=
  negb (is_empty name) && negb (contains "/" name).


(** What the two loops of [find_all_scripts_and_config_files] collect, as a
    function of the triples of [os.walk]: for each file, in order, its path
    if it is not ignored, passes the test of the extensions and is a regular
    file. *)
Definition kept_script (cwd : string) (self : AutoReadme.t) (ignore_files : list string)
           (root : string) (entry : string * node) : list string :=
  let filepath := PosixPath.join root (fst entry) in
  match AutoReadme.is_ignored_from cwd self filepath ignore_files with
  | Ok false =>
      if AutoReadme.is_script_or_config root (fst entry) && FS.is_file (snd entry)
      then [filepath] else []
  | _ => []
  end.

Definition scripts_of (cwd : string) (self : AutoReadme.t) (ignore_files : list string)
           (triples : list (string * list string * list (string * node)))
  : list string :=
  flat_map (fun triple =>
              flat_map (kept_script cwd self ignore_files (fst (fst triple)))
                       (snd triple))
           triples.

(** The entries of the scenario's root, [.git/config], [src/...] and
    [config/settings.json], with any file contents, and the two entries of
    [src]. *)
Definition scenario_entries (git_config settings : string)
           (src_entries : list (string * node)) : list (string * node) :=
  [(".git", Dir [("config", File git_config)]);
   ("src", Dir src_entries);
   ("config", Dir [("settings.json", File settings)])].

Definition scenario_src (main readme : string) : list (string * node) :=
  [("main.py", File main); ("README", File readme)].

(** What the scenario's tree contributes to the flat list for each entry of
    its root, by the entry's name. *)
Definition scenario_hit (project_dir name : string) : list string :=
  if String.eqb name "config"
  then [PosixPath.join (PosixPath.join project_dir "config") "settings.json"]
  else if String.eqb name "src"
  then [PosixPath.join (PosixPath.join project_dir "src") "main.py"]
  else [].

(** The text that [parse_requirements_output] hands to [json.loads]. *)
Definition without_fence (output : string) : string :=
  rstrip_chars "```" (lstrip_chars "```json" output).

(** The [try] block of [parse_requirements_output]: the reply parses when
    this is [Ok]. *)
Definition decoded_requirements (json_depth : nat) (output : string)
  : result Json.value :=
  match Json.loads json_depth (without_fence output) with
  | Ok output_dict => AutoReadme.subscript output_dict "requirements"
  | Raise e => Raise e
  end.

(** The record that [parse_requirements_output] logs when the [try]
    block raises [e]. *)
Definition parse_error_record (output : string) (e : pyerr) : log_record :=
  Log ERROR "Error parsing requirements output: {}, {}" [LStr output; LErr e].

(** A scanner that answers, and consumes what it scans. *)
Definition scanner_ok (scan : string -> Json.scanned) : Prop :=
  forall s,
    (exists r, scan s = Some r)
    /\ (forall v rest, scan s = Some (Ok (v, rest)) ->
                       String.length rest < String.length s).

End Spec.

(** ** Sample data *)

Module Sample.

(** An instance for the project at [dir] with the output directory
    [out]. *)
Definition instance (dir out : string) : AutoReadme.t :=
  AutoReadme.Make "demo" dir None "author" None "en" "/cfg" "gpt-4o" out
                  (PosixPath.join out "README.md").

(** A collaborator that always gives the same answer. *)
Definition answering (reply : string)
  : string -> list AutoReadme.message -> string -> result string :=
  fun _ _ _ => Ok reply.

(** The tree of the scenario: [.git/config], [src/main.py], [src/README],
    [config/settings.json]; the directory reports [src] first. *)
Definition scenario_tree : node :=
  Dir [("src", Dir [("main.py", File "import os"); ("README", File "notes")]);
       (".git", Dir [("config", File "[core]")]);
       ("config", Dir [("settings.json", File "{}")])].

(** A project whose [.gitignore] names the directory [build] without a
    trailing separator. *)
Definition build_tree : node :=
  Dir [(".gitignore", File ("build" ++ PyStr.newline));
       ("build", Dir [("main.py", File "import sys")]);
       ("app.py", File "import os")].

(** A project whose [.gitignore] holds the one line [//build/]. *)
Definition slashes_tree : node :=
  Dir [(".gitignore", File ("//build/" ++ PyStr.newline));
       ("build", Dir [("main.py", File "import sys")])].

(** A machine with the given project at [/proj], an output directory
    [/out] that holds [notes.txt], and an empty directory [/empty]. *)
Definition machine (project : node) (cwd : string) : world :=
  World (Dir [("proj", project);
              ("out", Dir [("notes.txt", File "to do")]);
              ("empty", Dir []);
              ("home", Dir [(".cfg", Dir [("proj", project)])])])
        cwd [].

(** The reply in the form that the prompt asks for: a fenced JSON object
    whose [requirements] member lists [entries]. *)
Definition requirements_reply (entries : list string) : string :=
  "```json {" ++ PyStr.dquote ++ "requirements" ++ PyStr.dquote ++ ": ["
  ++ PyStr.join ", " (map (fun entry => PyStr.dquote ++ entry ++ PyStr.dquote) entries)
  ++ "]} ```".



(** A project in which [.gitignore] is a directory. *)
Definition gitignore_directory_tree : node :=
  Dir [(".gitignore", Dir []); ("app.py", File "import os")].

(** A project with a [.json] file at its top and one in a
    sub-directory. *)
Definition json_tree : node :=
  Dir [("package.json", File "{}");
       ("data", Dir [("table.json", File "[]")])].

(** A machine with [json_tree] at [/my-config-tool] and at [/tool]. *)
Definition json_machine : world :=
  World (Dir [("my-config-tool", json_tree); ("tool", json_tree)]) "/" [].

(** A machine whose output directory [/out] holds an artifact. *)
Definition artifact_machine : world :=
  World (Dir [("out", Dir [("requirements.txt", File "numpy==1.0")])]) "/" [].

(** A collaborator that always fails. *)
Definition failing (reason : string)
  : string -> list AutoReadme.message -> string -> result string :=
  fun _ _ _ => Raise (CollaboratorError reason).

(** The tree of the scenario as another file system may list it. *)
Definition scenario_tree_reordered : node :=
  Dir [("config", Dir [("settings.json", File "{}")]);
       (".git", Dir [("config", File "[core]")]);
       ("src", Dir [("README", File "notes"); ("main.py", File "import os")])].

End Sample.

(** ** Notions of the further properties *)

Module Aux.
Import PyStr.

(** The test of [find_imports] on a line. *)
Definition is_import_line (line : string) : bool :=
  startswith line "import" || startswith line "from".

(** What the structural walk keeps below the directory [n] found at
    [dir_path]: for each entry that it adds, in the order of the walk, the
    path of the entry and its line. *)
Fixpoint listing (cwd : string) (self : AutoReadme.t) (ignore_files : list string)
         (n : node) (dir_path : string) (indent_level : nat) {struct n}
  : list (string * string) :=
  match n with
  | Dir entries =>
      let items :=
        (fix pair_up (entries : list (string * node)) :=
           match entries with
           | [] => []
           | (item, child) :: entries' =>
               (item,
                (FS.is_dir child,
                 listing cwd self ignore_files child
                         (PosixPath.join dir_path item) (S indent_level)))
               :: pair_up entries'
           end) entries in
      flat_map (fun '(item, (isdir, below)) =>
                  let item_path := PosixPath.join dir_path item in
                  match AutoReadme.is_ignored_from cwd self item_path ignore_files with
                  | Ok false =>
                      if isdir : bool
                      then (item_path, AutoReadme.directory_line indent_level item)
                             :: below
                      else [(item_path, AutoReadme.file_line indent_level item)]
                  | _ => []
                  end)
               (AutoReadme.sorted items)
  | _ => []
  end.

(** The record that the structural walk logs for an entry that it adds. *)
Definition add_record (item_path : string) : log_record :=
  Log INFO "Add to structure: {}" [LStr item_path].

(** A path below the directory [n] found at [dir_path], reached through
    entries of the tree none of which [is_ignored] holds back: an entry
    of [n] that is kept, or a path reached in the same way from a kept
    entry of [n]. *)
Inductive kept_chain (cwd : string) (self : AutoReadme.t) (ignore_files : list string)
  : node -> string -> string -> Prop :=
| kept_entry (entries : list (string * node)) (dir_path item : string) (child : node) :
    In (item, child) entries ->
    Spec.valid_name item = true ->
    AutoReadme.is_ignored_from cwd self (PosixPath.join dir_path item) ignore_files
    = Ok false ->
    kept_chain cwd self ignore_files (Dir entries) dir_path
               (PosixPath.join dir_path item)
| kept_below (entries : list (string * node)) (dir_path item path : string)
             (child : node) :
    In (item, child) entries ->
    Spec.valid_name item = true ->
    AutoReadme.is_ignored_from cwd self (PosixPath.join dir_path item) ignore_files
    = Ok false ->
    kept_chain cwd self ignore_files child (PosixPath.join dir_path item) path ->
    kept_chain cwd self ignore_files (Dir entries) dir_path path.

(** A path that the shell reads as one word where it stands unquoted in
    a command: letters, digits, [/], [.], [_] and [-] only. *)
Definition shell_word_char (c : ascii) : bool :=
  let n := nat_of_ascii c in
  ((48 <=? n) && (n <=? 57))%nat || ((65 <=? n) && (n <=? 90))%nat
  || ((97 <=? n) && (n <=? 122))%nat || mem_char c "/._-".

Fixpoint shell_word_chars (s : string) : bool :=
  match s with
  | EmptyString => true
  | String c s' => shell_word_char c && shell_word_chars s'
  end.

Definition shell_word (path : string) : bool :=
  negb (is_empty path) && shell_word_chars path.

(** A line moved to the right by [indent_level] levels. *)
Definition indented (indent_level : nat) (line : string) : string :=
  repeat_str "  " indent_level ++ line.

(** A tree as a file system holds it: in every directory the names are
    distinct, none is empty, holds a separator, or is [.] or [..]. *)
Fixpoint listable (n : node) : Prop :=
  match n with
  | Dir entries =>
      NoDup (map fst entries)
      /\ (fix all (entries : list (string * node)) : Prop :=
            match entries with
            | [] => True
            | (name, child) :: entries' =>
                (Spec.valid_name name = true
                 /\ String.eqb name "." = false /\ String.eqb name ".." = false)
                /\ listable child /\ all entries'
            end) entries
  | _ => True
  end.

(** The extensions of scripts, whatever the directory. *)
Definition has_script_extension (path : string) : bool :=
  endswith path ".py" || endswith path ".sh" || endswith path ".bash".

(** The node found by going down from [n] through [names]. *)
Fixpoint descend (n : node) (names : list string) : option node :=
  match names with
  | [] => Some n
  | name :: names' =>
      match n with
      | Dir entries =>
          match FS.lookup name entries with
          | Some child => descend child names'
          | None => None
          end
      | _ => None
      end
  end.

(** The names under which the directories of a trail were entered,
    outermost first. *)
Definition position (trail : list (string * node)) : list string :=
  List.rev (map fst trail).

(** A trail that leads from [root] to [cur]. *)
Fixpoint on_trail (root : node) (trail : list (string * node)) (cur : node) : Prop :=
  match trail with
  | [] => cur = root
  | (name, parent) :: trail' =>
      (exists entries, parent = Dir entries /\ FS.lookup name entries = Some cur)
      /\ on_trail root trail' parent
  end.

(** What is left of [target] after [names], if [names] begins it. *)
Fixpoint strip_prefix (names target : list string) : option (list string) :=
  match names, target with
  | [], _ => Some target
  | x :: names', y :: target' =>
      if String.eqb x y then strip_prefix names' target' else None
  | _ :: _, [] => None
  end.

(** The node that stands at [names] once the directory at [target] has
    its entries replaced by [f], [n] being the node that stood there. *)
Definition image (target : list string)
           (f : list (string * node) -> list (string * node))
           (names : list string) (n : node) : node :=
  match strip_prefix names target with
  | Some rest => FS.update_dir rest f n
  | None => n
  end.

Fixpoint image_trail (target : list string)
         (f : list (string * node) -> list (string * node))
         (trail : list (string * node)) : list (string * node) :=
  match trail with
  | [] => []
  | (name, parent) :: trail' =>
      (name, image target f (position trail') parent)
      :: image_trail target f trail'
  end.

(** [set_file] where it can stand for a write: a directory is not
    replaced. *)
Definition set_file_guarded (name content : string) (entries : list (string * node))
  : list (string * node) :=
  match FS.lookup name entries with
  | Some (Dir _) => entries
  | _ => FS.set_file name content entries
  end.

(** The entries with the first one named [name] changed by [g]. *)
Fixpoint update_entry (name : string) (g : node -> node)
         (entries : list (string * node)) : list (string * node) :=
  match entries with
  | [] => []
  | (k, child) :: entries' =>
      if String.eqb k name then (k, g child) :: entries'
      else (k, child) :: update_entry name g entries'
  end.

(** What [json.dump] writes after the first member of a [dict]: the
    members that remain, each after a comma and a new line, and the closing
    brace on a line of its own. *)
Fixpoint members_tail (d : list (string * string)) : string :=
  match d with
  | [] => newline ++ "}"
  | kv :: d' => "," ++ newline ++ "    " ++ JsonEncoder.member kv ++ members_tail d'
  end.

(** The [dict] that [json.loads] builds from the members of [d]. *)
Definition decoded_members (d : list (string * string)) : list (string * Json.value) :=
  map (fun kv => (fst kv, Json.Str (snd kv))) d.

(** A text that begins with one of [chars], and one that ends with one of
    them. *)
Definition begins_with_one_of (chars s : string) : bool :=
  match s with
  | String c _ => mem_char c chars
  | EmptyString => false
  end.

Definition ends_with_one_of (chars s : string) : bool :=
  begins_with_one_of chars (rev s).

(** A reply inside a fence. *)
Definition fenced (body : string) : string := "```json" ++ body ++ "```".

(** The text of a JSON list of strings after its first item: the items
    that remain, each after a comma and a space, and the closing bracket. *)
Fixpoint items_tail (entries : list string) : string :=
  match entries with
  | [] => "]"
  | entry :: entries' => ", " ++ dquote ++ entry ++ dquote ++ items_tail entries'
  end.

(** Two trees that hold the same entries, directory by directory, the
    entries of a directory being listed in any order. *)
Fixpoint same_tree (n n' : node) {struct n} : Prop :=
  match n, n' with
  | File content, File content' => content = content'
  | Special, Special => True
  | Dir entries, Dir entries' =>
      exists reordered,
        Permutation reordered entries'
        /\ (fix same_entries (entries reordered : list (string * node)) : Prop :=
              match entries, reordered with
              | [], [] => True
              | (name, child) :: entries', (name', child') :: reordered' =>
                  name = name' /\ same_tree child child'
                  /\ same_entries entries' reordered'
              | _, _ => False
              end) entries reordered
  | _, _ => False
  end.

End Aux.

(** * Properties *)

Unset Implicit Arguments.

Import PyStr.

(** ** Strings *)

Lemma startswith_refl (s : string) : startswith s s = true.
Proof.
  induction s as [|c s IH]; simpl; [reflexivity|].
  now rewrite Ascii.eqb_refl.
Qed.

Lemma startswith_empty (s : string) : startswith s EmptyString = true.
Proof. destruct s; reflexivity. Qed.

Lemma startswith_app (p s : string) : startswith (p ++ s) p = true.
Proof.
  induction p as [|c p IH]; simpl; [apply startswith_empty|].
  now rewrite Ascii.eqb_refl.
Qed.

Lemma contains_unfold (sub : string) (c : ascii) (s : string) :
  contains sub (String c s) = startswith (String c s) sub || contains sub s.
Proof. reflexivity. Qed.

Lemma contains_cons (sub : string) (c : ascii) (s : string) :
  contains sub s = true -> contains sub (String c s) = true.
Proof.
  intros H. rewrite contains_unfold, H. apply orb_true_r.
Qed.

Lemma contains_app_l (sub a : string) : contains sub (a ++ sub) = true.
Proof.
  induction a as [|c a IH].
  - change (EmptyString ++ sub) with sub.
    destruct sub as [|d sub]; [reflexivity|].
    now rewrite contains_unfold, startswith_refl.
  - change (String c a ++ sub) with (String c (a ++ sub)). now apply contains_cons.
Qed.

Lemma startswith_app_r (p x y : string) :
  startswith x p = true -> startswith (x ++ y) p = true.
Proof.
  revert x; induction p as [|c p IH]; intros x H; [apply startswith_empty|].
  destruct x as [|d x]; simpl in *; [discriminate|].
  apply andb_true_iff in H as [H1 H2]. rewrite H1. simpl. now apply IH.
Qed.

Lemma contains_app_r (sub a b : string) :
  contains sub a = true -> contains sub (a ++ b) = true.
Proof.
  induction a as [|c a IH]; intros H.
  - destruct sub; [|discriminate]. destruct b; reflexivity.
  - rewrite contains_unfold in H. apply orb_true_iff in H as [H|H].
    + change (String c a ++ b) with (String c (a ++ b)). rewrite contains_unfold.
      change (String c (a ++ b)) with (String c a ++ b).
      now rewrite (startswith_app_r _ _ b H).
    + change (String c a ++ b) with (String c (a ++ b)).
      apply contains_cons. now apply IH.
Qed.

(** The pieces of [split]. *)

Lemma split_not_nil (c : ascii) (s : string) : split c s <> [].
Proof.
  destruct s as [|a s]; simpl; [discriminate|].
  destruct (Ascii.eqb a c); [discriminate|].
  destruct (split c s); discriminate.
Qed.

Lemma split_head_prefix (c : ascii) (s : string) :
  startswith s (hd EmptyString (split c s)) = true.
Proof.
  induction s as [|a s IH]; simpl; [reflexivity|].
  destruct (Ascii.eqb a c); simpl; [reflexivity|].
  destruct (split c s) as [|piece pieces] eqn:E; simpl in *;
    rewrite Ascii.eqb_refl; simpl; [apply startswith_empty | exact IH].
Qed.

Lemma In_split_contains (c : ascii) (x s : string) :
  In x (split c s) -> contains x s = true.
Proof.
  induction s as [|a s IH]; intros H.
  - simpl in H. destruct H as [<-|[]]. reflexivity.
  - simpl in H. destruct (Ascii.eqb a c).
    + destruct H as [<-|H]; [reflexivity|]. apply contains_cons; auto.
    + pose proof (split_head_prefix c s) as Hp.
      destruct (split c s) as [|piece pieces] eqn:E.
      * destruct H as [<-|[]]. rewrite contains_unfold. unfold str1. simpl.
        now rewrite Ascii.eqb_refl, startswith_empty.
      * simpl in Hp. destruct H as [<-|H].
        -- rewrite contains_unfold. simpl. now rewrite Ascii.eqb_refl, Hp.
        -- apply contains_cons. apply IH. now right.
Qed.

(** ** The monad *)

Lemma bind_ok {A B} (m : M A) (k : A -> M B) (w w' : world) (a : A) :
  m w = (Ok a, w') -> bind m k w = k a w'.
Proof. intros H. unfold bind. now rewrite H. Qed.

Lemma bind_raise {A B} (m : M A) (k : A -> M B) (w w' : world) (e : pyerr) :
  m w = (Raise e, w') -> bind m k w = (Raise e, w').
Proof. intros H. unfold bind. now rewrite H. Qed.

(** ** [generate_readme] without prior artifacts *)

Lemma for_each_no_dependency_file (self : AutoReadme.t) (files : list string)
      (acc : list (string * string)) (w : world) :
  (forall file, In file files -> AutoReadme.is_dependency_file file = false) ->
  for_each files
    (fun file dependency_content =>
       if AutoReadme.is_dependency_file file then
         content <- reading (fun root cwd =>
                      FS.read_text root cwd
                        (PosixPath.join (AutoReadme.out_put_dir self) file)) ;;
         ret (Json.dict_set (title file) content dependency_content)
       else ret dependency_content) acc w
  = (Ok acc, w).
Proof.
  induction files as [|file files IH]; intros H; [reflexivity|].
  simpl. rewrite (H file (or_introl eq_refl)).
  unfold bind at 1. unfold ret at 1. apply IH.
  intros f Hf. apply H. now right.
Qed.



(** ** [is_ignored] *)

Lemma relpath_ok (cwd path start : string) :
  is_empty path = false -> exists rel, PosixPath.relpath cwd path start = Ok rel.
Proof.
  intros H. unfold PosixPath.relpath. rewrite H.
  destruct (_ ++ _)%list; eauto.
Qed.

Lemma any_dot_part_not_empty (filepath : string) :
  AutoReadme.any_dot_part filepath = true -> is_empty filepath = false.
Proof. destruct filepath; [discriminate|reflexivity]. Qed.

Lemma is_ignored_run (self : AutoReadme.t) (filepath : string)
      (ignore_files : list string) (w : world) :
  AutoReadme.is_ignored self filepath ignore_files w
  = (AutoReadme.is_ignored_from (cwd w) self filepath ignore_files, w).
Proof. reflexivity. Qed.

Lemma is_ignored_matching (self : AutoReadme.t) (filepath : string) (w : world)
      (relative_path : string) (ignore_files : list string) (pattern : string) :
  PosixPath.relpath (cwd w) filepath (AutoReadme.project_dir self) = Ok relative_path ->
  In pattern ignore_files ->
  Fnmatch.fnmatch relative_path pattern = true ->
  AutoReadme.is_ignored self filepath ignore_files w = (Ok true, w).
Proof.
  intros Hrel Hin Hmatch. rewrite is_ignored_run.
  unfold AutoReadme.is_ignored_from. rewrite Hrel.
  destruct (_ || _); [reflexivity|].
  assert (E : existsb (fun p => Fnmatch.fnmatch relative_path p) ignore_files = true).
  { apply existsb_exists. eauto. }
  now rewrite E.
Qed.

(** C9.  The three tests of [is_ignored] each suffice, and the first two do
    not look at the patterns: a path with a part that starts with a dot, or
    whose relative path has a [__pycache__] part, is ignored under every
    list of patterns; a path whose relative path matches one of the
    patterns is ignored. *)
Theorem is_ignored_each_test_suffices
        (self : AutoReadme.t) (filepath : string) (w : world) :
  (AutoReadme.any_dot_part filepath = true ->
   forall ignore_files,
     AutoReadme.is_ignored self filepath ignore_files w = (Ok true, w))
  /\ (forall relative_path,
        PosixPath.relpath (cwd w) filepath (AutoReadme.project_dir self)
        = Ok relative_path ->
        In "__pycache__" (split PosixPath.sep relative_path) ->
        forall ignore_files,
          AutoReadme.is_ignored self filepath ignore_files w = (Ok true, w))
  /\ (forall relative_path ignore_files pattern,
        PosixPath.relpath (cwd w) filepath (AutoReadme.project_dir self)
        = Ok relative_path ->
        In pattern ignore_files ->
        Fnmatch.fnmatch relative_path pattern = true ->
        AutoReadme.is_ignored self filepath ignore_files w = (Ok true, w)).
Proof.
  repeat split.
  - intros Hdot ignore_files. rewrite is_ignored_run.
    unfold AutoReadme.is_ignored_from.
    destruct (relpath_ok (cwd w) filepath (AutoReadme.project_dir self)
                         (any_dot_part_not_empty _ Hdot)) as [rel ->].
    now rewrite Hdot.
  - intros rel Hrel Hin ignore_files. rewrite is_ignored_run.
    unfold AutoReadme.is_ignored_from. rewrite Hrel.
    rewrite (In_split_contains _ _ _ Hin). now rewrite orb_true_r.
  - intros rel ignore_files pattern. apply is_ignored_matching.
Qed.



Lemma is_ignored_each_test_suffices_witness :
  AutoReadme.is_ignored (Sample.instance "/proj" "/out") "/proj/.git/config"
                        ["*.log"] (Sample.machine Sample.scenario_tree "/")
  = (Ok true, Sample.machine Sample.scenario_tree "/")
  /\ AutoReadme.is_ignored (Sample.instance "/proj" "/out")
                           "/proj/src/__pycache__/main.pyc"
                           [] (Sample.machine Sample.scenario_tree "/")
     = (Ok true, Sample.machine Sample.scenario_tree "/")
  /\ AutoReadme.is_ignored (Sample.instance "/proj" "/out") "/proj/src/main.py"
                           ["*.log"; "src/*"] (Sample.machine Sample.scenario_tree "/")
     = (Ok true, Sample.machine Sample.scenario_tree "/").
Proof.
  split; [|split].
  - apply (is_ignored_each_test_suffices
             (Sample.instance "/proj" "/out") "/proj/.git/config"
             (Sample.machine Sample.scenario_tree "/")).
    reflexivity.
  - apply (proj1 (proj2 (is_ignored_each_test_suffices
                           (Sample.instance "/proj" "/out")
                           "/proj/src/__pycache__/main.pyc"
                           (Sample.machine Sample.scenario_tree "/")))
                 "src/__pycache__/main.pyc").
    + reflexivity.
    + simpl. auto.
  - apply (proj2 (proj2 (is_ignored_each_test_suffices
                           (Sample.instance "/proj" "/out") "/proj/src/main.py"
                           (Sample.machine Sample.scenario_tree "/")))
                 "src/main.py" ["*.log"; "src/*"] "src/*").
    + reflexivity.
    + simpl. auto.
    + reflexivity.
Defined.


(** ** The reply of the collaborator *)

Lemma parse_requirements_output_run (json_depth : nat) (output : string) (w : world) :
  AutoReadme.parse_requirements_output json_depth output w
  = match Spec.decoded_requirements json_depth output with
    | Ok requirements => (Ok requirements, w)
    | Raise e =>
        (Ok (Json.Array []),
         World (fs_root w) (cwd w) (log w ++ [Spec.parse_error_record output e]))
    end.
Proof.
  unfold AutoReadme.parse_requirements_output, Spec.decoded_requirements,
    Spec.without_fence, try_except, bind, lift.
  destruct (Json.loads json_depth _) as [doc|e]; [|reflexivity].
  destruct (AutoReadme.subscript doc "requirements"); reflexivity.
Qed.

Lemma generate_project_requirements_run
      (get_model_answer : string -> list AutoReadme.message -> string -> result string)
      (pip_freeze : string) (json_depth : nat) (self : AutoReadme.t)
      (w w1 : world) (prompt : list AutoReadme.message) (reply : string) :
  AutoReadme.requirements_prompt pip_freeze self w = (Ok prompt, w1) ->
  get_model_answer (AutoReadme.model self) prompt (AutoReadme.config_dir self) = Ok reply ->
  AutoReadme.generate_project_requirements get_model_answer pip_freeze json_depth self w
  = AutoReadme.parse_requirements_output json_depth reply w1.
Proof.
  intros Hprompt Hreply. unfold AutoReadme.generate_project_requirements.
  rewrite (bind_ok _ _ _ _ _ Hprompt).
  unfold bind at 1. unfold lift at 1. rewrite Hreply.
  unfold bind, ret.
  destruct (AutoReadme.parse_requirements_output json_depth reply w1) as [[v|e] w2];
    reflexivity.
Qed.


(** C4, as stated, fails: the reply
    [{"requirements": ["numpy==1.0", "numpy==2.0"]}] parses, and the list
    that [generate_project_requirements] returns holds both entries, which
    share the name [numpy]. *)
Lemma requirements_not_unique_by_name :
  Spec.decoded_requirements 100 (Sample.requirements_reply ["numpy==1.0"; "numpy==2.0"])
  = Ok (Json.Array [Json.Str "numpy==1.0"; Json.Str "numpy==2.0"])
  /\ fst (AutoReadme.generate_project_requirements
            (Sample.answering (Sample.requirements_reply ["numpy==1.0"; "numpy==2.0"]))
            "numpy==2.0" 100
            (Sample.instance "/proj" "/out") (Sample.machine Sample.scenario_tree "/"))
     = Ok (Json.Array [Json.Str "numpy==1.0"; Json.Str "numpy==2.0"])
  /\ Spec.dependency_names (Json.Array [Json.Str "numpy==1.0"; Json.Str "numpy==2.0"])
     = ["numpy"; "numpy"]
  /\ ~ NoDup (Spec.dependency_names
                (Json.Array [Json.Str "numpy==1.0"; Json.Str "numpy==2.0"])).
Proof.
  split; [vm_compute; reflexivity|].
  split; [vm_compute; reflexivity|].
  split; [reflexivity|].
  intros H. inversion H as [|x l Hnotin _]; subst. apply Hnotin. now left.
Qed.

(** C4, amended.  When the reply parses (the text without its fence
    decodes to an object with a [requirements] member), the value that
    [generate_project_requirements] returns is that member as decoded: its
    entries in their order, none removed. *)
Theorem requirements_are_returned_as_decoded
        (get_model_answer : string -> list AutoReadme.message -> string -> result string)
        (pip_freeze : string) (json_depth : nat) (self : AutoReadme.t)
        (w w1 : world) (prompt : list AutoReadme.message) (reply : string)
        (members : list (string * Json.value)) (requirements : Json.value) :
  AutoReadme.requirements_prompt pip_freeze self w = (Ok prompt, w1) ->
  get_model_answer (AutoReadme.model self) prompt (AutoReadme.config_dir self) = Ok reply ->
  Json.loads json_depth (Spec.without_fence reply) = Ok (Json.Object members) ->
  Json.dict_get "requirements" members = Some requirements ->
  AutoReadme.generate_project_requirements get_model_answer pip_freeze json_depth self w
  = (Ok requirements, w1).
Proof.
  intros Hprompt Hreply Hloads Hget.
  rewrite (generate_project_requirements_run _ _ _ _ _ _ _ _ Hprompt Hreply).
  rewrite parse_requirements_output_run. unfold Spec.decoded_requirements.
  rewrite Hloads. unfold AutoReadme.subscript. now rewrite Hget.
Qed.

Lemma requirements_are_returned_as_decoded_witness :
  AutoReadme.generate_project_requirements
    (Sample.answering (Sample.requirements_reply ["numpy==1.0"; "numpy==2.0"]))
    "numpy==2.0" 100
    (Sample.instance "/proj" "/out") (Sample.machine Sample.scenario_tree "/")
  = (Ok (Json.Array [Json.Str "numpy==1.0"; Json.Str "numpy==2.0"]),
     snd (AutoReadme.requirements_prompt
            "numpy==2.0" (Sample.instance "/proj" "/out")
            (Sample.machine Sample.scenario_tree "/"))).
Proof.
  apply (requirements_are_returned_as_decoded
           (Sample.answering (Sample.requirements_reply ["numpy==1.0"; "numpy==2.0"]))
           "numpy==2.0" 100 (Sample.instance "/proj" "/out")
           (Sample.machine Sample.scenario_tree "/") _
           (match fst (AutoReadme.requirements_prompt
                         "numpy==2.0" (Sample.instance "/proj" "/out")
                         (Sample.machine Sample.scenario_tree "/")) with
            | Ok prompt => prompt
            | Raise _ => []
            end)
           (Sample.requirements_reply ["numpy==1.0"; "numpy==2.0"])
           [("requirements", Json.Array [Json.Str "numpy==1.0"; Json.Str "numpy==2.0"])]).
  - vm_compute. reflexivity.
  - reflexivity.
  - vm_compute. reflexivity.
  - reflexivity.
Defined.


(** ** [load_ignore_files] *)

(** What one line adds to the list. *)
Lemma add_pattern_spec (ignore_files : list string) (line : string) :
  AutoReadme.add_pattern ignore_files line
  = (ignore_files
       ++ (if negb (is_empty line) && negb (startswith line "#")
           then [Spec.pattern_of_line line] else []))%list.
Proof.
  unfold AutoReadme.add_pattern, Spec.pattern_of_line.
  destruct (negb (is_empty line) && negb (startswith line "#")).
  - reflexivity.
  - now rewrite app_nil_r.
Qed.

Lemma fold_add_pattern (lines acc : list string) :
  fold_left AutoReadme.add_pattern lines acc
  = (acc ++ AutoReadme.patterns_of_lines lines)%list.
Proof.
  unfold AutoReadme.patterns_of_lines.
  revert acc. induction lines as [|line lines IH]; intros acc.
  - simpl. now rewrite app_nil_r.
  - simpl. rewrite IH. rewrite (IH (AutoReadme.add_pattern [] line)).
    rewrite (add_pattern_spec acc), (add_pattern_spec []). simpl.
    now rewrite app_assoc.
Qed.

Lemma patterns_of_lines_cons (line : string) (lines : list string) :
  AutoReadme.patterns_of_lines (line :: lines)
  = ((if negb (is_empty line) && negb (startswith line "#")
      then [Spec.pattern_of_line line] else [])
       ++ AutoReadme.patterns_of_lines lines)%list.
Proof.
  unfold AutoReadme.patterns_of_lines at 1. simpl.
  now rewrite fold_add_pattern, add_pattern_spec.
Qed.

Lemma patterns_of_lines_app (before after : list string) :
  AutoReadme.patterns_of_lines (before ++ after)
  = (AutoReadme.patterns_of_lines before ++ AutoReadme.patterns_of_lines after)%list.
Proof.
  unfold AutoReadme.patterns_of_lines at 1.
  now rewrite fold_left_app, fold_add_pattern.
Qed.

Lemma not_blank_not_empty (line : string) :
  Spec.is_blank line = false -> is_empty line = false.
Proof. destruct line; [discriminate|reflexivity]. Qed.

(** The patterns that [load_ignore_files] returns when [.gitignore] is a
    file. *)
Lemma load_ignore_files_of_file (self : AutoReadme.t) (w : world) (content : string) :
  FS.resolve (fs_root w) (cwd w)
             (PosixPath.join (AutoReadme.project_dir self) ".gitignore")
  = Ok (File content) ->
  AutoReadme.load_ignore_files self w
  = (Ok (AutoReadme.patterns_of_lines (file_lines content)),
     World (fs_root w) (cwd w)
           (log w ++ [Log INFO "Loading ignore files" [];
                      Log INFO ".gitignore patterns: {}"
                          [LList (AutoReadme.patterns_of_lines (file_lines content))]])).
Proof.
  intros H. unfold AutoReadme.load_ignore_files.
  unfold bind, logging, reading, ret, FS.path_exists, FS.read_text. cbn [fs_root cwd log].
  rewrite H. cbn [fs_root cwd log]. rewrite H. cbn [fs_root cwd log].
  unfold file_lines. now rewrite <- app_assoc.
Qed.

(** C2, as stated, fails: for the line [//build/] the code gives the
    pattern [build/*], the rule as the specification words it gives [/build/]. *)
Lemma patterns_differ_from_specified :
  fst (AutoReadme.load_ignore_files (Sample.instance "/proj" "/out")
                                    (Sample.machine Sample.slashes_tree "/"))
  = Ok ["build/*"]
  /\ Spec.patterns_as_specified (file_lines ("//build/" ++ newline)) = ["/build/"]
  /\ AutoReadme.patterns_of_lines (file_lines ("//build/" ++ newline))
     <> Spec.patterns_as_specified (file_lines ("//build/" ++ newline)).
Proof.
  split; [reflexivity|]. split; [reflexivity|]. discriminate.
Qed.

(** A blank line is not skipped: it arrives with its newline, passes the
    test [if line], and leaves the empty pattern. *)
Lemma blank_line_leaves_empty_pattern :
  AutoReadme.patterns_of_lines
    (file_lines ("build" ++ newline ++ newline ++ "dist" ++ newline))
  = ["build"; EmptyString; "dist"].
Proof. reflexivity. Qed.

(** C2, amended.  When [.gitignore] is a file, [load_ignore_files] returns
    the patterns of its lines, where a line that begins with [#] adds
    nothing, and a line that is neither blank nor a comment adds exactly
    one pattern, in its place: the line without surrounding white space
    and without any leading separator, and with [*] appended if what
    remains ends with a separator. *)
Theorem load_ignore_files_patterns (self : AutoReadme.t) (w : world) (content : string) :
  FS.resolve (fs_root w) (cwd w)
             (PosixPath.join (AutoReadme.project_dir self) ".gitignore")
  = Ok (File content) ->
  fst (AutoReadme.load_ignore_files self w)
  = Ok (AutoReadme.patterns_of_lines (file_lines content))
  /\ (forall before line after,
        startswith line "#" = true ->
        AutoReadme.patterns_of_lines (before ++ line :: after)
        = (AutoReadme.patterns_of_lines before
             ++ AutoReadme.patterns_of_lines after)%list)
  /\ (forall before line after,
        startswith line "#" = false ->
        Spec.is_blank line = false ->
        AutoReadme.patterns_of_lines (before ++ line :: after)
        = (AutoReadme.patterns_of_lines before
             ++ Spec.pattern_of_line line :: AutoReadme.patterns_of_lines after)%list).
Proof.
  intros H. split; [|split].
  - now rewrite (load_ignore_files_of_file self w content H).
  - intros before line after Hc.
    rewrite patterns_of_lines_app, patterns_of_lines_cons, Hc.
    now rewrite andb_false_r.
  - intros before line after Hc Hb.
    rewrite patterns_of_lines_app, patterns_of_lines_cons, Hc.
    now rewrite (not_blank_not_empty line Hb).
Qed.

Lemma load_ignore_files_patterns_witness :
  fst (AutoReadme.load_ignore_files (Sample.instance "/proj" "/out")
                                    (Sample.machine Sample.slashes_tree "/"))
  = Ok (AutoReadme.patterns_of_lines (file_lines ("//build/" ++ newline)))
  /\ AutoReadme.patterns_of_lines
       ([Spec.line "dist"] ++ Spec.line "# a comment" :: [Spec.line " /out "])%list
     = (AutoReadme.patterns_of_lines [Spec.line "dist"]
          ++ AutoReadme.patterns_of_lines [Spec.line " /out "])%list
  /\ AutoReadme.patterns_of_lines
       ([Spec.line "dist"] ++ Spec.line "  //build/ " :: [Spec.line " /out "])%list
     = (AutoReadme.patterns_of_lines [Spec.line "dist"]
          ++ Spec.pattern_of_line (Spec.line "  //build/ ")
          :: AutoReadme.patterns_of_lines [Spec.line " /out "])%list.
Proof.
  pose proof (load_ignore_files_patterns
                (Sample.instance "/proj" "/out")
                (Sample.machine Sample.slashes_tree "/")
                ("//build/" ++ newline) eq_refl) as [H1 [H2 H3]].
  split; [exact H1|]. split.
  - apply H2. reflexivity.
  - apply H3; reflexivity.
Defined.


(** ** The pattern of a directory *)









(** ** The two traversals on a directory named in [.gitignore] *)

(** C1, evaluated where it fails.  [.gitignore] holds the line [build]; the
    pattern matches the directory [build] and not the file below it, so the
    structural walk prunes the directory while the flat list, which never
    asks about directories, keeps [build/main.py]. *)
Lemma flat_list_keeps_file_of_pruned_directory :
  fst (AutoReadme.load_ignore_files (Sample.instance "/proj" "/out")
                                    (Sample.machine Sample.build_tree "/"))
  = Ok ["build"]
  /\ fst (AutoReadme.is_ignored (Sample.instance "/proj" "/out") "/proj/build"
                                ["build"] (Sample.machine Sample.build_tree "/"))
     = Ok true
  /\ fst (AutoReadme.is_ignored (Sample.instance "/proj" "/out") "/proj/build/main.py"
                                ["build"] (Sample.machine Sample.build_tree "/"))
     = Ok false
  /\ fst (AutoReadme.find_all_scripts_and_config_files
            (Sample.instance "/proj" "/out") (Sample.machine Sample.build_tree "/"))
     = Ok ["/proj/app.py"; "/proj/build/main.py"]
  /\ fst (AutoReadme.generate_project_structure
            (Sample.instance "/proj" "/out") "/proj" 0 None
            (Sample.machine Sample.build_tree "/"))
     = Ok ["- app.py"]
  /\ Spec.added_to_structure
       (log (snd (AutoReadme.generate_project_structure
                    (Sample.instance "/proj" "/out") "/proj" 0 None
                    (Sample.machine Sample.build_tree "/"))))
     = ["/proj/app.py"]
  /\ ~ incl ["/proj/app.py"; "/proj/build/main.py"] ["/proj/app.py"].
Proof.
  repeat (split; [vm_compute; reflexivity|]).
  intros H. destruct (H "/proj/build/main.py" (or_intror (or_introl eq_refl))) as [E|[]].
  discriminate.
Qed.


(** ** More on strings and paths *)

Lemma append_empty_r (s : string) : s ++ EmptyString = s.
Proof. induction s as [|c s IH]; simpl; [reflexivity|now rewrite IH]. Qed.

Lemma append_assoc (a b c : string) : (a ++ b) ++ c = a ++ b ++ c.
Proof. induction a as [|x a IH]; simpl; [reflexivity|now rewrite IH]. Qed.

Lemma rev_onto_spec (s acc : string) : rev_onto s acc = rev s ++ acc.
Proof.
  unfold rev. revert acc. induction s as [|c s IH]; intros acc; simpl; [reflexivity|].
  rewrite (IH (String c acc)), (IH (String c EmptyString)).
  now rewrite append_assoc.
Qed.

Lemma str_rev_cons (c : ascii) (s : string) : rev (String c s) = rev s ++ str1 c.
Proof. unfold rev at 1. simpl. apply rev_onto_spec. Qed.

Lemma str_rev_app (a b : string) : rev (a ++ b) = rev b ++ rev a.
Proof.
  induction a as [|c a IH].
  - simpl. now rewrite append_empty_r.
  - simpl. now rewrite !str_rev_cons, IH, append_assoc.
Qed.

Lemma str_rev_involutive (s : string) : rev (rev s) = s.
Proof.
  induction s as [|c s IH]; [reflexivity|].
  now rewrite str_rev_cons, str_rev_app, IH.
Qed.

Lemma startswith_cons (b a : ascii) (s p : string) :
  startswith (String b s) (String a p) = Ascii.eqb a b && startswith s p.
Proof. reflexivity. Qed.

(** A string that ends with the separator. *)
Lemma endswith_sep_inv (s : string) :
  endswith s "/" = true -> exists s', s = s' ++ "/".
Proof.
  unfold endswith. intros H. change (rev "/") with "/" in H.
  destruct (rev s) as [|c r] eqn:E; [discriminate|].
  rewrite startswith_cons in H. apply andb_true_iff in H as [H _].
  apply Ascii.eqb_eq in H. subst c.
  exists (rev r). rewrite <- (str_rev_involutive s), E. now rewrite str_rev_cons.
Qed.

Lemma endswith_app (a p : string) : endswith (a ++ p) p = true.
Proof. unfold endswith. rewrite str_rev_app. apply startswith_app. Qed.

Lemma split_app_sep (c : ascii) (a b : string) :
  split c (a ++ String c b) = (split c a ++ split c b)%list.
Proof.
  induction a as [|x a IH].
  - simpl. now rewrite Ascii.eqb_refl.
  - simpl. destruct (Ascii.eqb x c); [now rewrite IH|].
    rewrite IH. destruct (split c a) as [|p ps] eqn:E; [|reflexivity].
    now destruct (split_not_nil c a).
Qed.

(** The components of a joined path, for a name that is not absolute. *)
Lemma split_join (a b : string) :
  is_empty a = false ->
  startswith b "/" = false ->
  exists comps,
    (split PosixPath.sep a = comps \/ split PosixPath.sep a = comps ++ [EmptyString])%list
    /\ split PosixPath.sep (PosixPath.join a b) = (comps ++ split PosixPath.sep b)%list.
Proof.
  intros Ha Hb. unfold PosixPath.join. rewrite Hb, Ha. simpl.
  destruct (endswith a "/") eqn:E.
  - apply endswith_sep_inv in E as [a' ->].
    exists (split PosixPath.sep a'). split.
    + right. change "/" with (String PosixPath.sep EmptyString).
      now rewrite split_app_sep.
    + rewrite append_assoc. change ("/" ++ b) with (String PosixPath.sep b).
      apply split_app_sep.
  - exists (split PosixPath.sep a). split; [now left|].
    change ("/" ++ b) with (String PosixPath.sep b). apply split_app_sep.
Qed.

Lemma join_not_empty (a b : string) :
  is_empty a = false -> is_empty (PosixPath.join a b) = false.
Proof.
  intros Ha. unfold PosixPath.join.
  destruct (startswith b "/") eqn:Hb.
  - destruct b; [discriminate|reflexivity].
  - destruct a; [discriminate|]. destruct (_ || _); reflexivity.
Qed.

Lemma isabs_join (a b : string) :
  is_empty a = false ->
  startswith b "/" = false ->
  PosixPath.isabs (PosixPath.join a b) = PosixPath.isabs a.
Proof.
  intros Ha Hb. unfold PosixPath.join, PosixPath.isabs. rewrite Hb.
  destruct a as [|c a]; [discriminate|].
  destruct (_ || _); cbn [append];
    now rewrite !startswith_cons, !startswith_empty.
Qed.

(** ** Path resolution *)

Lemma resolve_comps_app (trail : list (string * node)) (cur : node)
      (xs ys : list string) :
  FS.resolve_comps trail cur (xs ++ ys)
  = match FS.resolve_comps trail cur xs with
    | Ok (trail', n) => FS.resolve_comps trail' n ys
    | Raise e => Raise e
    end.
Proof.
  revert trail cur. induction xs as [|x xs IH]; intros trail cur; [reflexivity|].
  simpl. destruct cur as [| |entries]; try reflexivity.
  destruct (_ || _); [apply IH|].
  destruct (String.eqb x "..").
  - destruct trail as [|[? parent] trail']; apply IH.
  - destruct (FS.lookup x entries); [apply IH|reflexivity].
Qed.

(** A trailing empty component asks for a directory and stays there. *)
Lemma resolve_comps_trailing_empty (trail : list (string * node)) (cur : node)
      (xs : list string) :
  FS.resolve_comps trail cur (xs ++ [EmptyString]) <> Raise FileNotFoundError ->
  FS.resolve_comps trail cur xs <> Raise FileNotFoundError.
Proof.
  rewrite resolve_comps_app.
  destruct (FS.resolve_comps trail cur xs) as [[trail' n]|e]; [discriminate|auto].
Qed.

Lemma resolve_comps_missing_app (trail : list (string * node)) (cur : node)
      (xs ys : list string) :
  FS.resolve_comps trail cur xs = Raise FileNotFoundError ->
  FS.resolve_comps trail cur (xs ++ ys) = Raise FileNotFoundError.
Proof. intros H. now rewrite resolve_comps_app, H. Qed.

Lemma resolve_comps_missing_trailing (trail : list (string * node)) (cur : node)
      (xs : list string) :
  FS.resolve_comps trail cur (xs ++ [EmptyString]) = Raise FileNotFoundError ->
  FS.resolve_comps trail cur xs = Raise FileNotFoundError.
Proof.
  rewrite resolve_comps_app.
  destruct (FS.resolve_comps trail cur xs) as [[trail' n]|e]; [|auto].
  simpl. destruct n; try discriminate.
Qed.

Lemma resolve_raise (root : node) (cwd path : string) (e : pyerr) :
  FS.resolve root cwd path = Raise e <-> FS.resolve_trail root cwd path = Raise e.
Proof.
  unfold FS.resolve.
  destruct (FS.resolve_trail root cwd path) as [[trail n]|e']; split; intros H;
    congruence.
Qed.

(** Below a missing path nothing exists. *)
Lemma resolve_missing_join (root : node) (cwd path name : string) :
  is_empty path = false ->
  startswith name "/" = false ->
  FS.resolve root cwd path = Raise FileNotFoundError ->
  FS.resolve root cwd (PosixPath.join path name) = Raise FileNotFoundError.
Proof.
  intros Hp Hn. rewrite !resolve_raise. unfold FS.resolve_trail.
  rewrite Hp, (join_not_empty path name Hp).
  unfold FS.comps_from_root. rewrite (isabs_join path name Hp Hn).
  destruct (split_join path name Hp Hn) as [comps [[E|E] ->]]; rewrite E.
  - destruct (PosixPath.isabs path).
    + apply resolve_comps_missing_app.
    + rewrite app_assoc. apply resolve_comps_missing_app.
  - destruct (PosixPath.isabs path).
    + intros H. apply resolve_comps_missing_trailing in H.
      now apply resolve_comps_missing_app.
    + rewrite !app_assoc. intros H. apply resolve_comps_missing_trailing in H.
      now apply resolve_comps_missing_app.
Qed.


(** ** A root that does not exist *)

(** [load_ignore_files] reads and logs: the file system and the working
    directory stay as they are. *)
Lemma load_ignore_files_world (self : AutoReadme.t) (w : world) :
  fs_root (snd (AutoReadme.load_ignore_files self w)) = fs_root w
  /\ cwd (snd (AutoReadme.load_ignore_files self w)) = cwd w.
Proof.
  unfold AutoReadme.load_ignore_files, bind, logging, reading, ret.
  cbn [fs_root cwd log].
  destruct (FS.path_exists _ _ _); cbn [fs_root cwd log].
  - destruct (FS.read_text _ _ _); cbn [fs_root cwd log snd]; auto.
  - auto.
Qed.

Lemma load_ignore_files_absent (self : AutoReadme.t) (w : world) :
  FS.path_exists (fs_root w) (cwd w)
                 (PosixPath.join (AutoReadme.project_dir self) ".gitignore") = false ->
  AutoReadme.load_ignore_files self w
  = (Ok [],
     World (fs_root w) (cwd w)
           (log w ++ [Log INFO "Loading ignore files" [];
                      Log INFO ".gitignore patterns: {}" [LList []]])).
Proof.
  intros H. unfold AutoReadme.load_ignore_files, bind, logging, reading, ret.
  cbn [fs_root cwd log]. rewrite H. cbn [fs_root cwd log].
  now rewrite <- app_assoc.
Qed.

Lemma generate_project_structure_missing (self : AutoReadme.t) (dir_path : string)
      (indent_level : nat) (ignore_files : option (list string)) (w : world)
      (e : pyerr) :
  FS.resolve (fs_root w) (cwd w) dir_path = Raise e ->
  match ignore_files with
  | None => exists l, fst (AutoReadme.load_ignore_files self w) = Ok l
  | Some _ => True
  end ->
  fst (AutoReadme.generate_project_structure self dir_path indent_level ignore_files w)
  = Raise e.
Proof.
  intros Hres Hload. unfold AutoReadme.generate_project_structure.
  destruct ignore_files as [l|].
  - unfold bind, ret, reading. now rewrite Hres.
  - destruct Hload as [l Hl].
    destruct (load_ignore_files_world self w) as [Hroot Hcwd].
    unfold bind at 1.
    destruct (AutoReadme.load_ignore_files self w) as [[l'|e'] w'];
      [|discriminate].
    cbn [snd] in Hroot, Hcwd. unfold bind, reading. rewrite Hroot, Hcwd, Hres.
    reflexivity.
Qed.

Lemma find_all_missing (self : AutoReadme.t) (w : world) (e : pyerr) (l : list string) :
  FS.resolve (fs_root w) (cwd w) (AutoReadme.project_dir self) = Raise e ->
  fst (AutoReadme.load_ignore_files self w) = Ok l ->
  fst (AutoReadme.find_all_scripts_and_config_files self w) = Ok [].
Proof.
  intros Hres Hl. unfold AutoReadme.find_all_scripts_and_config_files.
  unfold bind at 1. unfold logging at 1.
  set (w0 := World _ _ _).
  assert (Hres0 : FS.resolve (fs_root w0) (cwd w0) (AutoReadme.project_dir self)
                  = Raise e) by exact Hres.
  assert (Hl0 : fst (AutoReadme.load_ignore_files self w0) = Ok l).
  { revert Hl. unfold AutoReadme.load_ignore_files, bind, logging, reading, ret.
    cbn [fs_root cwd log]. subst w0. cbn [fs_root cwd log].
    destruct (FS.path_exists _ _ _); cbn [fs_root cwd log].
    - destruct (FS.read_text _ _ _); cbn [fst]; auto.
    - auto. }
  destruct (load_ignore_files_world self w0) as [Hroot Hcwd].
  unfold bind at 1.
  destruct (AutoReadme.load_ignore_files self w0) as [[l'|e'] w'];
    [|discriminate].
  cbn [snd] in Hroot, Hcwd.
  unfold bind at 1. unfold AutoReadme.walk. rewrite Hroot, Hcwd, Hres0.
  reflexivity.
Qed.

(** C5, as stated, fails: for a root that does not exist the flat
    collection returns the empty list, it raises nothing. *)
Lemma flat_list_of_missing_root_is_empty :
  FS.resolve (fs_root (Sample.machine Sample.scenario_tree "/")) "/" "/missing"
  = Raise FileNotFoundError
  /\ fst (AutoReadme.generate_project_structure
            (Sample.instance "/missing" "/out") "/missing" 0 None
            (Sample.machine Sample.scenario_tree "/"))
     = Raise FileNotFoundError
  /\ fst (AutoReadme.find_all_scripts_and_config_files
            (Sample.instance "/missing" "/out")
            (Sample.machine Sample.scenario_tree "/"))
     = Ok [].
Proof. split; [reflexivity|]. split; reflexivity. Qed.

(** C5, amended.  For a root path of which a component is missing:
    [generate_project_structure] fails with [FileNotFoundError], raised by
    the listing of the root and not caught; the flat collection
    [find_all_scripts_and_config_files] returns the empty list, [os.walk]
    dropping the error.  Both load the ignore file first, which finds
    nothing to read when the root path is not empty. *)
Theorem traversal_of_missing_root (self : AutoReadme.t) (w : world) (indent_level : nat) :
  FS.resolve (fs_root w) (cwd w) (AutoReadme.project_dir self) = Raise FileNotFoundError ->
  (is_empty (AutoReadme.project_dir self) = false ->
   fst (AutoReadme.load_ignore_files self w) = Ok [])
  /\ (forall ignore_files,
        fst (AutoReadme.load_ignore_files self w) = Ok ignore_files ->
        fst (AutoReadme.generate_project_structure
               self (AutoReadme.project_dir self) indent_level None w)
        = Raise FileNotFoundError
        /\ fst (AutoReadme.find_all_scripts_and_config_files self w) = Ok [])
  /\ (forall ignore_files,
        fst (AutoReadme.generate_project_structure
               self (AutoReadme.project_dir self) indent_level (Some ignore_files) w)
        = Raise FileNotFoundError).
Proof.
  intros Hres. split; [|split].
  - intros Hne. rewrite load_ignore_files_absent; [reflexivity|].
    unfold FS.path_exists.
    now rewrite (resolve_missing_join _ _ _ ".gitignore" Hne eq_refl Hres).
  - intros l Hl. split.
    + apply generate_project_structure_missing; eauto.
    + now apply (find_all_missing self w FileNotFoundError l).
  - intros l. apply generate_project_structure_missing; auto.
Qed.

Lemma traversal_of_missing_root_witness :
  fst (AutoReadme.load_ignore_files (Sample.instance "/missing" "/out")
                                    (Sample.machine Sample.scenario_tree "/"))
  = Ok []
  /\ fst (AutoReadme.generate_project_structure
            (Sample.instance "/missing" "/out") "/missing" 0 None
            (Sample.machine Sample.scenario_tree "/"))
     = Raise FileNotFoundError
  /\ fst (AutoReadme.find_all_scripts_and_config_files
            (Sample.instance "/missing" "/out")
            (Sample.machine Sample.scenario_tree "/"))
     = Ok []
  /\ fst (AutoReadme.generate_project_structure
            (Sample.instance "/missing" "/out") "/missing" 0 (Some ["*.log"])
            (Sample.machine Sample.scenario_tree "/"))
     = Raise FileNotFoundError.
Proof.
  pose proof (traversal_of_missing_root
                (Sample.instance "/missing" "/out")
                (Sample.machine Sample.scenario_tree "/") 0 eq_refl) as [H1 [H2 H3]].
  split; [exact (H1 eq_refl)|].
  destruct (H2 [] (H1 eq_refl)) as [H2a H2b].
  split; [exact H2a|]. split; [exact H2b|]. apply H3.
Defined.


(** ** Trees *)

Lemma node_nested_ind (P : node -> Prop) :
  (forall content, P (File content)) ->
  P Special ->
  (forall entries, Forall (fun e => P (snd e)) entries -> P (Dir entries)) ->
  forall n, P n.
Proof.
  intros HF HS HD. fix IH 1. intros [content| |entries].
  - apply HF.
  - apply HS.
  - apply HD. induction entries as [|[name child] entries IHe].
    + constructor.
    + constructor; [apply IH|apply IHe].
Qed.


Lemma valid_name_not_absolute (name : string) :
  Spec.valid_name name = true -> startswith name "/" = false.
Proof.
  unfold Spec.valid_name. intros H. apply andb_true_iff in H as [_ H].
  apply negb_true_iff in H. destruct name as [|c name]; [reflexivity|].
  rewrite contains_unfold in H. now apply orb_false_iff in H as [H _].
Qed.

(** [os.walk] of a directory: its own triple, then the walks of its
    sub-directories in the order of the listing. *)
Lemma os_walk_Dir (top : string) (entries : list (string * node)) :
  AutoReadme.os_walk top (Dir entries)
  = (top,
     map fst (filter (fun e => FS.is_dir (snd e)) entries),
     filter (fun e => negb (FS.is_dir (snd e))) entries)
    :: flat_map (fun e => if FS.is_dir (snd e)
                          then AutoReadme.os_walk (PosixPath.join top (fst e)) (snd e)
                          else [])
                entries.
Proof.
  cbn [AutoReadme.os_walk]. f_equal.
  induction entries as [|[name child] entries IH]; [reflexivity|].
  cbn [flat_map fst snd]. rewrite <- IH. now destruct (FS.is_dir child).
Qed.

(** ** A path with a dotted part *)

Lemma existsb_dot_trailing (comps : list string) :
  existsb (fun part => startswith part ".") (comps ++ [EmptyString])
  = existsb (fun part => startswith part ".") comps.
Proof. rewrite existsb_app. simpl. now rewrite orb_false_r. Qed.

Lemma any_dot_part_join (a b : string) :
  startswith b "/" = false ->
  is_empty a = false ->
  AutoReadme.any_dot_part (PosixPath.join a b)
  = AutoReadme.any_dot_part a || AutoReadme.any_dot_part b.
Proof.
  intros Hb Ha. unfold AutoReadme.any_dot_part.
  destruct (split_join a b Ha Hb) as [comps [[E|E] ->]]; rewrite E.
  - apply existsb_app.
  - now rewrite existsb_dot_trailing, existsb_app.
Qed.

Lemma is_ignored_from_dotted (cwd : string) (self : AutoReadme.t) (filepath : string)
      (ignore_files : list string) :
  AutoReadme.any_dot_part filepath = true ->
  AutoReadme.is_ignored_from cwd self filepath ignore_files = Ok true.
Proof.
  intros Hdot. unfold AutoReadme.is_ignored_from.
  destruct (relpath_ok cwd filepath (AutoReadme.project_dir self)
                       (any_dot_part_not_empty _ Hdot)) as [rel ->].
  now rewrite Hdot.
Qed.



(** ** The loops of [find_all_scripts_and_config_files] *)

Lemma is_ignored_from_total (cwd : string) (self : AutoReadme.t) (filepath : string)
      (ignore_files : list string) :
  is_empty filepath = false ->
  exists b, AutoReadme.is_ignored_from cwd self filepath ignore_files = Ok b.
Proof.
  intros H. unfold AutoReadme.is_ignored_from.
  destruct (relpath_ok cwd filepath (AutoReadme.project_dir self) H) as [rel ->].
  destruct (_ || _); [eauto|]. destruct (existsb _ _); eauto.
Qed.

Lemma files_loop (self : AutoReadme.t) (ignore_files : list string) (root : string)
      (files : list (string * node)) (scripts : list string) (w : world) :
  is_empty root = false ->
  for_each files (fun '(file, n) scripts =>
    ignored <- AutoReadme.is_ignored self (PosixPath.join root file) ignore_files ;;
    if negb ignored then
      if AutoReadme.is_script_or_config root file && FS.is_file n
      then ret (scripts ++ [PosixPath.join root file])%list
      else ret scripts
    else ret scripts) scripts w
  = (Ok (scripts ++ flat_map (Spec.kept_script (cwd w) self ignore_files root) files)%list,
     w).
Proof.
  intros Hroot. revert scripts.
  induction files as [|[file n] files IH]; intros scripts.
  - simpl. now rewrite app_nil_r.
  - cbn [for_each flat_map]. unfold bind at 1. unfold bind at 1.
    rewrite is_ignored_run. unfold Spec.kept_script at 1. cbn [fst snd].
    destruct (is_ignored_from_total (cwd w) self (PosixPath.join root file)
                ignore_files (join_not_empty root file Hroot)) as [b ->].
    destruct b; cbn [negb].
    + unfold ret at 1. now rewrite IH.
    + destruct (_ && _); unfold ret at 1; rewrite IH.
      * now rewrite <- app_assoc.
      * reflexivity.
Qed.

Lemma triples_loop (self : AutoReadme.t) (ignore_files : list string)
      (triples : list (string * list string * list (string * node)))
      (scripts : list string) (w : world) :
  Forall (fun triple => is_empty (fst (fst triple)) = false) triples ->
  for_each triples (fun '(root, _, files) scripts =>
    for_each files (fun '(file, n) scripts =>
      ignored <- AutoReadme.is_ignored self (PosixPath.join root file) ignore_files ;;
      if negb ignored then
        if AutoReadme.is_script_or_config root file && FS.is_file n
        then ret (scripts ++ [PosixPath.join root file])%list
        else ret scripts
      else ret scripts) scripts) scripts w
  = (Ok (scripts ++ Spec.scripts_of (cwd w) self ignore_files triples)%list, w).
Proof.
  intros H. revert scripts.
  induction H as [|[[root dirs] files] triples Hroot _ IH]; intros scripts.
  - simpl. now rewrite app_nil_r.
  - cbn [for_each]. unfold bind at 1. cbn [fst] in Hroot.
    rewrite (files_loop self ignore_files root files scripts w Hroot).
    rewrite IH. unfold Spec.scripts_of. cbn [flat_map fst snd].
    now rewrite <- app_assoc.
Qed.

Lemma os_walk_roots_not_empty (n : node) :
  forall top,
    is_empty top = false ->
    Forall (fun triple => is_empty (fst (fst triple)) = false) (AutoReadme.os_walk top n).
Proof.
  induction n as [content| |entries IH] using node_nested_ind; intros top Htop;
    [constructor|constructor|].
  rewrite os_walk_Dir. constructor; [exact Htop|].
  apply Forall_flat_map. apply Forall_forall. intros e He.
  destruct (FS.is_dir (snd e)); [|constructor].
  rewrite Forall_forall in IH. apply (IH e He). now apply join_not_empty.
Qed.

Lemma load_ignore_files_value (self : AutoReadme.t) (w w' : world) :
  fs_root w = fs_root w' -> cwd w = cwd w' ->
  fst (AutoReadme.load_ignore_files self w) = fst (AutoReadme.load_ignore_files self w').
Proof.
  intros Hroot Hcwd.
  unfold AutoReadme.load_ignore_files, bind, logging, reading, ret.
  cbn [fs_root cwd log]. rewrite Hroot, Hcwd.
  destruct (FS.path_exists _ _ _); cbn [fs_root cwd log].
  - destruct (FS.read_text _ _ _); reflexivity.
  - reflexivity.
Qed.

Lemma resolve_not_empty (root : node) (cwd path : string) (n : node) :
  FS.resolve root cwd path = Ok n -> is_empty path = false.
Proof. destruct path; [discriminate|reflexivity]. Qed.

(** The flat list as a function of the tree. *)
Lemma find_all_run (self : AutoReadme.t) (w : world) (n : node)
      (ignore_files : list string) :
  fst (AutoReadme.load_ignore_files self w) = Ok ignore_files ->
  FS.resolve (fs_root w) (cwd w) (AutoReadme.project_dir self) = Ok n ->
  fst (AutoReadme.find_all_scripts_and_config_files self w)
  = Ok (Spec.scripts_of (cwd w) self ignore_files
                        (AutoReadme.os_walk (AutoReadme.project_dir self) n)).
Proof.
  intros Hload Hres. unfold AutoReadme.find_all_scripts_and_config_files.
  cbv zeta. unfold bind at 1. unfold logging at 1.
  set (w0 := World _ _ _).
  rewrite (load_ignore_files_value self w w0 eq_refl eq_refl) in Hload.
  destruct (load_ignore_files_world self w0) as [Hroot Hcwd].
  unfold bind at 1.
  destruct (AutoReadme.load_ignore_files self w0) as [[l|e] w1]; [|discriminate].
  cbn [fst] in Hload. injection Hload as ->. cbn [snd] in Hroot, Hcwd.
  unfold bind at 1. unfold AutoReadme.walk.
  change (fs_root w0) with (fs_root w) in Hroot.
  change (cwd w0) with (cwd w) in Hcwd.
  rewrite Hroot, Hcwd, Hres.
  unfold bind at 1.
  rewrite triples_loop
    by (apply os_walk_roots_not_empty; exact (resolve_not_empty _ _ _ _ Hres)).
  rewrite Hcwd. reflexivity.
Qed.


(** ** A project directory with a dotted part *)










(** ** Relative paths below the project directory *)

Lemma split_no_sep (c : ascii) (s : string) :
  Forall (fun piece => mem_char c piece = false) (split c s).
Proof.
  induction s as [|a s IH]; simpl.
  - now constructor.
  - destruct (Ascii.eqb a c) eqn:E.
    + now constructor.
    + destruct (split c s) as [|piece pieces]; constructor.
      * simpl. now rewrite E.
      * constructor.
      * inversion IH; subst. simpl. now rewrite E.
      * now inversion IH.
Qed.

Lemma split_of_piece (c : ascii) (s : string) :
  mem_char c s = false -> split c s = [s].
Proof.
  induction s as [|a s IH]; intros H; [reflexivity|].
  simpl in *. apply orb_false_iff in H as [H1 H2].
  rewrite H1, (IH H2). reflexivity.
Qed.

Lemma valid_name_no_sep (name : string) :
  Spec.valid_name name = true -> mem_char PosixPath.sep name = false.
Proof.
  unfold Spec.valid_name. intros H. apply andb_true_iff in H as [_ H].
  apply negb_true_iff in H.
  induction name as [|a name IH]; [reflexivity|].
  rewrite contains_unfold in H. apply orb_false_iff in H as [H1 H2].
  rewrite startswith_cons, startswith_empty, andb_true_r in H1.
  simpl. rewrite (IH H2), orb_false_r.
  rewrite Ascii.eqb_sym. exact H1.
Qed.

Lemma split_valid_name (name : string) :
  Spec.valid_name name = true -> split PosixPath.sep name = [name].
Proof. intros H. apply split_of_piece. now apply valid_name_no_sep. Qed.

Lemma valid_name_not_empty (name : string) :
  Spec.valid_name name = true -> is_empty name = false.
Proof.
  unfold Spec.valid_name. intros H. apply andb_true_iff in H as [H _].
  now apply negb_true_iff in H.
Qed.

(** The components of [join a name]: those of [a], a trailing empty one
    dropped, and [name]. *)
Lemma split_join_name (a name : string) :
  is_empty a = false ->
  Spec.valid_name name = true ->
  exists comps,
    (split PosixPath.sep a = comps \/ split PosixPath.sep a = comps ++ [EmptyString])%list
    /\ split PosixPath.sep (PosixPath.join a name) = (comps ++ [name])%list.
Proof.
  intros Ha Hn.
  destruct (split_join a name Ha (valid_name_not_absolute name Hn)) as [comps [H1 H2]].
  exists comps. split; [exact H1|]. now rewrite H2, (split_valid_name name Hn).
Qed.

Lemma split_join_two (a d f : string) :
  is_empty a = false ->
  Spec.valid_name d = true ->
  Spec.valid_name f = true ->
  exists comps,
    (split PosixPath.sep a = comps \/ split PosixPath.sep a = comps ++ [EmptyString])%list
    /\ split PosixPath.sep (PosixPath.join (PosixPath.join a d) f)
       = (comps ++ [d; f])%list.
Proof.
  intros Ha Hd Hf.
  destruct (split_join_name a d Ha Hd) as [comps [H1 H2]].
  destruct (split_join_name (PosixPath.join a d) f (join_not_empty a d Ha) Hf)
    as [comps' [H1' H2']].
  exists comps. split; [exact H1|]. rewrite H2'.
  destruct H1' as [E|E]; rewrite H2 in E.
  - rewrite <- E, <- app_assoc. reflexivity.
  - apply app_inj_tail in E as [_ E]. subst d. discriminate.
Qed.

(** [normpath] on components. *)

Lemma normpath_comps_app (flag : bool) (xs ys acc : list string) :
  PosixPath.normpath_comps flag (xs ++ ys) acc
  = PosixPath.normpath_comps flag ys (List.rev (PosixPath.normpath_comps flag xs acc)).
Proof.
  revert acc. induction xs as [|x xs IH]; intros acc.
  - simpl. now rewrite List.rev_involutive.
  - cbn [app PosixPath.normpath_comps].
    destruct (_ || _); [apply IH|].
    destruct (_ || _); [apply IH|].
    destruct acc; apply IH.
Qed.

Lemma normpath_comps_trailing_empty (flag : bool) (xs : list string) :
  PosixPath.normpath_comps flag (xs ++ [EmptyString]) []
  = PosixPath.normpath_comps flag xs [].
Proof.
  rewrite normpath_comps_app. cbn [PosixPath.normpath_comps].
  cbn [String.eqb orb]. apply List.rev_involutive.
Qed.

Lemma normpath_comps_name (flag : bool) (name : string) (ys acc : list string) :
  Spec.valid_name name = true ->
  String.eqb name "." = false ->
  String.eqb name ".." = false ->
  PosixPath.normpath_comps flag (name :: ys) acc
  = PosixPath.normpath_comps flag ys (name :: acc).
Proof.
  intros Hv H1 H2. cbn [PosixPath.normpath_comps].
  rewrite H1, H2. apply valid_name_not_empty in Hv.
  destruct name; [discriminate|]. reflexivity.
Qed.

(** What [normpath_comps] keeps is not empty and holds no separator. *)
Lemma normpath_comps_clean (flag : bool) (comps acc : list string) :
  Forall (fun x => mem_char PosixPath.sep x = false) comps ->
  Forall (fun x => mem_char PosixPath.sep x = false /\ is_empty x = false) acc ->
  Forall (fun x => mem_char PosixPath.sep x = false /\ is_empty x = false)
         (PosixPath.normpath_comps flag comps acc).
Proof.
  intros H. revert acc. induction H as [|x comps Hx _ IH]; intros acc Hacc.
  - simpl. now apply Forall_rev.
  - cbn [PosixPath.normpath_comps].
    destruct (String.eqb x EmptyString || String.eqb x ".") eqn:E; [now apply IH|].
    match goal with |- context [if ?c then _ else _] => destruct c end.
    + apply IH. constructor; [|exact Hacc]. split; [exact Hx|].
      apply orb_false_iff in E as [E _]. destruct x; [discriminate|reflexivity].
    + destruct acc; apply IH; [constructor|now inversion Hacc].
Qed.

Lemma nonempty_comps_concat (comps : list string) :
  Forall (fun x => mem_char PosixPath.sep x = false /\ is_empty x = false) comps ->
  PosixPath.nonempty_comps (PyStr.join "/" comps) = comps.
Proof.
  unfold PosixPath.nonempty_comps, PyStr.join.
  induction 1 as [|x comps [Hx1 Hx2] Hcomps IH]; [reflexivity|].
  destruct comps as [|y comps].
  - simpl. rewrite (split_of_piece _ _ Hx1). simpl. now rewrite Hx2.
  - change (String.concat "/" (x :: y :: comps))
      with (x ++ String PosixPath.sep (String.concat "/" (y :: comps))).
    rewrite split_app_sep, filter_app, IH, (split_of_piece _ _ Hx1).
    simpl. now rewrite Hx2.
Qed.

Lemma nonempty_comps_leading_sep (s : string) :
  PosixPath.nonempty_comps (String PosixPath.sep s) = PosixPath.nonempty_comps s.
Proof.
  unfold PosixPath.nonempty_comps. cbn [split]. now rewrite Ascii.eqb_refl.
Qed.

Lemma nonempty_comps_normpath (s : string) :
  PosixPath.isabs s = true ->
  PosixPath.nonempty_comps (PosixPath.normpath s)
  = PosixPath.normpath_comps true (split PosixPath.sep s) [].
Proof.
  intros Habs. unfold PosixPath.normpath.
  unfold PosixPath.isabs in Habs. rewrite Habs.
  assert (Hs : is_empty s = false) by (destruct s; [discriminate|reflexivity]).
  rewrite Hs.
  assert (Hclean : Forall (fun x => mem_char PosixPath.sep x = false
                                    /\ is_empty x = false)
                          (PosixPath.normpath_comps true (split PosixPath.sep s) [])).
  { apply normpath_comps_clean; [apply split_no_sep|constructor]. }
  destruct (startswith s "//" && negb (startswith s "///"));
    cbn [Nat.eqb negb]; revert Hclean;
    generalize (PosixPath.normpath_comps true (split PosixPath.sep s) []);
    intros comps Hclean; cbn [repeat_str append is_empty];
    rewrite ?nonempty_comps_leading_sep; now apply nonempty_comps_concat.
Qed.

Lemma rev_not_empty (s : string) : is_empty s = false -> is_empty (rev s) = false.
Proof.
  destruct s as [|c s]; [discriminate|]. intros _. rewrite str_rev_cons.
  destruct (rev s); reflexivity.
Qed.

Lemma endswith_sep_app (x a : string) :
  is_empty a = false -> endswith (x ++ a) "/" = endswith a "/".
Proof.
  intros Ha. unfold endswith. rewrite str_rev_app.
  pose proof (rev_not_empty a Ha) as Hr.
  destruct (rev a) as [|c r]; [discriminate|].
  change (rev "/") with "/". cbn [append].
  now rewrite !startswith_cons, !startswith_empty.
Qed.

Lemma append_not_empty_r (x a : string) :
  is_empty a = false -> is_empty (x ++ a) = false.
Proof. intros Ha. destruct x; [exact Ha|reflexivity]. Qed.

Lemma join_relative (x y : string) :
  startswith y "/" = false ->
  PosixPath.join x y
  = if is_empty x || endswith x "/" then x ++ y else x ++ "/" ++ y.
Proof. intros H. unfold PosixPath.join. now rewrite H. Qed.

Lemma join_assoc_relative (cwd a b : string) :
  is_empty a = false ->
  PosixPath.isabs a = false ->
  startswith b "/" = false ->
  PosixPath.join cwd (PosixPath.join a b) = PosixPath.join (PosixPath.join cwd a) b.
Proof.
  intros Ha Habs Hb.
  pose proof (isabs_join a b Ha Hb) as Hjoin. unfold PosixPath.isabs in Hjoin, Habs.
  rewrite Habs in Hjoin.
  rewrite (join_relative cwd (PosixPath.join a b) Hjoin).
  rewrite (join_relative (PosixPath.join cwd a) b Hb).
  rewrite (join_relative cwd a Habs), (join_relative a b Hb), Ha. cbn [orb].
  destruct (is_empty cwd || endswith cwd "/").
  - rewrite (append_not_empty_r cwd a Ha), (endswith_sep_app cwd a Ha). cbn [orb].
    destruct (endswith a "/"); now rewrite !append_assoc.
  - rewrite (append_not_empty_r cwd ("/" ++ a)) by reflexivity.
    rewrite (endswith_sep_app cwd ("/" ++ a)) by reflexivity.
    rewrite (endswith_sep_app "/" a Ha). cbn [orb].
    destruct (endswith a "/"); now rewrite !append_assoc.
Qed.

Lemma isabs_not_empty (s : string) : PosixPath.isabs s = true -> is_empty s = false.
Proof. destruct s; [discriminate|reflexivity]. Qed.

Lemma commonprefix_len_app (l ys : list string) :
  PosixPath.commonprefix_len l (l ++ ys) = List.length l.
Proof.
  induction l as [|x l IH]; simpl; [now destruct ys|].
  now rewrite String.eqb_refl, IH.
Qed.

Lemma skipn_length_app {A} (l ys : list A) : skipn (List.length l) (l ++ ys) = ys.
Proof. induction l as [|x l IH]; simpl; auto. Qed.

(** A name that stands for itself on a path. *)
Lemma normpath_comps_two_names (flag : bool) (comps : list string) (d f : string) :
  Spec.valid_name d = true -> String.eqb d "." = false -> String.eqb d ".." = false ->
  Spec.valid_name f = true -> String.eqb f "." = false -> String.eqb f ".." = false ->
  PosixPath.normpath_comps flag (comps ++ [d; f]) []
  = (PosixPath.normpath_comps flag comps [] ++ [d; f])%list.
Proof.
  intros Hd Hd1 Hd2 Hf Hf1 Hf2.
  rewrite normpath_comps_app.
  rewrite (normpath_comps_name flag d _ _ Hd Hd1 Hd2).
  rewrite (normpath_comps_name flag f _ _ Hf Hf1 Hf2).
  cbn [PosixPath.normpath_comps List.rev].
  now rewrite List.rev_involutive, <- app_assoc.
Qed.

(** The relative path of an entry two levels below the project directory. *)
Lemma relpath_two_below (cwd project_dir d f : string) :
  PosixPath.isabs cwd = true ->
  is_empty project_dir = false ->
  Spec.valid_name d = true -> String.eqb d "." = false -> String.eqb d ".." = false ->
  Spec.valid_name f = true -> String.eqb f "." = false -> String.eqb f ".." = false ->
  PosixPath.relpath cwd (PosixPath.join (PosixPath.join project_dir d) f) project_dir
  = Ok (PosixPath.join d f).
Proof.
  intros Hcwd Hp Hd Hd1 Hd2 Hf Hf1 Hf2.
  pose proof (valid_name_not_absolute d Hd) as Hd0.
  pose proof (valid_name_not_absolute f Hf) as Hf0.
  pose proof (join_not_empty project_dir d Hp) as Hpd.
  unfold PosixPath.relpath. rewrite (join_not_empty _ f Hpd).
  unfold PosixPath.abspath.
  (* the two absolute paths *)
  assert (Hbase : exists base,
             is_empty base = false /\ PosixPath.isabs base = true
             /\ (if PosixPath.isabs project_dir then project_dir
                 else PosixPath.join cwd project_dir) = base
             /\ (if PosixPath.isabs (PosixPath.join (PosixPath.join project_dir d) f)
                 then PosixPath.join (PosixPath.join project_dir d) f
                 else PosixPath.join cwd (PosixPath.join (PosixPath.join project_dir d) f))
                = PosixPath.join (PosixPath.join base d) f).
  { rewrite (isabs_join _ f Hpd Hf0), (isabs_join _ d Hp Hd0).
    destruct (PosixPath.isabs project_dir) eqn:Habs.
    - exists project_dir. auto.
    - exists (PosixPath.join cwd project_dir).
      split; [apply join_not_empty; now apply isabs_not_empty|].
      split; [rewrite isabs_join; auto; now apply isabs_not_empty|].
      split; [reflexivity|].
      rewrite (join_assoc_relative cwd (PosixPath.join project_dir d) f); auto.
      + now rewrite (join_assoc_relative cwd project_dir d).
      + now rewrite isabs_join. }
  destruct Hbase as [base [Hb [Hbabs [-> ->]]]].
  assert (Hxabs : PosixPath.isabs (PosixPath.join (PosixPath.join base d) f) = true).
  { rewrite !isabs_join; auto. now apply join_not_empty. }
  rewrite (nonempty_comps_normpath base Hbabs), (nonempty_comps_normpath _ Hxabs).
  destruct (split_join_two base d f Hb Hd Hf) as [comps [Hsplit ->]].
  assert (Hstart : PosixPath.normpath_comps true (split PosixPath.sep base) []
                   = PosixPath.normpath_comps true comps []).
  { destruct Hsplit as [->| ->]; [reflexivity|apply normpath_comps_trailing_empty]. }
  rewrite Hstart, (normpath_comps_two_names true comps d f) by assumption.
  rewrite commonprefix_len_app, Nat.sub_diag, skipn_length_app.
  reflexivity.
Qed.

(** ** The entries of a directory, by path *)

(** Listing a directory and naming one of its entries by path agree: the
    path [join dir name] resolves to the entry [name] of the directory at
    [dir].  This is what lets the walks read an entry's kind and content
    off its node. *)
Lemma resolve_child (root : node) (cwd dir name : string)
      (entries : list (string * node)) :
  FS.resolve root cwd dir = Ok (Dir entries) ->
  Spec.valid_name name = true ->
  String.eqb name "." = false ->
  String.eqb name ".." = false ->
  FS.resolve root cwd (PosixPath.join dir name)
  = match FS.lookup name entries with
    | Some n => Ok n
    | None => Raise FileNotFoundError
    end.
Proof.
  intros Hres Hv H1 H2.
  pose proof (resolve_not_empty _ _ _ _ Hres) as Hd.
  unfold FS.resolve, FS.resolve_trail in *.
  rewrite Hd in Hres. rewrite (join_not_empty dir name Hd).
  unfold FS.comps_from_root in *.
  rewrite (isabs_join dir name Hd (valid_name_not_absolute name Hv)).
  destruct (split_join_name dir name Hd Hv) as [comps [Hsplit ->]].
  set (pre := if PosixPath.isabs dir then [] else split PosixPath.sep cwd).
  assert (Hpre : FS.resolve_comps [] root
                   (if PosixPath.isabs dir then split PosixPath.sep dir
                    else (split PosixPath.sep cwd ++ split PosixPath.sep dir)%list)
                 = FS.resolve_comps [] root (pre ++ split PosixPath.sep dir)%list).
  { subst pre. now destruct (PosixPath.isabs dir). }
  rewrite Hpre in Hres. clear Hpre.
  assert (Hgoal : FS.resolve_comps [] root
                    (if PosixPath.isabs dir then (comps ++ [name])%list
                     else (split PosixPath.sep cwd ++ comps ++ [name])%list)
                  = FS.resolve_comps [] root ((pre ++ comps) ++ [name])%list).
  { subst pre. destruct (PosixPath.isabs dir); [reflexivity|now rewrite app_assoc]. }
  rewrite Hgoal. clear Hgoal. rewrite resolve_comps_app.
  assert (Hdir : exists trail,
             FS.resolve_comps [] root (pre ++ comps) = Ok (trail, Dir entries)).
  { destruct Hsplit as [E|E]; rewrite E in Hres.
    - destruct (FS.resolve_comps [] root (pre ++ comps)) as [[trail n]|e];
        [|discriminate]. injection Hres as ->. eauto.
    - rewrite app_assoc, resolve_comps_app in Hres.
      destruct (FS.resolve_comps [] root (pre ++ comps)) as [[trail n]|e];
        [|discriminate].
      destruct n as [| |entries']; try discriminate.
      cbn in Hres. injection Hres as ->. eauto. }
  destruct Hdir as [trail ->].
  cbn [FS.resolve_comps]. rewrite H1, H2.
  apply valid_name_not_empty in Hv. destruct name; [discriminate|].
  cbn [String.eqb orb]. destruct (FS.lookup _ entries); reflexivity.
Qed.

Lemma lookup_Permutation (l l' : list (string * node)) :
  Permutation l l' ->
  NoDup (map fst l) ->
  forall name, FS.lookup name l = FS.lookup name l'.
Proof.
  induction 1 as [|[k n] l l' Hp IH|[k1 n1] [k2 n2] l|l l' l'' Hp1 IH1 Hp2 IH2];
    intros Hnd name.
  - reflexivity.
  - simpl. destruct (String.eqb k name); [reflexivity|].
    apply IH. now inversion Hnd.
  - simpl. destruct (String.eqb k1 name) eqn:E1, (String.eqb k2 name) eqn:E2;
      try reflexivity.
    apply String.eqb_eq in E1, E2. subst.
    simpl in Hnd. inversion Hnd as [|? ? Hnotin _]; subst.
    exfalso. apply Hnotin. now left.
  - rewrite (IH1 Hnd). apply IH2.
    apply (Permutation_NoDup (Permutation_map fst Hp1) Hnd).
Qed.

(** ** The scenario *)

Lemma scripts_of_app (cwd : string) (self : AutoReadme.t) (ignore_files : list string)
      (a b : list (string * list string * list (string * node))) :
  Spec.scripts_of cwd self ignore_files (a ++ b)
  = (Spec.scripts_of cwd self ignore_files a
       ++ Spec.scripts_of cwd self ignore_files b)%list.
Proof. unfold Spec.scripts_of. apply flat_map_app. Qed.

Lemma scripts_of_flat_map {A} (cwd : string) (self : AutoReadme.t)
      (ignore_files : list string)
      (g : A -> list (string * list string * list (string * node))) (l : list A) :
  Spec.scripts_of cwd self ignore_files (flat_map g l)
  = flat_map (fun x => Spec.scripts_of cwd self ignore_files (g x)) l.
Proof.
  induction l as [|x l IH]; [reflexivity|].
  cbn [flat_map]. now rewrite scripts_of_app, IH.
Qed.

(** The flat list of a directory: the scripts among its own files, then
    those of its sub-directories, in the order of the listing. *)
Lemma scripts_of_Dir (cwd : string) (self : AutoReadme.t) (ignore_files : list string)
      (top : string) (entries : list (string * node)) :
  Spec.scripts_of cwd self ignore_files (AutoReadme.os_walk top (Dir entries))
  = (flat_map (Spec.kept_script cwd self ignore_files top)
              (filter (fun e => negb (FS.is_dir (snd e))) entries)
       ++ flat_map (fun e =>
                      Spec.scripts_of cwd self ignore_files
                        (if FS.is_dir (snd e)
                         then AutoReadme.os_walk (PosixPath.join top (fst e)) (snd e)
                         else []))
                   entries)%list.
Proof.
  rewrite os_walk_Dir.
  change (?t :: ?l) with ([t] ++ l)%list.
  rewrite scripts_of_app, scripts_of_flat_map.
  f_equal. unfold Spec.scripts_of. cbn [flat_map fst snd]. apply app_nil_r.
Qed.

Lemma lower_app (a b : string) : lower (a ++ b) = lower a ++ lower b.
Proof. induction a as [|c a IH]; simpl; [reflexivity|now rewrite IH]. Qed.

Lemma config_in_lower_join (dir : string) :
  contains "config" (lower (PosixPath.join dir "config")) = true.
Proof.
  rewrite (join_relative dir "config" eq_refl).
  destruct (_ || _); rewrite ?lower_app.
  - apply contains_app_l.
  - rewrite <- append_assoc. apply contains_app_l.
Qed.

(** An entry two levels below an undotted project directory, with plain
    names and no pattern: not ignored. *)
Lemma not_ignored_two_below (cwd : string) (self : AutoReadme.t) (d f : string) :
  PosixPath.isabs cwd = true ->
  is_empty (AutoReadme.project_dir self) = false ->
  AutoReadme.any_dot_part (AutoReadme.project_dir self) = false ->
  Spec.valid_name d = true -> String.eqb d ".." = false ->
  Spec.valid_name f = true -> String.eqb f ".." = false ->
  AutoReadme.any_dot_part d = false ->
  AutoReadme.any_dot_part f = false ->
  contains "__pycache__" (PosixPath.join d f) = false ->
  AutoReadme.is_ignored_from
    cwd self (PosixPath.join (PosixPath.join (AutoReadme.project_dir self) d) f) []
  = Ok false.
Proof.
  intros Hcwd Hp Hdot Hd Hd2 Hf Hf2 Hdd Hdf Hcache.
  assert (Hd1 : String.eqb d "." = false).
  { destruct (String.eqb d ".") eqn:E; [|reflexivity].
    apply String.eqb_eq in E. subst d. discriminate. }
  assert (Hf1 : String.eqb f "." = false).
  { destruct (String.eqb f ".") eqn:E; [|reflexivity].
    apply String.eqb_eq in E. subst f. discriminate. }
  unfold AutoReadme.is_ignored_from.
  rewrite (relpath_two_below cwd _ d f Hcwd Hp Hd Hd1 Hd2 Hf Hf1 Hf2).
  rewrite any_dot_part_join;
    [|now apply valid_name_not_absolute|now apply join_not_empty].
  rewrite any_dot_part_join; [|now apply valid_name_not_absolute|exact Hp].
  now rewrite Hdot, Hdd, Hdf, Hcache.
Qed.

Lemma dotted_two_below (dir d f : string) :
  is_empty dir = false ->
  Spec.valid_name d = true ->
  Spec.valid_name f = true ->
  AutoReadme.any_dot_part d = true ->
  AutoReadme.any_dot_part (PosixPath.join (PosixPath.join dir d) f) = true.
Proof.
  intros Hp Hd Hf Hdd.
  rewrite any_dot_part_join;
    [|now apply valid_name_not_absolute|now apply join_not_empty].
  rewrite any_dot_part_join; [|now apply valid_name_not_absolute|exact Hp].
  now rewrite Hdd, orb_true_r.
Qed.

(** What each entry of the scenario's root contributes. *)
Lemma scenario_entry_scripts (cwd : string) (self : AutoReadme.t)
      (git_config settings main readme : string)
      (src_entries extra : list (string * node)) (e : string * node) :
  PosixPath.isabs cwd = true ->
  is_empty (AutoReadme.project_dir self) = false ->
  AutoReadme.any_dot_part (AutoReadme.project_dir self) = false ->
  Permutation src_entries (Spec.scenario_src main readme) ->
  extra = [] \/ extra = [(".gitignore", File EmptyString)] ->
  In e (Spec.scenario_entries git_config settings src_entries ++ extra) ->
  (FS.is_dir (snd e) = false ->
   Spec.kept_script cwd self [] (AutoReadme.project_dir self) e = [])
  /\ Spec.scripts_of cwd self []
       (if FS.is_dir (snd e)
        then AutoReadme.os_walk (PosixPath.join (AutoReadme.project_dir self) (fst e))
                                (snd e)
        else [])
     = Spec.scenario_hit (AutoReadme.project_dir self) (fst e).
Proof.
  intros Hcwd Hp Hdot Hsrc Hextra Hin.
  apply in_app_or in Hin as [Hin|Hin].
  - destruct Hin as [<-|[<-|[<-|[]]]]; cbn [fst snd FS.is_dir];
      (split; [discriminate|]).
    + (* .git *)
      rewrite scripts_of_Dir. cbn [filter flat_map snd FS.is_dir negb app].
      unfold Spec.kept_script. cbn [fst snd].
      rewrite is_ignored_from_dotted; [reflexivity|].
      now apply dotted_two_below.
    + (* src *)
      rewrite scripts_of_Dir.
      apply Permutation_sym, Permutation_length_2_inv in Hsrc as [-> | ->];
        cbn [filter flat_map fst snd FS.is_dir negb app];
        unfold Spec.kept_script; cbn [fst snd];
        rewrite !not_ignored_two_below by (auto; reflexivity);
        reflexivity.
    + (* config *)
      rewrite scripts_of_Dir. cbn [filter flat_map fst snd FS.is_dir negb app].
      unfold Spec.kept_script. cbn [fst snd].
      rewrite not_ignored_two_below by (auto; reflexivity).
      unfold AutoReadme.is_script_or_config.
      rewrite config_in_lower_join. reflexivity.
  - destruct Hextra as [-> | ->]; [destruct Hin|].
    destruct Hin as [<-|[]]. cbn [fst snd FS.is_dir]. split; [|reflexivity].
    intros _. unfold Spec.kept_script. cbn [fst snd].
    rewrite is_ignored_from_dotted; [reflexivity|].
    rewrite any_dot_part_join; [|reflexivity|exact Hp].
    apply orb_true_r.
Qed.

Lemma scenario_scripts (cwd : string) (self : AutoReadme.t)
      (git_config settings main readme : string)
      (src_entries extra entries : list (string * node)) :
  PosixPath.isabs cwd = true ->
  is_empty (AutoReadme.project_dir self) = false ->
  AutoReadme.any_dot_part (AutoReadme.project_dir self) = false ->
  Permutation src_entries (Spec.scenario_src main readme) ->
  extra = [] \/ extra = [(".gitignore", File EmptyString)] ->
  (forall e, In e entries ->
             In e (Spec.scenario_entries git_config settings src_entries ++ extra)) ->
  Spec.scripts_of cwd self []
                  (AutoReadme.os_walk (AutoReadme.project_dir self) (Dir entries))
  = flat_map (Spec.scenario_hit (AutoReadme.project_dir self)) (map fst entries).
Proof.
  intros Hcwd Hp Hdot Hsrc Hextra Hin. rewrite scripts_of_Dir.
  assert (Hfiles : flat_map (Spec.kept_script cwd self [] (AutoReadme.project_dir self))
                            (filter (fun e => negb (FS.is_dir (snd e))) entries) = []).
  { induction entries as [|e entries IH]; [reflexivity|].
    cbn [filter].
    destruct (scenario_entry_scripts cwd self git_config settings main readme
                src_entries extra e Hcwd Hp Hdot Hsrc Hextra (Hin e (or_introl eq_refl)))
      as [Hfile _].
    destruct (FS.is_dir (snd e)); cbn [negb].
    - apply IH. intros e' He'. apply Hin. now right.
    - cbn [flat_map]. rewrite (Hfile eq_refl). apply IH.
      intros e' He'. apply Hin. now right. }
  rewrite Hfiles. cbn [app].
  induction entries as [|e entries IH]; [reflexivity|].
  cbn [flat_map map].
  destruct (scenario_entry_scripts cwd self git_config settings main readme
              src_entries extra e Hcwd Hp Hdot Hsrc Hextra (Hin e (or_introl eq_refl)))
    as [_ ->].
  f_equal. apply IH.
  - intros e' He'. apply Hin. now right.
  - clear IH. revert Hfiles. cbn [filter].
    destruct (FS.is_dir (snd e)); cbn [negb flat_map]; [auto|].
    intros H. now apply app_eq_nil in H as [_ H].
Qed.

Lemma scenario_names_distinct (git_config settings : string)
      (src_entries extra : list (string * node)) :
  extra = [] \/ extra = [(".gitignore", File EmptyString)] ->
  NoDup (map fst (Spec.scenario_entries git_config settings src_entries ++ extra)).
Proof.
  intros [-> | ->]; cbn [Spec.scenario_entries map fst app];
    repeat (constructor; [cbn [In]; intuition discriminate|]); constructor.
Qed.

Lemma scenario_loads_no_pattern (self : AutoReadme.t) (w : world)
      (git_config settings : string) (src_entries extra entries : list (string * node)) :
  FS.resolve (fs_root w) (cwd w) (AutoReadme.project_dir self) = Ok (Dir entries) ->
  Permutation entries (Spec.scenario_entries git_config settings src_entries ++ extra) ->
  extra = [] \/ extra = [(".gitignore", File EmptyString)] ->
  fst (AutoReadme.load_ignore_files self w) = Ok [].
Proof.
  intros Hres Hperm Hextra.
  pose proof (resolve_child _ _ _ ".gitignore" _ Hres eq_refl eq_refl eq_refl) as Hgit.
  rewrite (lookup_Permutation _ _ Hperm) in Hgit.
  2:{ apply (Permutation_NoDup (Permutation_sym (Permutation_map fst Hperm))).
      now apply scenario_names_distinct. }
  destruct Hextra as [-> | ->]; simpl (FS.lookup _ _) in Hgit.
  - rewrite load_ignore_files_absent; [reflexivity|].
    unfold FS.path_exists. now rewrite Hgit.
  - now rewrite (load_ignore_files_of_file self w EmptyString Hgit).
Qed.

(** C6, as stated, fails: [os.walk] reports the entries in the order of the
    directory listing, which is not sorted.  With [src] listed before
    [config] the flat list is [src/main.py, config/settings.json]. *)
Lemma scenario_flat_list_follows_listing_order :
  fst (AutoReadme.find_all_scripts_and_config_files
         (Sample.instance "/proj" "/out") (Sample.machine Sample.scenario_tree "/"))
  = Ok ["/proj/src/main.py"; "/proj/config/settings.json"]
  /\ ["/proj/src/main.py"; "/proj/config/settings.json"]
     <> ["/proj/config/settings.json"; "/proj/src/main.py"].
Proof. split; [vm_compute; reflexivity|discriminate]. Qed.

(** C6, amended.  For the tree [.git/config], [src/main.py], [src/README],
    [config/settings.json], whatever the order in which the directories
    report their entries, with no ignore file or an empty one, and a
    project directory no part of which starts with a dot, the flat list
    holds exactly [config/settings.json] and [src/main.py] below the
    project directory, each once, in the order in which the listing of the
    root reports [config] and [src]. *)
Theorem scenario_flat_list
        (self : AutoReadme.t) (w : world)
        (git_config settings main readme : string)
        (src_entries extra entries : list (string * node)) :
  PosixPath.isabs (cwd w) = true ->
  AutoReadme.any_dot_part (AutoReadme.project_dir self) = false ->
  FS.resolve (fs_root w) (cwd w) (AutoReadme.project_dir self) = Ok (Dir entries) ->
  Permutation entries (Spec.scenario_entries git_config settings src_entries ++ extra) ->
  Permutation src_entries (Spec.scenario_src main readme) ->
  extra = [] \/ extra = [(".gitignore", File EmptyString)] ->
  exists scripts,
    fst (AutoReadme.find_all_scripts_and_config_files self w) = Ok scripts
    /\ scripts = flat_map (Spec.scenario_hit (AutoReadme.project_dir self))
                          (map fst entries)
    /\ Permutation
         scripts
         [PosixPath.join (PosixPath.join (AutoReadme.project_dir self) "config")
                         "settings.json";
          PosixPath.join (PosixPath.join (AutoReadme.project_dir self) "src") "main.py"].
Proof.
  intros Hcwd Hdot Hres Hperm Hsrc Hextra.
  pose proof (resolve_not_empty _ _ _ _ Hres) as Hp.
  pose proof (scenario_loads_no_pattern self w git_config settings src_entries extra
                entries Hres Hperm Hextra) as Hload.
  exists (flat_map (Spec.scenario_hit (AutoReadme.project_dir self)) (map fst entries)).
  split; [|split].
  - rewrite (find_all_run self w (Dir entries) [] Hload Hres). f_equal.
    apply (scenario_scripts (cwd w) self git_config settings main readme
             src_entries extra entries Hcwd Hp Hdot Hsrc Hextra).
    intros e He. now apply (Permutation_in e Hperm).
  - reflexivity.
  - rewrite (Permutation_flat_map (Spec.scenario_hit (AutoReadme.project_dir self))
               (Permutation_map fst Hperm)).
    destruct Hextra as [-> | ->]; apply perm_swap.
Qed.

Lemma scenario_flat_list_witness :
  (exists scripts,
      fst (AutoReadme.find_all_scripts_and_config_files
             (Sample.instance "/proj" "/out") (Sample.machine Sample.scenario_tree "/"))
      = Ok scripts
      /\ scripts = flat_map (Spec.scenario_hit "/proj") ["src"; ".git"; "config"]
      /\ Permutation scripts ["/proj/config/settings.json"; "/proj/src/main.py"])
  /\ flat_map (Spec.scenario_hit "/proj") ["src"; ".git"; "config"]
     = ["/proj/src/main.py"; "/proj/config/settings.json"]
  /\ flat_map (Spec.scenario_hit "/proj") [".gitignore"; "config"; ".git"; "src"]
     = ["/proj/config/settings.json"; "/proj/src/main.py"].
Proof.
  split; [|split; reflexivity].
  apply (scenario_flat_list
           (Sample.instance "/proj" "/out") (Sample.machine Sample.scenario_tree "/")
           "[core]" "{}" "import os" "notes"
           [("main.py", File "import os"); ("README", File "notes")] []
           [("src", Dir [("main.py", File "import os"); ("README", File "notes")]);
            (".git", Dir [("config", File "[core]")]);
            ("config", Dir [("settings.json", File "{}")])]).
  - reflexivity.
  - reflexivity.
  - reflexivity.
  - cbn [Spec.scenario_entries app]. apply perm_swap.
  - apply Permutation_refl.
  - now left.
Defined.

(** ** The loops of the JSON scanner have steps enough *)

Lemma skip_ws_length (s : string) :
  String.length (Json.skip_ws s) <= String.length s.
Proof.
  induction s as [|c s IH]; simpl; [lia|].
  destruct (Json.is_ws c); simpl; lia.
Qed.

Lemma scanstring_shorter (n : nat) :
  forall s decoded rest,
    String.length s <= n ->
    Json.scanstring s = Ok (decoded, rest) ->
    String.length rest < String.length s.
Proof.
  induction n as [|n IH]; intros s decoded rest Hn H.
  - destruct s; [discriminate|simpl in Hn; lia].
  - destruct s as [|c s1]; [discriminate|].
    cbn [Json.scanstring] in H. cbn [String.length] in *.
    destruct (Json.code c =? 34)%nat; [injection H as _ <-; lia|].
    destruct (Json.code c =? 92)%nat.
    + destruct s1 as [|esc s2]; [discriminate|].
      cbn [String.length] in *.
      destruct (Json.code esc =? 117)%nat.
      * destruct s2 as [|h1 [|h2 [|h3 [|h4 s6]]]]; try discriminate.
        cbn [String.length] in *.
        destruct (Json.hex4 _) as [[uni ?]|]; [|discriminate].
        destruct ((55296 <=? uni) && (uni <=? 56319))%N.
        -- destruct (Json.low_surrogate s6) as [[[uni2 ?]|]|]; [| |discriminate].
           ++ destruct s6 as [|? [|? [|? [|? [|? [|? s12]]]]]]; try discriminate.
              cbn [String.length] in *.
              destruct (Json.scanstring s12) as [[d r]|] eqn:E; [|discriminate].
              injection H as _ <-. apply IH in E; lia.
           ++ destruct (Json.scanstring s6) as [[d r]|] eqn:E; [|discriminate].
              injection H as _ <-. apply IH in E; lia.
        -- destruct (Json.scanstring s6) as [[d r]|] eqn:E; [|discriminate].
           injection H as _ <-. apply IH in E; lia.
      * destruct (Json.backslash esc); [|discriminate].
        destruct (Json.scanstring s2) as [[d r]|] eqn:E; [|discriminate].
        injection H as _ <-. apply IH in E; lia.
    + destruct (Json.code c <? 32)%nat; [discriminate|].
      destruct (Json.scanstring s1) as [[d r]|] eqn:E; [|discriminate].
      injection H as _ <-. apply IH in E; lia.
Qed.

Lemma span_digits_length (s : string) :
  String.length (snd (Json.span_digits s)) <= String.length s.
Proof.
  induction s as [|c s IH]; simpl; [lia|].
  destruct (Json.is_digit c); simpl; [|lia].
  destruct (Json.span_digits s); simpl in *; lia.
Qed.

Lemma match_number_shorter (s literal rest : string) (is_float : bool) :
  Json.match_number s = Some (literal, is_float, rest) ->
  String.length rest < String.length s.
Proof.
  unfold Json.match_number.
  set (signed := match s with
                 | String c s' => if (Json.code c =? 45)%nat then ("-", s')
                                  else (EmptyString, s)
                 | EmptyString => (EmptyString, s)
                 end).
  assert (Hs1 : String.length (snd signed) <= String.length s).
  { subst signed. destruct s as [|c s']; simpl; [lia|].
    destruct (Json.code c =? 45)%nat; simpl; lia. }
  destruct signed as [sign s1]. cbn [snd] in Hs1.
  destruct s1 as [|d s2]; [discriminate|].
  destruct (Json.is_digit d); [|discriminate].
  cbn [String.length] in Hs1.
  set (ints := if (Json.code d =? 48)%nat then (str1 d, s2)
               else let (ds, rest0) := Json.span_digits s2 in (String d ds, rest0)).
  assert (Hs3 : String.length (snd ints) <= String.length s2).
  { subst ints. destruct (Json.code d =? 48)%nat; [simpl; lia|].
    pose proof (span_digits_length s2). destruct (Json.span_digits s2); simpl in *; lia. }
  destruct ints as [int_digits s3]. cbn [snd] in Hs3.
  set (fracs := match s3 with
                | String dot s3' =>
                    if (Json.code dot =? 46)%nat then
                      match Json.span_digits s3' with
                      | (EmptyString, _) => (EmptyString, s3)
                      | (ds, rest0) => (String dot ds, rest0)
                      end
                    else (EmptyString, s3)
                | EmptyString => (EmptyString, s3)
                end).
  assert (Hs4 : String.length (snd fracs) <= String.length s3).
  { subst fracs. destruct s3 as [|dot s3']; [simpl; lia|].
    destruct (Json.code dot =? 46)%nat; [|simpl; lia].
    pose proof (span_digits_length s3').
    destruct (Json.span_digits s3') as [[|? ?] ?]; simpl in *; lia. }
  destruct fracs as [frac s4]. cbn [snd] in Hs4.
  set (exps := match s4 with
               | String e s4' =>
                   if ((Json.code e =? 101) || (Json.code e =? 69))%nat then
                     let (esign, s4'') :=
                       match s4' with
                       | String g rest0 =>
                           if ((Json.code g =? 43) || (Json.code g =? 45))%nat
                           then (str1 g, rest0) else (EmptyString, s4')
                       | EmptyString => (EmptyString, s4')
                       end in
                     match Json.span_digits s4'' with
                     | (EmptyString, _) => (EmptyString, s4)
                     | (ds, rest0) => (String e (esign ++ ds), rest0)
                     end
                   else (EmptyString, s4)
               | EmptyString => (EmptyString, s4)
               end).
  assert (Hs5 : String.length (snd exps) <= String.length s4).
  { subst exps. destruct s4 as [|e s4']; [simpl; lia|].
    destruct (_ || _)%bool; [|simpl; lia].
    set (es := match s4' with
               | String g rest0 =>
                   if ((Json.code g =? 43) || (Json.code g =? 45))%nat
                   then (str1 g, rest0) else (EmptyString, s4')
               | EmptyString => (EmptyString, s4')
               end).
    assert (He : String.length (snd es) <= String.length s4').
    { subst es. destruct s4' as [|g rest0]; [simpl; lia|].
      destruct (_ || _)%bool; simpl; lia. }
    destruct es as [esign s4'']. cbn [snd] in He.
    pose proof (span_digits_length s4'').
    destruct (Json.span_digits s4'') as [[|? ?] ?]; simpl in *; lia. }
  destruct exps as [exp s5]. cbn [snd] in Hs5.
  intros H. injection H as _ _ <-. lia.
Qed.

Lemma substring_length (n m : nat) (s : string) :
  String.length (substring n m s) <= String.length s - n.
Proof.
  revert n m. induction s as [|c s IH]; intros n m.
  - destruct n, m; simpl; lia.
  - destruct n as [|n].
    + destruct m as [|m]; simpl; [lia|]. specialize (IH 0 m). lia.
    + simpl. apply IH.
Qed.

Lemma startswith_length (s p : string) :
  startswith s p = true -> String.length p <= String.length s.
Proof.
  revert s. induction p as [|a p IH]; intros s H; simpl; [lia|].
  destruct s as [|b s]; [discriminate|].
  rewrite startswith_cons in H. apply andb_true_iff in H as [_ H].
  apply IH in H. simpl. lia.
Qed.

Lemma literal_shorter (s p : string) :
  startswith s p = true ->
  0 < String.length p ->
  String.length (substring (String.length p) (String.length s) s) < String.length s.
Proof.
  intros H Hp. apply startswith_length in H.
  pose proof (substring_length (String.length p) (String.length s) s). lia.
Qed.

Lemma array_items_ok (scan : string -> Json.scanned) :
  Spec.scanner_ok scan ->
  forall steps s values,
    String.length s <= steps -> 0 < steps ->
    (exists r, Json.array_items scan steps s values = Some r)
    /\ (forall v rest, Json.array_items scan steps s values = Some (Ok (v, rest)) ->
                       String.length rest < String.length s).
Proof.
  intros Hscan. induction steps as [|steps IH]; intros s values Hlen Hpos; [lia|].
  cbn [Json.array_items].
  destruct (Hscan s) as [[r Hr] Hshort]. rewrite Hr.
  destruct r as [[v rest]|e]; [|split; [eauto|discriminate]].
  specialize (Hshort v rest Hr).
  pose proof (skip_ws_length rest) as Hws.
  destruct (Json.skip_ws rest) as [|c rest']; [split; [eauto|discriminate]|].
  cbn [String.length] in Hws.
  destruct (Json.code c =? 93)%nat.
  { split; [eauto|]. intros v' rest'' H. injection H as _ <-. lia. }
  destruct (Json.code c =? 44)%nat; [|split; [eauto|discriminate]].
  pose proof (skip_ws_length rest') as Hws'.
  destruct (IH (Json.skip_ws rest') (values ++ [v])%list) as [Hsome Hlt]; [lia|lia|].
  split; [exact Hsome|].
  intros v' rest'' H. apply Hlt in H. lia.
Qed.

Lemma object_members_ok (scan : string -> Json.scanned) :
  Spec.scanner_ok scan ->
  forall steps s pairs,
    String.length s <= steps -> 0 < steps ->
    (exists r, Json.object_members scan steps s pairs = Some r)
    /\ (forall v rest, Json.object_members scan steps s pairs = Some (Ok (v, rest)) ->
                       String.length rest < String.length s).
Proof.
  intros Hscan. induction steps as [|steps IH]; intros s pairs Hlen Hpos; [lia|].
  cbn [Json.object_members].
  destruct (Json.scanstring s) as [[key rest]|e] eqn:Hkey;
    [|split; [eauto|discriminate]].
  apply (scanstring_shorter (String.length s)) in Hkey; [|lia].
  pose proof (skip_ws_length rest) as Hws.
  destruct (Json.skip_ws rest) as [|colon rest1]; [split; [eauto|discriminate]|].
  cbn [String.length] in Hws.
  destruct (Json.code colon =? 58)%nat; [|split; [eauto|discriminate]].
  pose proof (skip_ws_length rest1) as Hws1.
  destruct (Hscan (Json.skip_ws rest1)) as [[r Hr] Hshort]. rewrite Hr.
  destruct r as [[v rest2]|e]; [|split; [eauto|discriminate]].
  specialize (Hshort v rest2 Hr).
  pose proof (skip_ws_length rest2) as Hws2.
  destruct (Json.skip_ws rest2) as [|c rest3]; [split; [eauto|discriminate]|].
  cbn [String.length] in Hws2.
  destruct (Json.code c =? 125)%nat.
  { split; [eauto|]. intros v' rest'' H. injection H as _ <-. lia. }
  destruct (Json.code c =? 44)%nat; [|split; [eauto|discriminate]].
  pose proof (skip_ws_length rest3) as Hws3.
  destruct (Json.skip_ws rest3) as [|q rest4]; [split; [eauto|discriminate]|].
  cbn [String.length] in Hws3.
  destruct (Json.code q =? 34)%nat; [|split; [eauto|discriminate]].
  destruct (IH rest4 (Json.dict_set key v pairs)) as [Hsome Hlt]; [lia|lia|].
  split; [exact Hsome|].
  intros v' rest'' H. apply Hlt in H. lia.
Qed.

Lemma scan_scalar_shorter (s : string) (v : Json.value) (rest : string) :
  Json.scan_scalar s = Ok (v, rest) -> String.length rest < String.length s.
Proof.
  unfold Json.scan_scalar.
  destruct (startswith s "null") eqn:E1.
  { intros H. injection H as _ <-. apply (literal_shorter s "null" E1). simpl; lia. }
  destruct (startswith s "true") eqn:E2.
  { intros H. injection H as _ <-. apply (literal_shorter s "true" E2). simpl; lia. }
  destruct (startswith s "false") eqn:E3.
  { intros H. injection H as _ <-. apply (literal_shorter s "false" E3). simpl; lia. }
  destruct (startswith s "NaN") eqn:E4.
  { intros H. injection H as _ <-. apply (literal_shorter s "NaN" E4). simpl; lia. }
  destruct (startswith s "Infinity") eqn:E5.
  { intros H. injection H as _ <-. apply (literal_shorter s "Infinity" E5). simpl; lia. }
  destruct (startswith s "-Infinity") eqn:E6.
  { intros H. injection H as _ <-. apply (literal_shorter s "-Infinity" E6). simpl; lia. }
  destruct (Json.match_number s) as [[[literal is_float] rest0]|] eqn:En; [|discriminate].
  apply match_number_shorter in En.
  destruct (_ && _)%bool; [discriminate|].
  intros H. injection H as _ <-. exact En.
Qed.

(** [scan_once] never stops for want of steps. *)
Lemma scan_once_ok (depth : nat) : Spec.scanner_ok (Json.scan_once depth).
Proof.
  induction depth as [|depth IH]; intros s.
  - destruct s as [|c s']; [split; [simpl; eauto|discriminate]|].
    cbn [Json.scan_once].
    destruct (Json.code c =? 34)%nat.
    { destruct (Json.scanstring s') as [[str rest]|e] eqn:E;
        (split; [eauto|]); [|discriminate].
      intros v rest' H. injection H as _ <-.
      apply (scanstring_shorter (String.length s')) in E; simpl; lia. }
    destruct (Json.code c =? 123)%nat; [split; [eauto|discriminate]|].
    destruct (Json.code c =? 91)%nat; [split; [eauto|discriminate]|].
    split; [eauto|]. intros v rest H. injection H as H.
    now apply scan_scalar_shorter in H.
  - destruct s as [|c s']; [split; [simpl; eauto|discriminate]|].
    cbn [Json.scan_once].
    destruct (Json.code c =? 34)%nat.
    { destruct (Json.scanstring s') as [[str rest]|e] eqn:E;
        (split; [eauto|]); [|discriminate].
      intros v rest' H. injection H as _ <-.
      apply (scanstring_shorter (String.length s')) in E; simpl; lia. }
    destruct (Json.code c =? 123)%nat.
    { pose proof (skip_ws_length s') as Hws.
      destruct (Json.skip_ws s') as [|q rest]; [split; [eauto|discriminate]|].
      cbn [String.length] in *.
      destruct (Json.code q =? 125)%nat.
      { split; [eauto|]. intros v rest' H. injection H as _ <-. lia. }
      destruct (Json.code q =? 34)%nat; [|split; [eauto|discriminate]].
      destruct (object_members_ok _ IH (S (String.length rest)) rest [])
        as [Hsome Hlt]; [lia|lia|].
      split; [exact Hsome|]. intros v rest' H. apply Hlt in H. lia. }
    destruct (Json.code c =? 91)%nat.
    { pose proof (skip_ws_length s') as Hws.
      destruct (Json.skip_ws s') as [|q rest]; [split; [eauto|discriminate]|].
      cbn [String.length] in *.
      destruct (Json.code q =? 93)%nat.
      { split; [eauto|]. intros v rest' H. injection H as _ <-. lia. }
      destruct (array_items_ok _ IH (S (String.length rest)) (String q rest) [])
        as [Hsome Hlt]; [simpl; lia|lia|].
      split; [exact Hsome|]. intros v rest' H. apply Hlt in H. simpl in H. lia. }
    split; [eauto|]. intros v rest H. injection H as H.
    now apply scan_scalar_shorter in H.
Qed.

Lemma scan_once_some (depth : nat) (s : string) :
  exists r, Json.scan_once depth s = Some r.
Proof. apply scan_once_ok. Qed.

(** ** Replies that are not a JSON object *)








(** * Further properties *)

(** ** [find_imports] *)

Lemma fold_left_filter_app {A} (p : A -> bool) (l acc : list A) :
  fold_left (fun acc x => if p x then (acc ++ [x])%list else acc) l acc
  = (acc ++ filter p l)%list.
Proof.
  revert acc. induction l as [|x l IH]; intros acc; simpl.
  - now rewrite app_nil_r.
  - rewrite IH. destruct (p x); [now rewrite <- app_assoc|reflexivity].
Qed.

Lemma find_imports_filter (content : string) :
  AutoReadme.find_imports content
  = filter Aux.is_import_line (split (chr 10) content).
Proof.
  unfold AutoReadme.find_imports.
  exact (fold_left_filter_app Aux.is_import_line (split (chr 10) content) []).
Qed.

(** X1.  [find_imports] works line by line: the import lines of two texts
    put one after the other, a newline between them, are those of the
    first followed by those of the second. *)
Theorem find_imports_app (a b : string) :
  AutoReadme.find_imports (a ++ newline ++ b)
  = (AutoReadme.find_imports a ++ AutoReadme.find_imports b)%list.
Proof.
  rewrite !find_imports_filter.
  change (newline ++ b) with (String (chr 10) b).
  now rewrite split_app_sep, filter_app.
Qed.

Lemma join_cons (sep x : string) (l : list string) :
  l <> [] -> PyStr.join sep (x :: l) = x ++ sep ++ PyStr.join sep l.
Proof. destruct l; [congruence|reflexivity]. Qed.

Lemma split_join_pieces (c : ascii) (l : list string) :
  l <> [] ->
  Forall (fun piece => mem_char c piece = false) l ->
  split c (PyStr.join (str1 c) l) = l.
Proof.
  induction l as [|x l IH]; intros Hne Hl; [congruence|].
  inversion Hl as [|? ? Hx Hl']; subst.
  destruct l as [|y l].
  - simpl. now apply split_of_piece.
  - rewrite join_cons by discriminate.
    change (str1 c ++ PyStr.join (str1 c) (y :: l))
      with (String c (PyStr.join (str1 c) (y :: l))).
    rewrite split_app_sep, IH by (auto; discriminate).
    now rewrite (split_of_piece c x Hx).
Qed.

(** X2.  Every line that [find_imports] returns begins with [import] or
    [from] at its first column and holds no newline; and the lines
    joined by newlines, as the prompt has them, give the same lines again. *)
Theorem find_imports_fixed (content : string) :
  Forall (fun line => Aux.is_import_line line = true
                      /\ mem_char (chr 10) line = false)
         (AutoReadme.find_imports content)
  /\ AutoReadme.find_imports (PyStr.join newline (AutoReadme.find_imports content))
     = AutoReadme.find_imports content.
Proof.
  assert (H : Forall (fun line => Aux.is_import_line line = true
                                  /\ mem_char (chr 10) line = false)
                     (AutoReadme.find_imports content)).
  { rewrite find_imports_filter. apply Forall_forall. intros line Hin.
    apply filter_In in Hin as [Hin Hp]. split; [exact Hp|].
    pose proof (split_no_sep (chr 10) content) as Hs.
    rewrite Forall_forall in Hs. now apply Hs. }
  split; [exact H|].
  destruct (AutoReadme.find_imports content) as [|x l] eqn:E; [reflexivity|].
  rewrite find_imports_filter.
  change newline with (str1 (chr 10)).
  rewrite split_join_pieces; [|discriminate|].
  - apply forallb_filter_id. apply forallb_forall. intros line Hin.
    rewrite Forall_forall in H. now apply H.
  - apply Forall_forall. intros line Hin. rewrite Forall_forall in H. now apply H.
Qed.

(** ** The patterns of [load_ignore_files] *)

Lemma lstrip_chars_not_starting (c : ascii) (s : string) :
  startswith (lstrip_chars (str1 c) s) (str1 c) = false.
Proof.
  induction s as [|a s IH]; [reflexivity|].
  cbn [lstrip_chars]. destruct (mem_char a (str1 c)) eqn:E; [exact IH|].
  cbn [mem_char str1] in E. rewrite orb_false_r in E.
  unfold str1. rewrite startswith_cons, E. reflexivity.
Qed.

Lemma startswith_app_sep (s t : string) :
  is_empty s = false -> startswith (s ++ t) "/" = startswith s "/".
Proof.
  destruct s as [|a s]; [discriminate|]. intros _.
  cbn [append]. now rewrite !startswith_cons, !startswith_empty.
Qed.

Lemma endswith_star (s : string) : endswith (s ++ "*") "/" = false.
Proof. unfold endswith. now rewrite str_rev_app. Qed.

Lemma pattern_of_line_no_separator (line : string) :
  startswith (Spec.pattern_of_line line) "/" = false
  /\ endswith (Spec.pattern_of_line line) "/" = false.
Proof.
  unfold Spec.pattern_of_line.
  pose proof (lstrip_chars_not_starting "/"%char (strip line)) as H.
  change (str1 "/") with "/" in H.
  destruct (endswith (lstrip_chars "/" (strip line)) "/") eqn:E.
  - split; [|apply endswith_star].
    rewrite startswith_app_sep; [exact H|].
    destruct (lstrip_chars "/" (strip line)); [discriminate|reflexivity].
  - now split.
Qed.

Lemma patterns_of_lines_no_separator (lines : list string) :
  Forall (fun pattern => startswith pattern "/" = false
                         /\ endswith pattern "/" = false)
         (AutoReadme.patterns_of_lines lines).
Proof.
  induction lines as [|line lines IH]; [constructor|].
  rewrite patterns_of_lines_cons.
  destruct (_ && _); [|exact IH].
  constructor; [apply pattern_of_line_no_separator|exact IH].
Qed.

(** X3.  No pattern that [load_ignore_files] returns begins or ends with
    the path separator: leading separators are stripped, and a pattern
    that would end with one gets [*] appended. *)
Theorem load_ignore_files_no_separator (self : AutoReadme.t) (w w' : world)
        (ignore_files : list string) :
  AutoReadme.load_ignore_files self w = (Ok ignore_files, w') ->
  Forall (fun pattern => startswith pattern "/" = false
                         /\ endswith pattern "/" = false)
         ignore_files.
Proof.
  unfold AutoReadme.load_ignore_files, bind, logging, reading, ret.
  cbn [fs_root cwd log].
  destruct (FS.path_exists _ _ _); cbn [fs_root cwd log].
  - destruct (FS.read_text _ _ _) as [content|e]; cbn [fs_root cwd log].
    + intros H. injection H as <- _. apply patterns_of_lines_no_separator.
    + discriminate.
  - intros H. injection H as <- _. constructor.
Qed.

Lemma load_ignore_files_no_separator_witness :
  Forall (fun pattern => startswith pattern "/" = false
                         /\ endswith pattern "/" = false)
         ["build/*"].
Proof.
  apply (load_ignore_files_no_separator
           (Sample.instance "/proj" "/out")
           (Sample.machine Sample.slashes_tree "/")
           (snd (AutoReadme.load_ignore_files
                   (Sample.instance "/proj" "/out")
                   (Sample.machine Sample.slashes_tree "/")))
           ["build/*"]).
  reflexivity.
Defined.

(** ** The answers of [is_ignored] *)

Lemma join_many_not_empty (a : string) (p : list string) :
  is_empty a = false -> is_empty (PosixPath.join_many a p) = false.
Proof.
  unfold PosixPath.join_many. revert a.
  induction p as [|b p IH]; intros a Ha; [exact Ha|].
  simpl. apply IH. now apply join_not_empty.
Qed.

Lemma relpath_not_empty (cwd path start rel : string) :
  PosixPath.relpath cwd path start = Ok rel -> is_empty rel = false.
Proof.
  unfold PosixPath.relpath. destruct (is_empty path); [discriminate|].
  set (start_list := PosixPath.nonempty_comps (PosixPath.abspath cwd start)).
  set (path_list := PosixPath.nonempty_comps (PosixPath.abspath cwd path)).
  set (i := PosixPath.commonprefix_len start_list path_list).
  destruct (repeat ".." (List.length start_list - i) ++ skipn i path_list)%list
    as [|a p] eqn:E.
  - intros H. now injection H as <-.
  - intros H. injection H as <-. apply join_many_not_empty.
    assert (Hin : In a (repeat ".." (List.length start_list - i)
                          ++ skipn i path_list)%list)
      by (rewrite E; now left).
    apply in_app_or in Hin as [Hin|Hin].
    + apply repeat_spec in Hin. now subst a.
    + assert (Hin' : In a path_list).
      { rewrite <- (firstn_skipn i path_list). apply in_or_app. now right. }
      subst path_list. unfold PosixPath.nonempty_comps in Hin'.
      apply filter_In in Hin' as [_ H]. now apply negb_true_iff in H.
Qed.

Lemma code_points_not_nil (s : string) :
  is_empty s = false -> Fnmatch.code_points s <> [].
Proof.
  destruct s as [|a s]; [discriminate|]. intros _.
  cbn [Fnmatch.code_points].
  destruct (_ <? _)%N; [discriminate|].
  destruct s as [|a1 s]; [discriminate|].
  destruct (_ && _).
  { destruct (Fnmatch.is_cont _); discriminate. }
  destruct s as [|a2 s]; [discriminate|].
  destruct (_ && _).
  { destruct (_ && _); discriminate. }
  destruct s as [|a3 s]; [discriminate|].
  destruct (_ && _); discriminate.
Qed.

(** The empty pattern matches the empty name only. *)
Lemma fnmatch_empty_pattern (name : string) :
  is_empty name = false -> Fnmatch.fnmatch name EmptyString = false.
Proof.
  intros H. unfold Fnmatch.fnmatch, Fnmatch.matches. cbn.
  pose proof (code_points_not_nil name H).
  now destruct (Fnmatch.code_points name).
Qed.

Lemma blank_line_pattern (line : string) :
  Spec.is_blank line = true -> Spec.pattern_of_line line = EmptyString.
Proof.
  unfold Spec.is_blank, Spec.pattern_of_line. intros H.
  now destruct (strip line).
Qed.

Lemma is_ignored_from_same_matches (cwd : string) (self : AutoReadme.t)
      (filepath : string) (l l' : list string) :
  (forall rel,
      PosixPath.relpath cwd filepath (AutoReadme.project_dir self) = Ok rel ->
      existsb (fun pattern => Fnmatch.fnmatch rel pattern) l
      = existsb (fun pattern => Fnmatch.fnmatch rel pattern) l') ->
  AutoReadme.is_ignored_from cwd self filepath l
  = AutoReadme.is_ignored_from cwd self filepath l'.
Proof.
  intros H. unfold AutoReadme.is_ignored_from.
  destruct (PosixPath.relpath _ _ _) as [rel|e]; [|reflexivity].
  now rewrite (H rel eq_refl).
Qed.

(** X4.  A blank line of [.gitignore] changes nothing in what is ignored:
    the empty pattern that it leaves in the list matches no path. *)
Theorem blank_line_ignores_nothing (self : AutoReadme.t) (filepath : string)
        (before after : list string) (line : string) (w : world) :
  Spec.is_blank line = true ->
  AutoReadme.is_ignored self filepath
    (AutoReadme.patterns_of_lines (before ++ line :: after)) w
  = AutoReadme.is_ignored self filepath
      (AutoReadme.patterns_of_lines (before ++ after)) w.
Proof.
  intros Hb. rewrite !is_ignored_run. f_equal.
  apply is_ignored_from_same_matches. intros rel Hrel.
  rewrite !patterns_of_lines_app, patterns_of_lines_cons, !existsb_app.
  destruct (_ && _); [|reflexivity].
  cbn [app existsb]. rewrite (blank_line_pattern line Hb).
  now rewrite (fnmatch_empty_pattern rel (relpath_not_empty _ _ _ _ Hrel)).
Qed.

Lemma blank_line_ignores_nothing_witness :
  AutoReadme.is_ignored (Sample.instance "/proj" "/out") "/proj/src/main.py"
    (AutoReadme.patterns_of_lines
       ([Spec.line "build"] ++ Spec.line "  " :: [Spec.line "dist"])%list)
    (Sample.machine Sample.scenario_tree "/")
  = AutoReadme.is_ignored (Sample.instance "/proj" "/out") "/proj/src/main.py"
      (AutoReadme.patterns_of_lines ([Spec.line "build"] ++ [Spec.line "dist"])%list)
      (Sample.machine Sample.scenario_tree "/").
Proof.
  apply (blank_line_ignores_nothing
           (Sample.instance "/proj" "/out") "/proj/src/main.py"
           [Spec.line "build"] [Spec.line "dist"] (Spec.line "  ")
           (Sample.machine Sample.scenario_tree "/")).
  reflexivity.
Defined.

Lemma existsb_same_members {A} (p : A -> bool) (l l' : list A) :
  (forall x, In x l <-> In x l') -> existsb p l = existsb p l'.
Proof.
  intros H. apply eq_true_iff_eq. rewrite !existsb_exists.
  split; intros [x [Hin Hp]]; exists x; split; auto; now apply H.
Qed.

(** X5.  Only the set of patterns counts for [is_ignored]: two lists
    with the same members, in any order and with any repetition, give the
    same answer. *)
Theorem is_ignored_same_patterns (self : AutoReadme.t) (filepath : string)
        (l l' : list string) (w : world) :
  (forall pattern, In pattern l <-> In pattern l') ->
  AutoReadme.is_ignored self filepath l w = AutoReadme.is_ignored self filepath l' w.
Proof.
  intros H. rewrite !is_ignored_run. f_equal.
  apply is_ignored_from_same_matches. intros rel _.
  now apply existsb_same_members.
Qed.

Lemma is_ignored_same_patterns_witness :
  AutoReadme.is_ignored (Sample.instance "/proj" "/out") "/proj/src/main.py"
                        ["*.log"; "src/*"] (Sample.machine Sample.scenario_tree "/")
  = AutoReadme.is_ignored (Sample.instance "/proj" "/out") "/proj/src/main.py"
                          ["src/*"; "*.log"; "src/*"]
                          (Sample.machine Sample.scenario_tree "/").
Proof.
  apply (is_ignored_same_patterns
           (Sample.instance "/proj" "/out") "/proj/src/main.py"
           ["*.log"; "src/*"] ["src/*"; "*.log"; "src/*"]
           (Sample.machine Sample.scenario_tree "/")).
  intros pattern. simpl. tauto.
Defined.

(** X6.  [is_ignored] raises for the empty path only, [ValueError] from
    [os.path.relpath]; for every other path it answers, and it leaves the
    file system and the log as they are. *)
Theorem is_ignored_raises_on_empty_path (self : AutoReadme.t) (filepath : string)
        (ignore_files : list string) (w : world) :
  (filepath = EmptyString ->
   AutoReadme.is_ignored self filepath ignore_files w = (Raise ValueError, w))
  /\ (filepath <> EmptyString ->
      exists b, AutoReadme.is_ignored self filepath ignore_files w = (Ok b, w)).
Proof.
  split.
  - intros ->. reflexivity.
  - intros H. rewrite is_ignored_run.
    destruct (is_ignored_from_total (cwd w) self filepath ignore_files) as [b ->].
    + destruct filepath; [congruence|reflexivity].
    + now exists b.
Qed.

Lemma is_ignored_raises_on_empty_path_witness :
  AutoReadme.is_ignored (Sample.instance "/proj" "/out") EmptyString []
                        (Sample.machine Sample.scenario_tree "/")
  = (Raise ValueError, Sample.machine Sample.scenario_tree "/")
  /\ exists b,
       AutoReadme.is_ignored (Sample.instance "/proj" "/out") "/proj/src" []
                             (Sample.machine Sample.scenario_tree "/")
       = (Ok b, Sample.machine Sample.scenario_tree "/").
Proof.
  split.
  - apply (is_ignored_raises_on_empty_path
             (Sample.instance "/proj" "/out") EmptyString []
             (Sample.machine Sample.scenario_tree "/")).
    reflexivity.
  - apply (is_ignored_raises_on_empty_path
             (Sample.instance "/proj" "/out") "/proj/src" []
             (Sample.machine Sample.scenario_tree "/")).
    discriminate.
Defined.

(** ** Failures of the loading of [.gitignore] *)

Lemma find_all_load_raises (self : AutoReadme.t) (w : world) (e : pyerr) :
  fst (AutoReadme.load_ignore_files self w) = Raise e ->
  fst (AutoReadme.find_all_scripts_and_config_files self w) = Raise e.
Proof.
  intros H. unfold AutoReadme.find_all_scripts_and_config_files.
  unfold bind at 1. unfold logging at 1.
  set (w0 := World _ _ _).
  rewrite (load_ignore_files_value self w w0 eq_refl eq_refl) in H.
  unfold bind at 1.
  destruct (AutoReadme.load_ignore_files self w0) as [[l|e'] w1];
    cbn [fst] in H; [discriminate|].
  now injection H as ->.
Qed.

Lemma structure_load_raises (self : AutoReadme.t) (dir_path : string)
      (indent_level : nat) (w : world) (e : pyerr) :
  fst (AutoReadme.load_ignore_files self w) = Raise e ->
  fst (AutoReadme.generate_project_structure self dir_path indent_level None w)
  = Raise e.
Proof.
  intros H. unfold AutoReadme.generate_project_structure.
  unfold bind at 1.
  destruct (AutoReadme.load_ignore_files self w) as [[l|e'] w1];
    cbn [fst] in H; [discriminate|].
  now injection H as ->.
Qed.




Lemma load_ignore_files_directory (self : AutoReadme.t) (w : world) :
  FS.path_isdir (fs_root w) (cwd w)
                (PosixPath.join (AutoReadme.project_dir self) ".gitignore") = true ->
  fst (AutoReadme.load_ignore_files self w) = Raise IsADirectoryError.
Proof.
  unfold FS.path_isdir. intros H.
  unfold AutoReadme.load_ignore_files, bind, logging, reading, ret,
    FS.path_exists, FS.read_text.
  cbn [fs_root cwd log].
  destruct (FS.resolve (fs_root w) (cwd w) _) as [[content| |entries]|e] eqn:E;
    try discriminate.
  cbn [fs_root cwd log]. now rewrite E.
Qed.

(** X8.  If [.gitignore] in the project directory is itself a directory,
    [load_ignore_files] raises [IsADirectoryError], and so do both
    traversals: the error is handled nowhere. *)
Theorem gitignore_directory_stops_the_traversals (self : AutoReadme.t)
        (dir_path : string) (indent_level : nat) (w : world) :
  FS.path_isdir (fs_root w) (cwd w)
                (PosixPath.join (AutoReadme.project_dir self) ".gitignore") = true ->
  fst (AutoReadme.load_ignore_files self w) = Raise IsADirectoryError
  /\ fst (AutoReadme.find_all_scripts_and_config_files self w)
     = Raise IsADirectoryError
  /\ fst (AutoReadme.generate_project_structure self dir_path indent_level None w)
     = Raise IsADirectoryError.
Proof.
  intros H. pose proof (load_ignore_files_directory self w H) as Hl.
  split; [exact Hl|]. split.
  - now apply find_all_load_raises.
  - now apply structure_load_raises.
Qed.

Lemma gitignore_directory_stops_the_traversals_witness :
  fst (AutoReadme.load_ignore_files
         (Sample.instance "/proj" "/out")
         (Sample.machine Sample.gitignore_directory_tree "/"))
  = Raise IsADirectoryError
  /\ fst (AutoReadme.find_all_scripts_and_config_files
            (Sample.instance "/proj" "/out")
            (Sample.machine Sample.gitignore_directory_tree "/"))
     = Raise IsADirectoryError
  /\ fst (AutoReadme.generate_project_structure
            (Sample.instance "/proj" "/out") "/proj" 0 None
            (Sample.machine Sample.gitignore_directory_tree "/"))
     = Raise IsADirectoryError.
Proof.
  apply (gitignore_directory_stops_the_traversals
           (Sample.instance "/proj" "/out") "/proj" 0
           (Sample.machine Sample.gitignore_directory_tree "/")).
  reflexivity.
Defined.

(** ** The structural walk as a function of the tree *)

Lemma Forall2_insert_sorted {A B} (R : string * A -> string * B -> Prop)
      (x : string * A) (y : string * B) (l : list (string * A))
      (l' : list (string * B)) :
  (forall a b, R a b -> fst a = fst b) ->
  R x y -> Forall2 R l l' ->
  Forall2 R (AutoReadme.insert_sorted x l) (AutoReadme.insert_sorted y l').
Proof.
  intros Hkey Hxy Hl. induction Hl as [|a b l l' Hab Hl IH]; simpl.
  - now constructor.
  - rewrite (Hkey x y Hxy), (Hkey a b Hab).
    destruct (String.leb (fst y) (fst b)); constructor; auto.
Qed.

Lemma Forall2_sorted {A B} (R : string * A -> string * B -> Prop)
      (l : list (string * A)) (l' : list (string * B)) :
  (forall a b, R a b -> fst a = fst b) ->
  Forall2 R l l' -> Forall2 R (AutoReadme.sorted l) (AutoReadme.sorted l').
Proof.
  intros Hkey H. induction H as [|a b l l' Hab Hl IH]; [constructor|].
  unfold AutoReadme.sorted. simpl. now apply Forall2_insert_sorted.
Qed.

(** The loop of the structural walk, each directory's own walk being
    given by its listing. *)
Lemma items_loop (self : AutoReadme.t) (ignore_files : list string)
      (dir_path : string) (indent_level : nat) (cwd0 : string)
      (items : list (string * (bool * M (list string))))
      (items' : list (string * (bool * list (string * string)))) :
  is_empty dir_path = false ->
  Forall2 (fun a b =>
             fst a = fst b /\ fst (snd a) = fst (snd b)
             /\ (fst (snd a) = true ->
                 forall w, cwd w = cwd0 ->
                   snd (snd a) w
                   = (Ok (map snd (snd (snd b))),
                      World (fs_root w) (cwd w)
                            (log w ++ map (fun p => Aux.add_record (fst p))
                                          (snd (snd b))))))
          items items' ->
  forall (markdown_lines : list string) (w : world),
    cwd w = cwd0 ->
    for_each items
      (fun '(item, (isdir, recurse)) markdown_lines =>
         ignored <- AutoReadme.is_ignored self (PosixPath.join dir_path item)
                                          ignore_files ;;
         if ignored : bool then ret markdown_lines
         else
           logging INFO "Add to structure: {}" [LStr (PosixPath.join dir_path item)] ;;;
           if isdir : bool then
             below <- recurse ;;
             ret (markdown_lines
                    ++ [AutoReadme.directory_line indent_level item] ++ below)%list
           else ret (markdown_lines ++ [AutoReadme.file_line indent_level item])%list)
      markdown_lines w
    = (Ok (markdown_lines
             ++ map snd
                  (flat_map
                     (fun '(item, (isdir, below)) =>
                        match AutoReadme.is_ignored_from
                                cwd0 self (PosixPath.join dir_path item) ignore_files
                        with
                        | Ok false =>
                            if isdir : bool
                            then (PosixPath.join dir_path item,
                                  AutoReadme.directory_line indent_level item) :: below
                            else [(PosixPath.join dir_path item,
                                   AutoReadme.file_line indent_level item)]
                        | _ => []
                        end) items'))%list,
       World (fs_root w) (cwd w)
             (log w
                ++ map (fun p => Aux.add_record (fst p))
                     (flat_map
                        (fun '(item, (isdir, below)) =>
                           match AutoReadme.is_ignored_from
                                   cwd0 self (PosixPath.join dir_path item) ignore_files
                           with
                           | Ok false =>
                               if isdir : bool
                               then (PosixPath.join dir_path item,
                                     AutoReadme.directory_line indent_level item) :: below
                               else [(PosixPath.join dir_path item,
                                      AutoReadme.file_line indent_level item)]
                           | _ => []
                           end) items'))).
Proof.
  intros Hdir H.
  induction H as [|[item [isdir recurse]] [item' [isdir' below]] items items'
                    [Hitem [Hisdir Hrun]] _ IH];
    intros markdown_lines w Hcwd.
  - simpl. rewrite !app_nil_r. now destruct w.
  - cbn [fst snd] in Hitem, Hisdir, Hrun. subst item' isdir'.
    subst cwd0.
    cbn [for_each flat_map]. unfold bind at 1. unfold bind at 1.
    rewrite is_ignored_run.
    destruct (is_ignored_from_total (cwd w) self (PosixPath.join dir_path item)
                ignore_files (join_not_empty dir_path item Hdir)) as [b Hb].
    rewrite Hb. destruct b.
    + unfold ret at 1. rewrite (IH markdown_lines w eq_refl). reflexivity.
    + unfold bind at 1. unfold logging at 1.
      set (w1 := World _ _ _).
      assert (Hcwd1 : cwd w1 = cwd w) by reflexivity.
      destruct isdir.
      * unfold bind at 1. rewrite (Hrun eq_refl w1 Hcwd1).
        unfold ret at 1. rewrite IH by exact Hcwd1.
        subst w1. cbn [fs_root cwd log map app].
        rewrite !map_app, <- !app_assoc. reflexivity.
      * unfold ret at 1. rewrite IH by exact Hcwd1.
        subst w1. cbn [fs_root cwd log map app].
        rewrite <- !app_assoc. reflexivity.
Qed.

Lemma structure_of_run (self : AutoReadme.t) (ignore_files : list string)
      (n : node) :
  forall (dir_path : string) (indent_level : nat) (w : world),
    is_empty dir_path = false ->
    FS.is_dir n = true ->
    AutoReadme.structure_of self ignore_files n dir_path indent_level w
    = (Ok (map snd (Aux.listing (cwd w) self ignore_files n dir_path indent_level)),
       World (fs_root w) (cwd w)
             (log w ++ map (fun p => Aux.add_record (fst p))
                           (Aux.listing (cwd w) self ignore_files n dir_path
                                        indent_level))).
Proof.
  induction n as [content| |entries IH] using node_nested_ind;
    intros dir_path indent_level w Hdir Hn; try discriminate.
  cbn [AutoReadme.structure_of Aux.listing]. cbv zeta.
  refine (items_loop self ignore_files dir_path indent_level (cwd w) _ _ Hdir
                     _ [] w eq_refl).
  apply Forall2_sorted; [now intros a b [H _]|].
  clear Hn. induction IH as [|[item child] entries Hchild _ IHe]; [constructor|].
  constructor; [|exact IHe].
  cbn [fst snd]. split; [reflexivity|]. split; [reflexivity|].
  intros Hc w' Hcwd. rewrite <- Hcwd.
  apply Hchild; [now apply join_not_empty|exact Hc].
Qed.

Lemma generate_project_structure_given (self : AutoReadme.t) (dir_path : string)
      (indent_level : nat) (ignore_files : list string) (w : world) :
  AutoReadme.generate_project_structure self dir_path indent_level (Some ignore_files) w
  = match FS.resolve (fs_root w) (cwd w) dir_path with
    | Ok n =>
        if FS.is_dir n then
          (Ok (map snd (Aux.listing (cwd w) self ignore_files n dir_path indent_level)),
           World (fs_root w) (cwd w)
                 (log w ++ map (fun p => Aux.add_record (fst p))
                               (Aux.listing (cwd w) self ignore_files n dir_path
                                            indent_level)))
        else (Raise NotADirectoryError, w)
    | Raise e => (Raise e, w)
    end.
Proof.
  unfold AutoReadme.generate_project_structure.
  unfold bind at 1. unfold ret at 1. unfold bind at 1. unfold reading at 1.
  destruct (FS.resolve (fs_root w) (cwd w) dir_path) as [n|e] eqn:E; [|reflexivity].
  destruct (FS.is_dir n) eqn:Hn.
  - apply structure_of_run; [exact (resolve_not_empty _ _ _ _ E)|exact Hn].
  - destruct n; try discriminate; reflexivity.
Qed.

Lemma generate_project_structure_loading (self : AutoReadme.t) (dir_path : string)
      (indent_level : nat) (w : world) :
  AutoReadme.generate_project_structure self dir_path indent_level None w
  = match AutoReadme.load_ignore_files self w with
    | (Ok ignore_files, w') =>
        AutoReadme.generate_project_structure self dir_path indent_level
                                              (Some ignore_files) w'
    | (Raise e, w') => (Raise e, w')
    end.
Proof.
  unfold AutoReadme.generate_project_structure.
  unfold bind at 1.
  destruct (AutoReadme.load_ignore_files self w) as [[l|e] w']; reflexivity.
Qed.

(** ** Indentation *)

Lemma repeat_str_add (s : string) (a b : nat) :
  repeat_str s (a + b) = repeat_str s a ++ repeat_str s b.
Proof.
  induction a as [|a IH]; [reflexivity|].
  simpl. now rewrite IH, append_assoc.
Qed.

Lemma flat_map_Forall2 {A B C D} (f : A -> list C) (g : B -> list D)
      (h : D -> C) (l : list A) (l' : list B) :
  Forall2 (fun a b => f a = map h (g b)) l l' ->
  flat_map f l = map h (flat_map g l').
Proof.
  induction 1 as [|a b l l' Hab _ IH]; [reflexivity|].
  simpl. now rewrite map_app, Hab, IH.
Qed.

Lemma listing_indented (cwd : string) (self : AutoReadme.t)
      (ignore_files : list string) (k : nat) (n : node) :
  forall (dir_path : string) (indent_level : nat),
    Aux.listing cwd self ignore_files n dir_path (k + indent_level)
    = map (fun p => (fst p, Aux.indented k (snd p)))
          (Aux.listing cwd self ignore_files n dir_path indent_level).
Proof.
  induction n as [content| |entries IH] using node_nested_ind;
    intros dir_path indent_level; try reflexivity.
  cbn [Aux.listing]. cbv zeta.
  apply flat_map_Forall2.
  apply Forall2_impl with
    (R1 := fun a b : string * (bool * list (string * string)) =>
             fst a = fst b /\ fst (snd a) = fst (snd b)
             /\ snd (snd a) = map (fun p => (fst p, Aux.indented k (snd p)))
                                  (snd (snd b))).
  - intros [item [isdir below]] [item' [isdir' below']] [H1 [H2 H3]].
    cbn [fst snd] in H1, H2, H3. subst item' isdir' below.
    destruct (AutoReadme.is_ignored_from _ _ _ _) as [[|]|e]; try reflexivity.
    destruct isdir.
    + cbn [map fst snd]. f_equal.
      unfold AutoReadme.directory_line, Aux.indented.
      now rewrite repeat_str_add, append_assoc.
    + cbn [map fst snd]. unfold AutoReadme.file_line, Aux.indented.
      now rewrite repeat_str_add, append_assoc.
  - apply Forall2_sorted; [now intros a b [H _]|].
    induction IH as [|[item child] entries Hchild _ IHe]; [constructor|].
    constructor; [|exact IHe].
    cbn [fst snd]. split; [reflexivity|]. split; [reflexivity|].
    cbn [snd] in Hchild.
    change (S (k + indent_level)) with (S k + indent_level).
    rewrite Nat.add_succ_comm. apply Hchild.
Qed.

Lemma structure_indentation_given (self : AutoReadme.t) (dir_path : string)
      (indent_level : nat) (l : list string) (w : world) :
  AutoReadme.generate_project_structure self dir_path indent_level (Some l) w
  = (match fst (AutoReadme.generate_project_structure self dir_path 0 (Some l) w) with
     | Ok lines => Ok (map (Aux.indented indent_level) lines)
     | Raise e => Raise e
     end,
     snd (AutoReadme.generate_project_structure self dir_path 0 (Some l) w)).
Proof.
  rewrite !generate_project_structure_given.
  destruct (FS.resolve (fs_root w) (cwd w) dir_path) as [n|e]; [|reflexivity].
  destruct (FS.is_dir n); [|reflexivity].
  cbn [fst snd].
  rewrite <- (Nat.add_0_r indent_level) at 1 2.
  rewrite listing_indented, !map_map. reflexivity.
Qed.

(** X9.  The parameter [indent_level] of [generate_project_structure]
    only moves the lines to the right, two spaces for each level: the
    listing at level [indent_level] is the listing at level 0 with every
    line indented, with the same errors and the same effect on the log. *)
Theorem structure_indentation (self : AutoReadme.t) (dir_path : string)
        (indent_level : nat) (ignore_files : option (list string)) (w : world) :
  AutoReadme.generate_project_structure self dir_path indent_level ignore_files w
  = (match fst (AutoReadme.generate_project_structure
                  self dir_path 0 ignore_files w) with
     | Ok lines => Ok (map (Aux.indented indent_level) lines)
     | Raise e => Raise e
     end,
     snd (AutoReadme.generate_project_structure self dir_path 0 ignore_files w)).
Proof.
  destruct ignore_files as [l|]; [apply structure_indentation_given|].
  rewrite !generate_project_structure_loading.
  destruct (AutoReadme.load_ignore_files self w) as [[l|e] w']; [|reflexivity].
  apply structure_indentation_given.
Qed.

(** ** What the traversals leave untouched *)

Lemma load_ignore_files_log (self : AutoReadme.t) (w : world) :
  exists records,
    snd (AutoReadme.load_ignore_files self w)
    = World (fs_root w) (cwd w) (log w ++ records).
Proof.
  unfold AutoReadme.load_ignore_files, bind, logging, reading, ret.
  cbn [fs_root cwd log].
  destruct (FS.path_exists _ _ _); cbn [fs_root cwd log].
  - destruct (FS.read_text _ _ _); cbn [fs_root cwd log snd].
    + eexists. now rewrite <- app_assoc.
    + eexists. reflexivity.
  - eexists. cbn [snd]. now rewrite <- app_assoc.
Qed.

Lemma find_all_log (self : AutoReadme.t) (w : world) :
  exists records,
    snd (AutoReadme.find_all_scripts_and_config_files self w)
    = World (fs_root w) (cwd w) (log w ++ records).
Proof.
  unfold AutoReadme.find_all_scripts_and_config_files. cbv zeta.
  unfold bind at 1. unfold logging at 1.
  set (w0 := World _ _ _).
  destruct (load_ignore_files_log self w0) as [records0 H0].
  unfold bind at 1.
  destruct (AutoReadme.load_ignore_files self w0) as [[l|e] w1]; cbn [snd] in H0.
  - unfold bind at 1. unfold AutoReadme.walk.
    destruct (FS.resolve (fs_root w1) (cwd w1) (AutoReadme.project_dir self))
      as [n|e] eqn:E.
    + unfold bind at 1.
      rewrite triples_loop
        by (apply os_walk_roots_not_empty; exact (resolve_not_empty _ _ _ _ E)).
      unfold bind, logging, ret. cbn [snd fs_root cwd log].
      subst w1 w0. cbn [fs_root cwd log].
      eexists. rewrite <- !app_assoc. reflexivity.
    + cbn [for_each]. unfold bind, logging, ret. cbn [snd fs_root cwd log].
      subst w1 w0. cbn [fs_root cwd log].
      eexists. rewrite <- !app_assoc. reflexivity.
  - cbn [snd]. subst w1 w0. cbn [fs_root cwd log].
    eexists. rewrite <- !app_assoc. reflexivity.
Qed.

Lemma generate_project_structure_log (self : AutoReadme.t) (dir_path : string)
      (indent_level : nat) (ignore_files : option (list string)) (w : world) :
  exists records,
    snd (AutoReadme.generate_project_structure self dir_path indent_level
                                               ignore_files w)
    = World (fs_root w) (cwd w) (log w ++ records).
Proof.
  assert (Hgiven : forall l w,
             exists records,
               snd (AutoReadme.generate_project_structure
                      self dir_path indent_level (Some l) w)
               = World (fs_root w) (cwd w) (log w ++ records)).
  { intros l w0. rewrite generate_project_structure_given.
    destruct (FS.resolve _ _ _) as [n|e].
    - destruct (FS.is_dir n); cbn [snd].
      + eexists. reflexivity.
      + exists []. rewrite app_nil_r. now destruct w0.
    - exists []. rewrite app_nil_r. now destruct w0. }
  destruct ignore_files as [l|]; [apply Hgiven|].
  rewrite generate_project_structure_loading.
  destruct (load_ignore_files_log self w) as [records0 H0].
  destruct (AutoReadme.load_ignore_files self w) as [[l|e] w1]; cbn [snd] in H0.
  - destruct (Hgiven l w1) as [records1 H1]. rewrite H1. subst w1.
    cbn [fs_root cwd log]. eexists. rewrite <- app_assoc. reflexivity.
  - cbn [snd]. subst w1. eexists. reflexivity.
Qed.

(** X11.  The loading of [.gitignore] and the two traversals only read:
    whatever they return or raise, the file system and the working
    directory are as before, and the log has only grown. *)
Theorem traversals_only_read (self : AutoReadme.t) (dir_path : string)
        (indent_level : nat) (ignore_files : option (list string)) (w : world) :
  (exists records,
      snd (AutoReadme.load_ignore_files self w)
      = World (fs_root w) (cwd w) (log w ++ records))
  /\ (exists records,
         snd (AutoReadme.find_all_scripts_and_config_files self w)
         = World (fs_root w) (cwd w) (log w ++ records))
  /\ (exists records,
         snd (AutoReadme.generate_project_structure self dir_path indent_level
                                                    ignore_files w)
         = World (fs_root w) (cwd w) (log w ++ records)).
Proof.
  split; [apply load_ignore_files_log|].
  split; [apply find_all_log|apply generate_project_structure_log].
Qed.

(** ** The members of the flat list *)

Lemma In_scripts_of (cwd : string) (self : AutoReadme.t) (ignore_files : list string)
      (triples : list (string * list string * list (string * node))) (p : string) :
  In p (Spec.scripts_of cwd self ignore_files triples)
  <-> exists root dirs files file child,
        In (root, dirs, files) triples /\ In (file, child) files
        /\ p = PosixPath.join root file
        /\ AutoReadme.is_ignored_from cwd self p ignore_files = Ok false
        /\ AutoReadme.is_script_or_config root file = true
        /\ FS.is_file child = true.
Proof.
  unfold Spec.scripts_of. rewrite in_flat_map. split.
  - intros [[[root dirs] files] [Ht Hin]]. cbn [fst snd] in Hin.
    apply in_flat_map in Hin as [[file child] [Hf Hk]].
    unfold Spec.kept_script in Hk. cbn [fst snd] in Hk.
    destruct (AutoReadme.is_ignored_from _ _ _ _) as [[|]|e] eqn:E;
      try contradiction.
    destruct (_ && _) eqn:E2; [|contradiction].
    destruct Hk as [<-|[]]. apply andb_true_iff in E2 as [E2 E3].
    exists root, dirs, files, file, child.
    repeat split; assumption || reflexivity.
  - intros [root [dirs [files [file [child [Ht [Hf [-> [Hi [He Hc]]]]]]]]]].
    exists (root, dirs, files). split; [exact Ht|]. cbn [fst snd].
    apply in_flat_map. exists (file, child). split; [exact Hf|].
    unfold Spec.kept_script. cbn [fst snd]. rewrite Hi, He, Hc. now left.
Qed.

Lemma listable_Dir (entries : list (string * node)) :
  Aux.listable (Dir entries)
  <-> NoDup (map fst entries)
      /\ Forall (fun e => (Spec.valid_name (fst e) = true
                           /\ String.eqb (fst e) "." = false
                           /\ String.eqb (fst e) ".." = false)
                          /\ Aux.listable (snd e)) entries.
Proof.
  cbn [Aux.listable].
  assert (H : (fix all (entries : list (string * node)) : Prop :=
                 match entries with
                 | [] => True
                 | (name, child) :: entries' =>
                     (Spec.valid_name name = true
                      /\ String.eqb name "." = false /\ String.eqb name ".." = false)
                     /\ Aux.listable child /\ all entries'
                 end) entries
              <-> Forall (fun e => (Spec.valid_name (fst e) = true
                                    /\ String.eqb (fst e) "." = false
                                    /\ String.eqb (fst e) ".." = false)
                                   /\ Aux.listable (snd e)) entries).
  { induction entries as [|[name child] entries IH].
    - split; [constructor|trivial].
    - split.
      + intros [H1 [H2 H3]]. constructor; [now split|now apply IH].
      + intros H. inversion H as [|? ? [H1 H2] H3]; subst.
        split; [exact H1|]. split; [exact H2|now apply IH]. }
  now rewrite H.
Qed.

Lemma lookup_In_NoDup (entries : list (string * node)) (name : string) (child : node) :
  NoDup (map fst entries) -> In (name, child) entries ->
  FS.lookup name entries = Some child.
Proof.
  induction entries as [|[k n] entries IH]; intros Hnd Hin; [contradiction|].
  cbn [map fst] in Hnd. inversion Hnd as [|? ? Hnotin Hnd']; subst.
  cbn [FS.lookup]. destruct Hin as [Heq|Hin].
  - injection Heq as -> ->. now rewrite String.eqb_refl.
  - destruct (String.eqb k name) eqn:E.
    + apply String.eqb_eq in E. subst k. exfalso. apply Hnotin.
      apply in_map_iff. now exists (name, child).
    + now apply IH.
Qed.

(** Every directory that [os.walk] reports is found at its path, and its
    files are those of the directory. *)
Lemma os_walk_resolve (root0 : node) (cwd : string) (n : node) :
  forall top,
    FS.resolve root0 cwd top = Ok n ->
    Aux.listable n ->
    forall root dirs files,
      In (root, dirs, files) (AutoReadme.os_walk top n) ->
      exists entries,
        FS.resolve root0 cwd root = Ok (Dir entries)
        /\ Aux.listable (Dir entries)
        /\ dirs = map fst (filter (fun e => FS.is_dir (snd e)) entries)
        /\ files = filter (fun e => negb (FS.is_dir (snd e))) entries.
Proof.
  induction n as [content| |entries IH] using node_nested_ind;
    intros top Hres Hl root dirs files Hin; try contradiction.
  rewrite os_walk_Dir in Hin. destruct Hin as [Heq|Hin].
  - injection Heq as <- <- <-. exists entries. auto.
  - apply in_flat_map in Hin as [[name child] [He Hin]]. cbn [fst snd] in Hin.
    destruct (FS.is_dir child) eqn:Hc; [|contradiction].
    rewrite Forall_forall in IH.
    pose proof (proj1 (listable_Dir entries) Hl) as [Hnd Hall].
    rewrite Forall_forall in Hall.
    destruct (Hall _ He) as [[Hv [Hdot Hdotdot]] Hchild]. cbn [fst snd] in *.
    apply (IH _ He (PosixPath.join top name)) with (dirs := dirs);
      [|exact Hchild|exact Hin].
    rewrite (resolve_child root0 cwd top name entries Hres Hv Hdot Hdotdot).
    now rewrite (lookup_In_NoDup entries name child Hnd He).
Qed.

Lemma endswith_app_r (a b p : string) :
  endswith b p = true -> endswith (a ++ b) p = true.
Proof. unfold endswith. rewrite str_rev_app. apply startswith_app_r. Qed.

Lemma endswith_join (root file p : string) :
  endswith file p = true -> endswith (PosixPath.join root file) p = true.
Proof.
  intros H. unfold PosixPath.join.
  destruct (startswith file "/"); [exact H|].
  destruct (_ || _).
  - now apply endswith_app_r.
  - apply endswith_app_r. now apply endswith_app_r.
Qed.

Lemma is_script_or_config_extension (root file : string) :
  AutoReadme.is_script_or_config root file = true ->
  Aux.has_script_extension (PosixPath.join root file) = true
  \/ endswith (PosixPath.join root file) ".json" = true.
Proof.
  unfold AutoReadme.is_script_or_config, Aux.has_script_extension. intros H.
  apply orb_true_iff in H as [H|H].
  - left. apply orb_true_iff in H as [H|H].
    + apply orb_true_iff in H as [H|H].
      * now rewrite (endswith_join root file _ H).
      * rewrite (endswith_join root file _ H). now rewrite orb_true_r.
    + rewrite (endswith_join root file _ H). now rewrite !orb_true_r.
  - right. apply andb_true_iff in H as [H _]. now apply endswith_join.
Qed.

(** X12.  Every path that [find_all_scripts_and_config_files] returns
    names a regular file of the file system, ends with [.py], [.sh],
    [.bash] or [.json], and is one that [is_ignored] does not hold back
    under the patterns of [.gitignore]. *)
Theorem flat_list_members (self : AutoReadme.t) (w w' : world)
        (scripts ignore_files : list string) :
  (forall n, FS.resolve (fs_root w) (cwd w) (AutoReadme.project_dir self) = Ok n ->
             Aux.listable n) ->
  fst (AutoReadme.load_ignore_files self w) = Ok ignore_files ->
  AutoReadme.find_all_scripts_and_config_files self w = (Ok scripts, w') ->
  Forall (fun p =>
            FS.path_isfile (fs_root w) (cwd w) p = true
            /\ (Aux.has_script_extension p = true \/ endswith p ".json" = true)
            /\ AutoReadme.is_ignored_from (cwd w) self p ignore_files = Ok false)
         scripts.
Proof.
  intros Hl Hload Hrun.
  destruct (FS.resolve (fs_root w) (cwd w) (AutoReadme.project_dir self))
    as [n|e] eqn:E.
  - pose proof (find_all_run self w n ignore_files Hload E) as H.
    rewrite Hrun in H. cbn [fst] in H. injection H as ->.
    apply Forall_forall. intros p Hin.
    apply In_scripts_of in Hin
      as [root [dirs [files [file [child [Ht [Hf [-> [Hi [He Hc]]]]]]]]]].
    destruct (os_walk_resolve (fs_root w) (cwd w) n _ E (Hl n eq_refl)
                              root dirs files Ht)
      as [entries [Hres [Hle [_ ->]]]].
    apply filter_In in Hf as [Hf _].
    pose proof (proj1 (listable_Dir entries) Hle) as [Hnd Hall].
    rewrite Forall_forall in Hall.
    destruct (Hall _ Hf) as [[Hv [Hdot Hdotdot]] _]. cbn [fst snd] in *.
    split; [|split; [now apply is_script_or_config_extension|exact Hi]].
    unfold FS.path_isfile.
    rewrite (resolve_child _ _ root file entries Hres Hv Hdot Hdotdot).
    now rewrite (lookup_In_NoDup entries file child Hnd Hf).
  - pose proof (find_all_missing self w e ignore_files E Hload) as H.
    rewrite Hrun in H. cbn [fst] in H. injection H as ->. constructor.
Qed.

Lemma scenario_tree_listable : Aux.listable Sample.scenario_tree.
Proof.
  unfold Sample.scenario_tree. cbn.
  repeat split; try (repeat constructor; cbn; intuition discriminate).
Qed.

Lemma flat_list_members_witness :
  Forall (fun p =>
            FS.path_isfile (fs_root (Sample.machine Sample.scenario_tree "/")) "/" p
            = true
            /\ (Aux.has_script_extension p = true \/ endswith p ".json" = true)
            /\ AutoReadme.is_ignored_from "/" (Sample.instance "/proj" "/out") p []
               = Ok false)
         ["/proj/src/main.py"; "/proj/config/settings.json"].
Proof.
  apply (flat_list_members
           (Sample.instance "/proj" "/out")
           (Sample.machine Sample.scenario_tree "/")
           (snd (AutoReadme.find_all_scripts_and_config_files
                   (Sample.instance "/proj" "/out")
                   (Sample.machine Sample.scenario_tree "/")))
           ["/proj/src/main.py"; "/proj/config/settings.json"] []).
  - intros n H. injection H as <-. exact scenario_tree_listable.
  - reflexivity.
  - reflexivity.
Defined.

(** ** Configuration files *)

Lemma contains_lower_join (sub top name : string) :
  startswith name "/" = false ->
  contains sub (lower top) = true ->
  contains sub (lower (PosixPath.join top name)) = true.
Proof.
  intros Hn H. rewrite (join_relative top name Hn).
  destruct (_ || _); rewrite !lower_app; now apply contains_app_r.
Qed.

Lemma os_walk_roots_contain (sub : string) (n : node) :
  forall top,
    Aux.listable n ->
    contains sub (lower top) = true ->
    Forall (fun triple => contains sub (lower (fst (fst triple))) = true)
           (AutoReadme.os_walk top n).
Proof.
  induction n as [content| |entries IH] using node_nested_ind;
    intros top Hl Htop; [constructor|constructor|].
  rewrite os_walk_Dir. constructor; [exact Htop|].
  apply Forall_flat_map. apply Forall_forall. intros [name child] He.
  cbn [fst snd]. destruct (FS.is_dir child); [|constructor].
  pose proof (proj1 (listable_Dir entries) Hl) as [_ Hall].
  rewrite Forall_forall in IH, Hall.
  destruct (Hall _ He) as [[Hv _] Hchild]. cbn [fst snd] in *.
  apply (IH _ He); [exact Hchild|].
  apply contains_lower_join; [now apply valid_name_not_absolute|exact Htop].
Qed.

(** X13.  The test for configuration files looks for [config] in the path
    of the directory as [os.walk] gives it, the project directory
    included.  So when the path of the project directory itself holds
    [config], in any case of its letters, every regular [.json] file of
    the project that [is_ignored] does not hold back is collected, wherever
    it lies. *)
Theorem json_files_of_a_config_project (self : AutoReadme.t) (w : world) (n : node)
        (ignore_files scripts : list string) (root : string) (dirs : list string)
        (files : list (string * node)) (file : string) (child : node) :
  contains "config" (lower (AutoReadme.project_dir self)) = true ->
  FS.resolve (fs_root w) (cwd w) (AutoReadme.project_dir self) = Ok n ->
  Aux.listable n ->
  fst (AutoReadme.load_ignore_files self w) = Ok ignore_files ->
  fst (AutoReadme.find_all_scripts_and_config_files self w) = Ok scripts ->
  In (root, dirs, files) (AutoReadme.os_walk (AutoReadme.project_dir self) n) ->
  In (file, child) files ->
  FS.is_file child = true ->
  endswith file ".json" = true ->
  AutoReadme.is_ignored_from (cwd w) self (PosixPath.join root file) ignore_files
  = Ok false ->
  In (PosixPath.join root file) scripts.
Proof.
  intros Hconfig Hres Hl Hload Hrun Ht Hf Hc Hjson Hi.
  rewrite (find_all_run self w n ignore_files Hload Hres) in Hrun.
  injection Hrun as <-.
  apply In_scripts_of. exists root, dirs, files, file, child.
  repeat split; try assumption.
  unfold AutoReadme.is_script_or_config. rewrite Hjson.
  pose proof (os_walk_roots_contain "config" n _ Hl Hconfig) as Hroots.
  rewrite Forall_forall in Hroots. specialize (Hroots _ Ht). cbn [fst] in Hroots.
  rewrite Hroots. now rewrite orb_true_r.
Qed.

Lemma json_files_of_a_config_project_witness :
  In "/my-config-tool/data/table.json"
     ["/my-config-tool/package.json"; "/my-config-tool/data/table.json"].
Proof.
  apply (json_files_of_a_config_project
           (Sample.instance "/my-config-tool" "/out") Sample.json_machine
           Sample.json_tree [] 
           ["/my-config-tool/package.json"; "/my-config-tool/data/table.json"]
           "/my-config-tool/data" [] [("table.json", File "[]")]
           "table.json" (File "[]")).
  - reflexivity.
  - reflexivity.
  - unfold Sample.json_tree. cbn.
    repeat split; try (repeat constructor; cbn; intuition discriminate).
  - reflexivity.
  - reflexivity.
  - cbn. auto.
  - cbn. auto.
  - reflexivity.
  - reflexivity.
  - reflexivity.
Defined.

(** ** Writing a file *)

Lemma update_dir_cons (name : string) (names : list string)
      (f : list (string * node) -> list (string * node))
      (entries : list (string * node)) :
  FS.update_dir (name :: names) f (Dir entries)
  = Dir (Aux.update_entry name (FS.update_dir names f) entries).
Proof.
  cbn [FS.update_dir]. f_equal.
  induction entries as [|[k child] entries IH]; [reflexivity|].
  cbn [Aux.update_entry]. now rewrite IH.
Qed.

Lemma lookup_update_entry (name : string) (g : node -> node)
      (entries : list (string * node)) (x : string) :
  FS.lookup x (Aux.update_entry name g entries)
  = if String.eqb x name then option_map g (FS.lookup name entries)
    else FS.lookup x entries.
Proof.
  induction entries as [|[k child] entries IH].
  - now destruct (String.eqb x name).
  - cbn [Aux.update_entry FS.lookup].
    destruct (String.eqb k name) eqn:Ek.
    + apply String.eqb_eq in Ek. rewrite Ek. cbn [FS.lookup option_map].
      rewrite (String.eqb_sym name x).
      now destruct (String.eqb x name).
    + cbn [FS.lookup]. destruct (String.eqb k x) eqn:Ekx; [|exact IH].
      apply String.eqb_eq in Ekx. rewrite <- Ekx, Ek. reflexivity.
Qed.

Lemma strip_prefix_snoc (names target : list string) (x : string) :
  Aux.strip_prefix (names ++ [x]) target
  = match Aux.strip_prefix names target with
    | Some (y :: rest) => if String.eqb x y then Some rest else None
    | _ => None
    end.
Proof.
  revert target. induction names as [|a names IH]; intros target.
  - cbn. destruct target as [|y rest]; [reflexivity|].
    destruct (String.eqb x y); reflexivity.
  - cbn [app Aux.strip_prefix]. destruct target as [|y rest]; [reflexivity|].
    destruct (String.eqb a y); [apply IH|reflexivity].
Qed.

Lemma strip_prefix_refl (target : list string) :
  Aux.strip_prefix target target = Some [].
Proof.
  induction target as [|y rest IH]; [reflexivity|].
  cbn. now rewrite String.eqb_refl.
Qed.

Lemma position_cons (name : string) (parent : node) (trail : list (string * node)) :
  Aux.position ((name, parent) :: trail) = (Aux.position trail ++ [name])%list.
Proof. reflexivity. Qed.

Lemma resolve_comps_from_dir (trail trail2 : list (string * node)) (cur cur2 : node)
      (comps : list string) :
  FS.resolve_comps trail cur comps = Ok (trail2, cur2) ->
  FS.is_dir cur2 = true -> FS.is_dir cur = true.
Proof.
  destruct comps as [|comp comps]; intros H Hd.
  - cbn in H. injection H as _ ->. exact Hd.
  - destruct cur; try discriminate. reflexivity.
Qed.

(** Resolution in the tree in which the directory at [target] has its
    entries replaced by [f] follows resolution in the tree as it was, as
    long as it goes through directories. *)
Lemma resolve_comps_image (target : list string)
      (f : list (string * node) -> list (string * node)) :
  (forall entries x d,
      FS.lookup x entries = Some (Dir d) -> FS.lookup x (f entries) = Some (Dir d)) ->
  forall (comps : list string) (trail : list (string * node)) (cur : node)
         (trail2 : list (string * node)) (cur2 : node),
    FS.resolve_comps trail cur comps = Ok (trail2, cur2) ->
    FS.is_dir cur2 = true ->
    FS.resolve_comps (Aux.image_trail target f trail)
                     (Aux.image target f (Aux.position trail) cur) comps
    = Ok (Aux.image_trail target f trail2,
          Aux.image target f (Aux.position trail2) cur2).
Proof.
  intros Hf. induction comps as [|comp comps IH];
    intros trail cur trail2 cur2 H Hd.
  - cbn in H. injection H as -> ->. reflexivity.
  - pose proof (resolve_comps_from_dir _ _ _ _ _ H Hd) as Hcur.
    destruct cur as [| |entries]; try discriminate.
    assert (Himg : exists entries',
               Aux.image target f (Aux.position trail) (Dir entries) = Dir entries').
    { unfold Aux.image. destruct (Aux.strip_prefix _ _) as [rest|]; [|eauto].
      destruct rest; [cbn; eauto|rewrite update_dir_cons; eauto]. }
    destruct Himg as [entries' Himg]. rewrite Himg.
    cbn [FS.resolve_comps] in *.
    destruct (String.eqb comp EmptyString || String.eqb comp ".").
    { rewrite <- Himg. now apply IH. }
    destruct (String.eqb comp "..").
    { destruct trail as [|[name parent] trail].
      - rewrite <- Himg. now apply (IH [] (Dir entries)).
      - cbn [Aux.image_trail]. now apply IH. }
    destruct (FS.lookup comp entries) as [child|] eqn:El; [|discriminate].
    pose proof (resolve_comps_from_dir _ _ _ _ _ H Hd) as Hchild.
    assert (El' : FS.lookup comp entries'
                  = Some (Aux.image target f (Aux.position trail ++ [comp]) child)).
    { unfold Aux.image in Himg |- *. rewrite strip_prefix_snoc.
      destruct (Aux.strip_prefix (Aux.position trail) target) as [[|y rest]|].
      - cbn in Himg. injection Himg as <-.
        destruct child as [| |d]; try discriminate. now apply Hf.
      - rewrite update_dir_cons in Himg. injection Himg as <-.
        rewrite lookup_update_entry.
        destruct (String.eqb comp y) eqn:E.
        + apply String.eqb_eq in E. subst y. now rewrite El.
        + exact El.
      - injection Himg as <-. exact El. }
    rewrite El'. rewrite <- Himg.
    change ((comp, Aux.image target f (Aux.position trail) (Dir entries))
              :: Aux.image_trail target f trail)
      with (Aux.image_trail target f ((comp, Dir entries) :: trail)).
    rewrite <- (position_cons comp (Dir entries) trail).
    now apply IH.
Qed.

Lemma resolve_comps_on_trail (root : node) (comps : list string) :
  forall (trail : list (string * node)) (cur : node)
         (trail2 : list (string * node)) (cur2 : node),
    Aux.on_trail root trail cur ->
    FS.resolve_comps trail cur comps = Ok (trail2, cur2) ->
    Aux.on_trail root trail2 cur2.
Proof.
  induction comps as [|comp comps IH]; intros trail cur trail2 cur2 Hon H.
  - cbn in H. now injection H as <- <-.
  - destruct cur as [| |entries]; try discriminate.
    cbn [FS.resolve_comps] in H.
    destruct (String.eqb comp EmptyString || String.eqb comp ".").
    { now apply (IH _ _ _ _ Hon H). }
    destruct (String.eqb comp "..").
    { destruct trail as [|[name parent] trail].
      - now apply (IH _ _ _ _ Hon H).
      - destruct Hon as [_ Hon]. now apply (IH _ _ _ _ Hon H). }
    destruct (FS.lookup comp entries) as [child|] eqn:El; [|discriminate].
    apply (IH ((comp, Dir entries) :: trail) child); [|exact H].
    split; [|exact Hon]. now exists entries.
Qed.

Lemma descend_app (n : node) (xs ys : list string) :
  Aux.descend n (xs ++ ys)
  = match Aux.descend n xs with
    | Some m => Aux.descend m ys
    | None => None
    end.
Proof.
  revert n. induction xs as [|x xs IH]; intros n; [reflexivity|].
  cbn [app Aux.descend]. destruct n as [| |entries]; try reflexivity.
  destruct (FS.lookup x entries); [apply IH|reflexivity].
Qed.

Lemma on_trail_descend (root : node) (trail : list (string * node)) (cur : node) :
  Aux.on_trail root trail cur ->
  Aux.descend root (Aux.position trail) = Some cur.
Proof.
  revert cur. induction trail as [|[name parent] trail IH]; intros cur H.
  - cbn in *. now subst.
  - destruct H as [[entries [-> Hl]] Hon].
    rewrite position_cons, descend_app, (IH _ Hon). cbn. now rewrite Hl.
Qed.

(** The update of a directory depends on the function at that directory
    only. *)
Lemma update_dir_ext (f g : list (string * node) -> list (string * node))
      (names : list string) :
  forall (n : node) (entries : list (string * node)),
    Aux.descend n names = Some (Dir entries) ->
    f entries = g entries ->
    FS.update_dir names f n = FS.update_dir names g n.
Proof.
  induction names as [|name names IH]; intros n entries Hd Hfg.
  - cbn in Hd. injection Hd as ->. cbn. now rewrite Hfg.
  - cbn [Aux.descend] in Hd. destruct n as [| |es]; try discriminate.
    rewrite !update_dir_cons. f_equal.
    destruct (FS.lookup name es) as [child|] eqn:El; [|discriminate].
    clear -IH Hd Hfg El.
    induction es as [|[k c] es IHe]; [discriminate|].
    cbn [Aux.update_entry FS.lookup] in *.
    destruct (String.eqb k name).
    + injection El as ->. now rewrite (IH child entries Hd Hfg).
    + now rewrite (IHe El).
Qed.

Lemma set_file_guarded_keeps_directories (name content : string)
      (entries : list (string * node)) (x : string) (d : list (string * node)) :
  FS.lookup x entries = Some (Dir d) ->
  FS.lookup x (Aux.set_file_guarded name content entries) = Some (Dir d).
Proof.
  unfold Aux.set_file_guarded. intros H.
  destruct (FS.lookup name entries) as [[| |d']|] eqn:El; try exact H.
  all: assert (Hx : String.eqb name x = false)
    by (destruct (String.eqb name x) eqn:E; [|reflexivity];
        apply String.eqb_eq in E; subst x; congruence).
  all: clear El; induction entries as [|[k c] entries IH]; [discriminate|].
  all: cbn [FS.set_file FS.lookup] in *.
  all: destruct (String.eqb k name) eqn:Ek.
  all: try (apply String.eqb_eq in Ek; subst k; cbn [FS.lookup];
            rewrite Hx in *; exact H).
  all: cbn [FS.lookup]; destruct (String.eqb k x); [exact H|now apply IH].
Qed.

Lemma lookup_set_file (name content : string) (entries : list (string * node)) :
  FS.lookup name (FS.set_file name content entries) = Some (File content).
Proof.
  induction entries as [|[k c] entries IH].
  - cbn. now rewrite String.eqb_refl.
  - cbn [FS.set_file]. destruct (String.eqb k name) eqn:E; cbn [FS.lookup]; now rewrite E.
Qed.

(** After the write of the entry [name] in the directory that [comps]
    leads to, [comps] leads to the directory with that entry set. *)
Lemma resolve_comps_after_write (root : node) (comps : list string)
      (trail : list (string * node)) (entries : list (string * node))
      (name content : string) :
  FS.resolve_comps [] root comps = Ok (trail, Dir entries) ->
  match FS.lookup name entries with Some (Dir _) => False | _ => True end ->
  exists trail',
    FS.resolve_comps [] (FS.update_dir (List.rev (map fst trail))
                                       (FS.set_file name content) root) comps
    = Ok (trail', Dir (FS.set_file name content entries)).
Proof.
  intros H Hname.
  assert (Hg : Aux.set_file_guarded name content entries
               = FS.set_file name content entries).
  { unfold Aux.set_file_guarded.
    destruct (FS.lookup name entries) as [[| |d]|]; try reflexivity; contradiction. }
  pose proof (resolve_comps_on_trail root comps [] root trail (Dir entries)
                                     eq_refl H) as Hon.
  apply on_trail_descend in Hon.
  change (List.rev (map fst trail)) with (Aux.position trail).
  rewrite (update_dir_ext (FS.set_file name content)
                          (Aux.set_file_guarded name content)
                          _ root entries Hon (eq_sym Hg)).
  pose proof (resolve_comps_image
                (Aux.position trail) (Aux.set_file_guarded name content)
                (set_file_guarded_keeps_directories name content)
                comps [] root trail (Dir entries) H eq_refl) as Hsim.
  cbn [Aux.image_trail] in Hsim. unfold Aux.image in Hsim.
  change (Aux.position []) with (@nil string) in Hsim.
  cbn [Aux.strip_prefix] in Hsim.
  rewrite strip_prefix_refl in Hsim. cbn [FS.update_dir] in Hsim.
  rewrite Hg in Hsim. eexists. exact Hsim.
Qed.

Lemma comps_from_root_not_nil (cwd path : string) : FS.comps_from_root cwd path <> [].
Proof.
  unfold FS.comps_from_root. destruct (PosixPath.isabs path).
  - apply split_not_nil.
  - intros H. apply app_eq_nil in H as [_ H]. now apply split_not_nil in H.
Qed.

(** The components of [join dir name]: those of [dir], a trailing empty
    one dropped, and [name]. *)
Lemma comps_join_name (cwd dir name : string) :
  is_empty dir = false ->
  Spec.valid_name name = true ->
  exists base,
    (FS.comps_from_root cwd dir = base
     \/ FS.comps_from_root cwd dir = (base ++ [EmptyString])%list)
    /\ FS.comps_from_root cwd (PosixPath.join dir name) = (base ++ [name])%list.
Proof.
  intros Hd Hn. unfold FS.comps_from_root.
  rewrite (isabs_join dir name Hd (valid_name_not_absolute name Hn)).
  destruct (split_join_name dir name Hd Hn) as [comps [Hsplit ->]].
  destruct (PosixPath.isabs dir).
  - exists comps. split; [exact Hsplit|reflexivity].
  - exists (split PosixPath.sep cwd ++ comps)%list. split.
    + destruct Hsplit as [->| ->]; [now left|right; now rewrite app_assoc].
    + now rewrite app_assoc.
Qed.

Lemma resolve_base (root : node) (cwd dir : string) (base : list string) :
  is_empty dir = false ->
  (FS.comps_from_root cwd dir = base
   \/ FS.comps_from_root cwd dir = (base ++ [EmptyString])%list) ->
  FS.resolve root cwd dir
  = match FS.resolve_comps [] root base with
    | Ok (_, Dir entries) => Ok (Dir entries)
    | Ok (_, n) =>
        if list_eq_dec string_dec (FS.comps_from_root cwd dir) base
        then Ok n else Raise NotADirectoryError
    | Raise e => Raise e
    end.
Proof.
  intros Hd Hbase. unfold FS.resolve, FS.resolve_trail. rewrite Hd.
  destruct Hbase as [H|H].
  - rewrite H. destruct (list_eq_dec string_dec base base) as [_|Hneq]; [|congruence].
    destruct (FS.resolve_comps [] root base) as [[trail n]|e]; [|reflexivity].
    now destruct n.
  - rewrite H, resolve_comps_app.
    destruct (list_eq_dec string_dec (base ++ [EmptyString]) base) as [E|_].
    { exfalso. apply (f_equal (@List.length string)) in E.
      rewrite length_app in E. cbn in E. lia. }
    destruct (FS.resolve_comps [] root base) as [[trail n]|e]; [|reflexivity].
    now destruct n.
Qed.

(** Listing a directory, by way of its components without the trailing
    empty one. *)
Lemma opendir_base (root : node) (cwd dir : string) (base : list string) :
  is_empty dir = false ->
  (FS.comps_from_root cwd dir = base
   \/ FS.comps_from_root cwd dir = (base ++ [EmptyString])%list) ->
  FS.opendir root cwd dir
  = match FS.resolve_comps [] root base with
    | Ok (_, Dir entries) => Ok entries
    | Ok (_, _) => Raise NotADirectoryError
    | Raise e => Raise e
    end.
Proof.
  intros Hd Hbase. unfold FS.opendir. rewrite (resolve_base root cwd dir base Hd Hbase).
  destruct (FS.resolve_comps [] root base) as [[trail n]|e]; [|reflexivity].
  destruct n; try reflexivity; now destruct (list_eq_dec _ _ _).
Qed.

Lemma removelast_snoc {A} (l : list A) (x : A) : removelast (l ++ [x]) = l.
Proof. apply removelast_last. Qed.

Lemma last_snoc {A} (l : list A) (x d : A) : last (l ++ [x]) d = x.
Proof. apply last_last. Qed.

(** The write of the entry [name] of the directory at [dir]. *)
Lemma write_text_join (root : node) (cwd dir name content : string)
      (base : list string) :
  is_empty dir = false ->
  Spec.valid_name name = true ->
  String.eqb name "." = false ->
  String.eqb name ".." = false ->
  FS.comps_from_root cwd (PosixPath.join dir name) = (base ++ [name])%list ->
  FS.write_text root cwd (PosixPath.join dir name) content
  = match FS.resolve_comps [] root base with
    | Raise e => Raise e
    | Ok (trail, Dir entries) =>
        match FS.lookup name entries with
        | Some (Dir _) => Raise IsADirectoryError
        | Some Special => Raise OSError
        | _ => Ok (FS.update_dir (List.rev (map fst trail))
                                 (FS.set_file name content) root)
        end
    | Ok (_, _) => Raise NotADirectoryError
    end.
Proof.
  intros Hd Hn Hdot Hdotdot Hcomps. unfold FS.write_text.
  rewrite (join_not_empty dir name Hd). cbv zeta.
  rewrite Hcomps, removelast_snoc, last_snoc.
  assert (Hname : String.eqb name EmptyString = false).
  { apply valid_name_not_empty in Hn. now destruct name. }
  rewrite Hname.
  destruct (FS.resolve_comps [] root base) as [[trail n]|e]; [|reflexivity].
  destruct n as [| |entries]; try reflexivity.
  now rewrite Hdot, Hdotdot.
Qed.

(** A write that succeeds sets the entry in the listing of its directory
    and leaves the other entries as they were. *)
Lemma opendir_after_write (root root' : node) (cwd dir name content : string) :
  Spec.valid_name name = true ->
  String.eqb name "." = false ->
  String.eqb name ".." = false ->
  is_empty dir = false ->
  FS.write_text root cwd (PosixPath.join dir name) content = Ok root' ->
  exists entries,
    FS.opendir root cwd dir = Ok entries
    /\ FS.opendir root' cwd dir = Ok (FS.set_file name content entries).
Proof.
  intros Hn Hdot Hdotdot Hd H.
  destruct (comps_join_name cwd dir name Hd Hn) as [base [Hbase Hcomps]].
  rewrite (write_text_join root cwd dir name content base Hd Hn Hdot Hdotdot Hcomps)
    in H.
  rewrite !(opendir_base _ cwd dir base Hd Hbase).
  destruct (FS.resolve_comps [] root base) as [[trail n]|e] eqn:E; [|discriminate].
  destruct n as [| |entries]; try discriminate.
  exists entries. split; [reflexivity|].
  assert (Hname : match FS.lookup name entries with
                  | Some (Dir _) => False | _ => True end).
  { destruct (FS.lookup name entries) as [[| |d]|]; try exact I; discriminate. }
  destruct (resolve_comps_after_write root base trail entries name content E Hname)
    as [trail' Hafter].
  assert (Hroot : root' = FS.update_dir (List.rev (map fst trail))
                                        (FS.set_file name content) root).
  { destruct (FS.lookup name entries) as [[| |d]|]; try discriminate; congruence. }
  subst root'. now rewrite Hafter.
Qed.

(** What was written can be read. *)
Lemma resolve_after_write (root root' : node) (cwd path content : string) :
  FS.write_text root cwd path content = Ok root' ->
  FS.resolve root' cwd path = Ok (File content).
Proof.
  unfold FS.write_text. destruct (is_empty path) eqn:Hp; [discriminate|].
  cbv zeta.
  pose proof (comps_from_root_not_nil cwd path) as Hne.
  pose proof (app_removelast_last EmptyString Hne) as Hsplit.
  set (comps := FS.comps_from_root cwd path) in *.
  set (name := last comps EmptyString) in *.
  destruct (String.eqb name EmptyString) eqn:Eempty.
  { destruct (FS.resolve_comps [] root (removelast (FS.named_comps comps)))
      as [[trail [| |entries]]|e]; discriminate. }
  destruct (FS.resolve_comps [] root (removelast comps)) as [[trail n]|e] eqn:E;
    [|discriminate].
  destruct n as [| |entries]; try discriminate.
  destruct (String.eqb name "." || String.eqb name "..") eqn:Ename; [discriminate|].
  intros H.
  assert (Hname : match FS.lookup name entries with
                  | Some (Dir _) => False | _ => True end).
  { destruct (FS.lookup name entries) as [[| |d]|]; try exact I; discriminate. }
  destruct (resolve_comps_after_write root _ trail entries name content E Hname)
    as [trail' Hafter].
  assert (Hroot : root' = FS.update_dir (List.rev (map fst trail))
                                        (FS.set_file name content) root).
  { destruct (FS.lookup name entries) as [[| |d]|]; try discriminate; congruence. }
  subst root'. unfold FS.resolve, FS.resolve_trail. rewrite Hp.
  fold comps. rewrite Hsplit at 1. rewrite resolve_comps_app, Hafter.
  cbn [FS.resolve_comps].
  apply orb_false_iff in Ename as [Ename Hdotdot].
  rewrite Eempty, Ename, Hdotdot, lookup_set_file. reflexivity.
Qed.

(** ** [save_content_to_file] *)

Lemma read_after_write (root root' : node) (cwd path content : string) :
  FS.write_text root cwd path content = Ok root' ->
  FS.read_text root' cwd path = Ok (universal_newlines content).
Proof.
  intros H. unfold FS.read_text. now rewrite (resolve_after_write _ _ _ _ _ H).
Qed.

Lemma save_content_to_file_run (content file_path : string) (w : world) :
  AutoReadme.save_content_to_file content file_path w
  = match FS.write_text (fs_root w) (cwd w) file_path content with
    | Ok root' =>
        (Ok tt, World root' (cwd w) (log w ++ [Log INFO "Saved to {}" [LStr file_path]]))
    | Raise e => (Raise e, w)
    end.
Proof.
  unfold AutoReadme.save_content_to_file, bind, write_file, logging.
  destruct (FS.write_text _ _ _ _); reflexivity.
Qed.

(** X15.  What [save_content_to_file] has written can be read back at the
    same path: the text comes back with its line ends read as newlines.
    The call logs the one record [Saved to] and changes nothing else of
    the log or of the working directory. *)
Theorem save_content_then_read (content file_path : string) (w w' : world) :
  AutoReadme.save_content_to_file content file_path w = (Ok tt, w') ->
  FS.read_text (fs_root w') (cwd w') file_path = Ok (universal_newlines content)
  /\ cwd w' = cwd w
  /\ log w' = (log w ++ [Log INFO "Saved to {}" [LStr file_path]])%list.
Proof.
  rewrite save_content_to_file_run.
  destruct (FS.write_text (fs_root w) (cwd w) file_path content) as [root'|e] eqn:E;
    [|discriminate].
  intros H. injection H as <-. cbn [fs_root cwd log].
  split; [now apply (read_after_write _ _ _ _ _ E)|now split].
Qed.

Lemma save_content_then_read_witness :
  FS.read_text
    (fs_root (snd (AutoReadme.save_content_to_file
                     ("first" ++ String (chr 13) (String (chr 10) "second"))
                     "/out/README.md"
                     (Sample.machine Sample.scenario_tree "/"))))
    "/" "/out/README.md"
  = Ok ("first" ++ newline ++ "second")
  /\ "/" = "/"
  /\ log (snd (AutoReadme.save_content_to_file
                 ("first" ++ String (chr 13) (String (chr 10) "second"))
                 "/out/README.md"
                 (Sample.machine Sample.scenario_tree "/")))
     = [Log INFO "Saved to {}" [LStr "/out/README.md"]].
Proof.
  apply (save_content_then_read
           ("first" ++ String (chr 13) (String (chr 10) "second"))
           "/out/README.md"
           (Sample.machine Sample.scenario_tree "/")).
  reflexivity.
Defined.

Lemma lookup_set_file_other (name content x : string) (entries : list (string * node)) :
  String.eqb name x = false ->
  FS.lookup x (FS.set_file name content entries) = FS.lookup x entries.
Proof.
  intros Hx. induction entries as [|[k c] entries IH].
  - cbn. now rewrite Hx.
  - cbn [FS.set_file]. destruct (String.eqb k name) eqn:E.
    + apply String.eqb_eq in E. subst k. cbn [FS.lookup]. now rewrite Hx.
    + cbn [FS.lookup]. now rewrite IH.
Qed.

Lemma names_set_file (name content other : string) (entries : list (string * node)) :
  In other (map fst (FS.set_file name content entries))
  <-> other = name \/ In other (map fst entries).
Proof.
  induction entries as [|[k c] entries IH].
  - cbn. intuition.
  - cbn [FS.set_file]. destruct (String.eqb k name) eqn:E.
    + apply String.eqb_eq in E. subst k. cbn. intuition.
    + cbn [map fst In]. rewrite IH. intuition.
Qed.

(** X16.  [save_content_to_file] creates or replaces the one entry that
    it names: afterwards the directory holds the name as a file with the
    content, every other name leads to what it led to before, and the
    names of the directory are those that it had and the new one.  Where
    the listing shows a new name is not said. *)
Theorem save_content_sets_one_entry (content dir name : string) (w w' : world) :
  Spec.valid_name name = true ->
  String.eqb name "." = false ->
  String.eqb name ".." = false ->
  is_empty dir = false ->
  AutoReadme.save_content_to_file content (PosixPath.join dir name) w = (Ok tt, w') ->
  exists entries entries',
    FS.opendir (fs_root w) (cwd w) dir = Ok entries
    /\ FS.opendir (fs_root w') (cwd w') dir = Ok entries'
    /\ FS.lookup name entries' = Some (File content)
    /\ (forall other,
          String.eqb name other = false ->
          FS.lookup other entries' = FS.lookup other entries)
    /\ (forall other,
          In other (map fst entries') <-> other = name \/ In other (map fst entries)).
Proof.
  intros Hn Hdot Hdotdot Hd. rewrite save_content_to_file_run.
  destruct (FS.write_text (fs_root w) (cwd w) (PosixPath.join dir name) content)
    as [root'|e] eqn:E; [|discriminate].
  intros H. injection H as <-. cbn [fs_root cwd].
  destruct (opendir_after_write _ _ _ _ _ _ Hn Hdot Hdotdot Hd E)
    as [entries [Hbefore Hafter]].
  exists entries, (FS.set_file name content entries).
  split; [exact Hbefore|]. split; [exact Hafter|].
  split; [apply lookup_set_file|].
  split.
  - intros other Hother. now apply lookup_set_file_other.
  - intros other. apply names_set_file.
Qed.

Lemma save_content_sets_one_entry_witness :
  exists entries entries',
    FS.opendir (fs_root (Sample.machine Sample.scenario_tree "/")) "/" "/out"
    = Ok entries
    /\ FS.opendir
         (fs_root (snd (AutoReadme.save_content_to_file
                          "text" (PosixPath.join "/out" "requirements.txt")
                          (Sample.machine Sample.scenario_tree "/"))))
         (cwd (snd (AutoReadme.save_content_to_file
                      "text" (PosixPath.join "/out" "requirements.txt")
                      (Sample.machine Sample.scenario_tree "/"))))
         "/out"
       = Ok entries'
    /\ FS.lookup "requirements.txt" entries' = Some (File "text")
    /\ (forall other,
          String.eqb "requirements.txt" other = false ->
          FS.lookup other entries' = FS.lookup other entries)
    /\ (forall other,
          In other (map fst entries')
          <-> other = "requirements.txt" \/ In other (map fst entries)).
Proof.
  apply (save_content_sets_one_entry
           "text" "/out" "requirements.txt"
           (Sample.machine Sample.scenario_tree "/")).
  - reflexivity.
  - reflexivity.
  - reflexivity.
  - reflexivity.
  - reflexivity.
Defined.

Lemma write_text_needs_directory (root : node) (cwd dir name content : string) :
  Spec.valid_name name = true ->
  String.eqb name "." = false ->
  String.eqb name ".." = false ->
  is_empty dir = false ->
  FS.path_isdir root cwd dir = false ->
  FS.write_text root cwd (PosixPath.join dir name) content
  = Raise (match FS.resolve root cwd dir with
           | Raise e => e
           | Ok _ => NotADirectoryError
           end).
Proof.
  intros Hn Hdot Hdotdot Hd Hnot.
  destruct (comps_join_name cwd dir name Hd Hn) as [base [Hbase Hcomps]].
  rewrite (write_text_join root cwd dir name content base Hd Hn Hdot Hdotdot Hcomps).
  unfold FS.path_isdir in Hnot.
  rewrite (resolve_base root cwd dir base Hd Hbase) in Hnot |- *.
  destruct (FS.resolve_comps [] root base) as [[trail n]|e]; [|reflexivity].
  destruct n as [| |entries]; try discriminate;
    now destruct (list_eq_dec _ _ _).
Qed.

(** X17.  [save_content_to_file] creates no directory: when the directory
    of the path is missing or is no directory, the call raises the error
    of opening the file, logs nothing and leaves the file system as it
    was. *)
Theorem save_content_needs_directory (content dir name : string) (w : world) :
  Spec.valid_name name = true ->
  String.eqb name "." = false ->
  String.eqb name ".." = false ->
  is_empty dir = false ->
  FS.path_isdir (fs_root w) (cwd w) dir = false ->
  AutoReadme.save_content_to_file content (PosixPath.join dir name) w
  = (Raise (match FS.resolve (fs_root w) (cwd w) dir with
            | Raise e => e
            | Ok _ => NotADirectoryError
            end), w).
Proof.
  intros Hn Hdot Hdotdot Hd Hnot. rewrite save_content_to_file_run.
  now rewrite (write_text_needs_directory _ _ _ _ _ Hn Hdot Hdotdot Hd Hnot).
Qed.

Lemma save_content_needs_directory_witness :
  AutoReadme.save_content_to_file
    "text" (PosixPath.join "/missing" "README.md")
    (Sample.machine Sample.scenario_tree "/")
  = (Raise FileNotFoundError, Sample.machine Sample.scenario_tree "/")
  /\ AutoReadme.save_content_to_file
       "text" (PosixPath.join "/out/notes.txt" "README.md")
       (Sample.machine Sample.scenario_tree "/")
     = (Raise NotADirectoryError, Sample.machine Sample.scenario_tree "/").
Proof.
  split.
  - apply (save_content_needs_directory
             "text" "/missing" "README.md"
             (Sample.machine Sample.scenario_tree "/")); reflexivity.
  - apply (save_content_needs_directory
             "text" "/out/notes.txt" "README.md"
             (Sample.machine Sample.scenario_tree "/")); reflexivity.
Defined.

(** ** [get_dependency_content] and [generate_readme] *)

Lemma dependency_loop_world (self : AutoReadme.t) (files : list string) :
  forall (acc : list (string * string)) (w : world),
    snd (for_each files
           (fun file dependency_content =>
              if AutoReadme.is_dependency_file file then
                content <- reading (fun root cwd =>
                             FS.read_text root cwd
                               (PosixPath.join (AutoReadme.out_put_dir self) file)) ;;
                ret (Json.dict_set (title file) content dependency_content)
              else ret dependency_content) acc w)
    = w.
Proof.
  induction files as [|file files IH]; intros acc w; [reflexivity|].
  cbn [for_each]. unfold bind at 1.
  destruct (AutoReadme.is_dependency_file file).
  - unfold bind at 1. unfold reading at 1.
    destruct (FS.read_text _ _ _) as [content|e]; [|reflexivity].
    unfold ret at 1. apply IH.
  - unfold ret at 1. apply IH.
Qed.

Lemma get_dependency_content_world (self : AutoReadme.t) (w : world) :
  snd (AutoReadme.get_dependency_content self w)
  = World (fs_root w) (cwd w)
          (log w ++ [Log INFO "Reading dependency content" []]).
Proof.
  unfold AutoReadme.get_dependency_content.
  unfold bind at 1. unfold logging at 1.
  unfold bind at 1. unfold reading at 1. cbn [fs_root cwd log].
  destruct (FS.opendir _ _ _) as [entries|e]; [|reflexivity].
  destruct (map fst entries) as [|file files] eqn:E; [reflexivity|].
  apply dependency_loop_world.
Qed.

Lemma generate_readme_run
      (get_model_answer : string -> list AutoReadme.message -> string -> result string)
      (self : AutoReadme.t) (w w1 : world) (dependencies : list (string * string)) :
  AutoReadme.get_dependency_content self w = (Ok dependencies, w1) ->
  dependencies <> [] ->
  AutoReadme.generate_readme get_model_answer self w
  = match get_model_answer
            (AutoReadme.model self)
            [("system", AutoReadme.readme_instruction self);
             ("user", AutoReadme.readme_query self dependencies)]
            (AutoReadme.config_dir self) with
    | Ok answer =>
        match AutoReadme.save_content_to_file answer (AutoReadme.readme_path self) w1
        with
        | (Ok _, w2) =>
            (Ok tt,
             World (fs_root w2) (cwd w2)
                   (log w2 ++ [Log INFO "README has been generated and saved to {}"
                                   [LStr (AutoReadme.readme_path self)]]))
        | (Raise e, w2) => (Raise e, w2)
        end
    | Raise e => (Raise e, w1)
    end.
Proof.
  intros Hdeps Hne. unfold AutoReadme.generate_readme. cbv zeta.
  unfold bind at 1. rewrite Hdeps.
  destruct dependencies as [|d dependencies]; [congruence|].
  unfold bind at 1. unfold lift at 1.
  destruct (get_model_answer _ _ _) as [answer|e]; [|reflexivity].
  unfold bind at 1.
  destruct (AutoReadme.save_content_to_file _ _ _) as [[[]|e] w2]; reflexivity.
Qed.

(** X18.  When there are artifacts and the collaborator answers,
    [generate_readme] writes the answer as it is to [readme_path]: if the
    call returns, the file can be read there with the answer as its text,
    and the log has gained the records of the reading, of the saving and of
    the generation. *)
Theorem generate_readme_writes_the_answer
        (get_model_answer : string -> list AutoReadme.message -> string -> result string)
        (self : AutoReadme.t) (w w1 w2 : world)
        (dependencies : list (string * string)) (answer : string) :
  AutoReadme.get_dependency_content self w = (Ok dependencies, w1) ->
  dependencies <> [] ->
  get_model_answer (AutoReadme.model self)
                   [("system", AutoReadme.readme_instruction self);
                    ("user", AutoReadme.readme_query self dependencies)]
                   (AutoReadme.config_dir self)
  = Ok answer ->
  AutoReadme.generate_readme get_model_answer self w = (Ok tt, w2) ->
  FS.read_text (fs_root w2) (cwd w2) (AutoReadme.readme_path self)
  = Ok (universal_newlines answer)
  /\ log w2
     = (log w ++ [Log INFO "Reading dependency content" [];
                  Log INFO "Saved to {}" [LStr (AutoReadme.readme_path self)];
                  Log INFO "README has been generated and saved to {}"
                      [LStr (AutoReadme.readme_path self)]])%list.
Proof.
  intros Hdeps Hne Hanswer.
  rewrite (generate_readme_run get_model_answer self w w1 dependencies Hdeps Hne).
  rewrite Hanswer.
  destruct (AutoReadme.save_content_to_file answer (AutoReadme.readme_path self) w1)
    as [[[]|e] w3] eqn:E; [|discriminate].
  intros H. injection H as <-. cbn [fs_root cwd log].
  rewrite save_content_to_file_run in E.
  destruct (FS.write_text (fs_root w1) (cwd w1) (AutoReadme.readme_path self) answer)
    as [root'|e] eqn:Ewrite; [|discriminate].
  injection E as <-. cbn [fs_root cwd log].
  split; [exact (read_after_write _ _ _ _ _ Ewrite)|].
  pose proof (get_dependency_content_world self w) as Hw1.
  rewrite Hdeps in Hw1. cbn [snd] in Hw1. subst w1. cbn [log].
  now rewrite <- !app_assoc.
Qed.

(** X19.  A failure of the collaborator is not handled in
    [generate_readme]: the error is raised to the caller, and nothing is
    written; the log holds the record of the reading only. *)
Theorem generate_readme_passes_on_the_failure
        (get_model_answer : string -> list AutoReadme.message -> string -> result string)
        (self : AutoReadme.t) (w w1 : world)
        (dependencies : list (string * string)) (e : pyerr) :
  AutoReadme.get_dependency_content self w = (Ok dependencies, w1) ->
  dependencies <> [] ->
  get_model_answer (AutoReadme.model self)
                   [("system", AutoReadme.readme_instruction self);
                    ("user", AutoReadme.readme_query self dependencies)]
                   (AutoReadme.config_dir self)
  = Raise e ->
  AutoReadme.generate_readme get_model_answer self w
  = (Raise e,
     World (fs_root w) (cwd w) (log w ++ [Log INFO "Reading dependency content" []])).
Proof.
  intros Hdeps Hne Hanswer.
  rewrite (generate_readme_run get_model_answer self w w1 dependencies Hdeps Hne).
  rewrite Hanswer.
  pose proof (get_dependency_content_world self w) as Hw1.
  rewrite Hdeps in Hw1. cbn [snd] in Hw1. now subst w1.
Qed.

Lemma generate_readme_writes_the_answer_witness :
  FS.read_text
    (fs_root (snd (AutoReadme.generate_readme
                     (Sample.answering "# demo") (Sample.instance "/proj" "/out")
                     Sample.artifact_machine)))
    "/" "/out/README.md"
  = Ok "# demo"
  /\ log (snd (AutoReadme.generate_readme
                 (Sample.answering "# demo") (Sample.instance "/proj" "/out")
                 Sample.artifact_machine))
     = [Log INFO "Reading dependency content" [];
        Log INFO "Saved to {}" [LStr "/out/README.md"];
        Log INFO "README has been generated and saved to {}" [LStr "/out/README.md"]].
Proof.
  apply (generate_readme_writes_the_answer
           (Sample.answering "# demo") (Sample.instance "/proj" "/out")
           Sample.artifact_machine
           (snd (AutoReadme.get_dependency_content
                   (Sample.instance "/proj" "/out") Sample.artifact_machine))
           (snd (AutoReadme.generate_readme
                   (Sample.answering "# demo") (Sample.instance "/proj" "/out")
                   Sample.artifact_machine))
           [("Requirements.Txt", "numpy==1.0")] "# demo").
  - reflexivity.
  - discriminate.
  - reflexivity.
  - reflexivity.
Defined.

Lemma generate_readme_passes_on_the_failure_witness :
  AutoReadme.generate_readme
    (Sample.failing "no network") (Sample.instance "/proj" "/out")
    Sample.artifact_machine
  = (Raise (CollaboratorError "no network"),
     World (fs_root Sample.artifact_machine) "/"
           [Log INFO "Reading dependency content" []]).
Proof.
  apply (generate_readme_passes_on_the_failure
           (Sample.failing "no network") (Sample.instance "/proj" "/out")
           Sample.artifact_machine
           (snd (AutoReadme.get_dependency_content
                   (Sample.instance "/proj" "/out") Sample.artifact_machine))
           [("Requirements.Txt", "numpy==1.0")] (CollaboratorError "no network")).
  - reflexivity.
  - discriminate.
  - reflexivity.
Defined.

(** ** The artifacts in the output directory *)

Lemma bind_inv {A B} (m : M A) (k : A -> M B) (w w' : world) (b : B) :
  bind m k w = (Ok b, w') ->
  exists a w1, m w = (Ok a, w1) /\ k a w1 = (Ok b, w').
Proof.
  unfold bind. destruct (m w) as [[a|e] w1]; [eauto|discriminate].
Qed.

Lemma dict_set_not_nil {A} (k : string) (v : A) (d : list (string * A)) :
  Json.dict_set k v d <> [].
Proof.
  destruct d as [|[k' v'] d]; [discriminate|].
  cbn. destruct (String.eqb k' k); discriminate.
Qed.

Lemma dependency_loop_not_empty (self : AutoReadme.t) (files : list string) :
  forall (acc deps : list (string * string)) (w w' : world),
    for_each files
      (fun file dependency_content =>
         if AutoReadme.is_dependency_file file then
           content <- reading (fun root cwd =>
                        FS.read_text root cwd
                          (PosixPath.join (AutoReadme.out_put_dir self) file)) ;;
           ret (Json.dict_set (title file) content dependency_content)
         else ret dependency_content) acc w
    = (Ok deps, w') ->
    acc <> [] \/ (exists file, In file files
                               /\ AutoReadme.is_dependency_file file = true) ->
    deps <> [].
Proof.
  induction files as [|file files IH]; intros acc deps w w' H Hsome.
  - cbn in H. injection H as <- _. destruct Hsome as [Hacc|[file [[] _]]]. exact Hacc.
  - cbn [for_each] in H. apply bind_inv in H as [acc1 [w1 [Hbody Hrest]]].
    apply (IH acc1 deps w1 w' Hrest).
    destruct (AutoReadme.is_dependency_file file) eqn:Efile.
    + apply bind_inv in Hbody as [content [w2 [_ Hret]]].
      injection Hret as <- _. left. apply dict_set_not_nil.
    + injection Hbody as <- _.
      destruct Hsome as [Hacc|[file' [[<-|Hin] Hdep]]].
      * now left.
      * congruence.
      * right. now exists file'.
Qed.

(** X20.  [get_dependency_content] returns the empty [dict] exactly when
    the output directory lists no artifact: no [requirements.txt],
    [PROJECT_STRUCTURE.md] or [SCRIPT_DESCRIPTION.json] and no name that
    holds [README]. *)
Theorem no_dependency_content_iff_no_artifact (self : AutoReadme.t) (w w' : world)
        (entries : list (string * node)) (dependencies : list (string * string)) :
  FS.opendir (fs_root w) (cwd w) (AutoReadme.out_put_dir self) = Ok entries ->
  AutoReadme.get_dependency_content self w = (Ok dependencies, w') ->
  dependencies = []
  <-> (forall file, In file (map fst entries) ->
                    AutoReadme.is_dependency_file file = false).
Proof.
  intros Hdir. unfold AutoReadme.get_dependency_content.
  unfold bind at 1. unfold logging at 1.
  unfold bind at 1. unfold reading at 1. cbn [fs_root cwd log].
  rewrite Hdir.
  destruct (map fst entries) as [|file files] eqn:E.
  - intros H. injection H as <- _. split; [intros _ file []|reflexivity].
  - intros H. split.
    + intros -> file' Hin.
      destruct (AutoReadme.is_dependency_file file') eqn:Edep; [|reflexivity].
      exfalso. apply (dependency_loop_not_empty self _ _ _ _ _ H); [|reflexivity].
      right. now exists file'.
    + intros Hnone.
      rewrite (for_each_no_dependency_file self (file :: files) [] _ Hnone) in H.
      now injection H as <- _.
Qed.

Lemma no_dependency_content_iff_no_artifact_witness :
  [("Requirements.Txt", "numpy==1.0")] = []
  <-> (forall file, In file (map fst [("requirements.txt", File "numpy==1.0")]) ->
                    AutoReadme.is_dependency_file file = false).
Proof.
  apply (no_dependency_content_iff_no_artifact
           (Sample.instance "/proj" "/out") Sample.artifact_machine
           (snd (AutoReadme.get_dependency_content
                   (Sample.instance "/proj" "/out") Sample.artifact_machine))
           [("requirements.txt", File "numpy==1.0")]
           [("Requirements.Txt", "numpy==1.0")]).
  - reflexivity.
  - reflexivity.
Defined.

Lemma In_set_file (name content : string) (entries : list (string * node)) :
  In name (map fst (FS.set_file name content entries)).
Proof.
  induction entries as [|[k c] entries IH]; [now left|].
  cbn [FS.set_file]. destruct (String.eqb k name) eqn:E.
  - apply String.eqb_eq in E. subst k. now left.
  - now right.
Qed.

(** X21.  A run of [generate_dependency] that returns leaves its last
    artifact, [SCRIPT_DESCRIPTION.json], in the output directory.  So when
    [get_dependency_content] then returns, what it returns is not the
    empty [dict], and [generate_readme] goes on to the collaborator: its
    result is the failure of the collaborator on the query made of that
    [dict], or the saving of the answer. *)
Theorem generate_dependency_leaves_artifacts
        (get_model_answer : string -> list AutoReadme.message -> string -> result string)
        (pip_freeze : string) (json_depth : nat)
        (self : AutoReadme.t) (w w' : world) :
  is_empty (AutoReadme.out_put_dir self) = false ->
  AutoReadme.generate_dependency get_model_answer pip_freeze json_depth self w
  = (Ok tt, w') ->
  (exists entries,
      FS.opendir (fs_root w') (cwd w') (AutoReadme.out_put_dir self) = Ok entries
      /\ In "SCRIPT_DESCRIPTION.json" (map fst entries))
  /\ (forall dependencies w1,
         AutoReadme.get_dependency_content self w' = (Ok dependencies, w1) ->
         dependencies <> []
         /\ forall answerer,
              AutoReadme.generate_readme answerer self w'
              = match answerer
                        (AutoReadme.model self)
                        [("system", AutoReadme.readme_instruction self);
                         ("user", AutoReadme.readme_query self dependencies)]
                        (AutoReadme.config_dir self) with
                | Ok answer =>
                    match AutoReadme.save_content_to_file
                            answer (AutoReadme.readme_path self) w1 with
                    | (Ok _, w2) =>
                        (Ok tt,
                         World (fs_root w2) (cwd w2)
                               (log w2
                                  ++ [Log INFO "README has been generated and saved to {}"
                                          [LStr (AutoReadme.readme_path self)]]))
                    | (Raise e, w2) => (Raise e, w2)
                    end
                | Raise e => (Raise e, w1)
                end).
Proof.
  intros Hout H. unfold AutoReadme.generate_dependency in H.
  apply bind_inv in H as [u0 [w0 [_ H]]].
  apply bind_inv in H as [project_structure [w1 [_ H]]].
  apply bind_inv in H as [u2 [w2 [_ H]]].
  apply bind_inv in H as [requirements [w3 [_ H]]].
  apply bind_inv in H as [requirements_text [w4 [_ H]]].
  apply bind_inv in H as [u5 [w5 [_ H]]].
  apply bind_inv in H as [scripts_description [w6 [_ H]]].
  apply bind_inv in H as [u7 [w7 [Hwrite H]]].
  unfold logging in H. injection H as <-.
  unfold write_file in Hwrite.
  destruct (FS.write_text (fs_root w6) (cwd w6) _ _) as [root'|e] eqn:E;
    [|discriminate].
  injection Hwrite as _ <-. cbn [fs_root cwd log].
  destruct (opendir_after_write
              (fs_root w6) root' (cwd w6) (AutoReadme.out_put_dir self)
              "SCRIPT_DESCRIPTION.json" (JsonEncoder.dumps scripts_description)
              eq_refl eq_refl eq_refl Hout E)
    as [entries [_ Hafter]].
  assert (Hin : In "SCRIPT_DESCRIPTION.json"
                   (map fst (FS.set_file "SCRIPT_DESCRIPTION.json"
                                         (JsonEncoder.dumps scripts_description)
                                         entries)))
    by apply In_set_file.
  split; [eexists; split; [exact Hafter|exact Hin]|].
  intros dependencies w8 Hdeps.
  assert (Hne : dependencies <> []).
  { unfold AutoReadme.get_dependency_content in Hdeps.
    unfold bind at 1 in Hdeps. unfold logging at 1 in Hdeps.
    unfold bind at 1 in Hdeps. unfold reading at 1 in Hdeps.
    cbn [fs_root cwd log] in Hdeps. rewrite Hafter in Hdeps.
    destruct (map fst (FS.set_file _ _ entries)) as [|file files] eqn:Efiles;
      [contradiction|].
    apply (dependency_loop_not_empty self _ _ _ _ _ Hdeps).
    right. now exists "SCRIPT_DESCRIPTION.json". }
  split; [exact Hne|].
  intros answerer. exact (generate_readme_run answerer self _ _ _ Hdeps Hne).
Qed.

Lemma generate_dependency_leaves_artifacts_witness :
  exists entries,
    FS.opendir
      (fs_root (snd (AutoReadme.generate_dependency
                       (Sample.answering (Sample.requirements_reply ["numpy==1.0"]))
                       "numpy==1.0" 10 (Sample.instance "/proj" "/out")
                       (Sample.machine Sample.scenario_tree "/"))))
      (cwd (snd (AutoReadme.generate_dependency
                   (Sample.answering (Sample.requirements_reply ["numpy==1.0"]))
                   "numpy==1.0" 10 (Sample.instance "/proj" "/out")
                   (Sample.machine Sample.scenario_tree "/"))))
      "/out"
    = Ok entries
    /\ In "SCRIPT_DESCRIPTION.json" (map fst entries).
Proof.
  apply (generate_dependency_leaves_artifacts
           (Sample.answering (Sample.requirements_reply ["numpy==1.0"]))
           "numpy==1.0" 10 (Sample.instance "/proj" "/out")
           (Sample.machine Sample.scenario_tree "/")).
  - reflexivity.
  - vm_compute. reflexivity.
Defined.



(** ** The descriptions as JSON *)

Lemma scanstring_escape (c : ascii) (tail : string) :
  Json.scanstring (JsonEncoder.escape c ++ tail)
  = match Json.scanstring tail with
    | Ok (decoded, rest) => Ok (String c decoded, rest)
    | Raise e => Raise e
    end.
Proof.
  destruct c as [[|] [|] [|] [|] [|] [|] [|] [|]]; reflexivity.
Qed.

Lemma scanstring_escaped (s rest : string) :
  Json.scanstring (JsonEncoder.escaped s ++ dquote ++ rest) = Ok (s, rest).
Proof.
  induction s as [|c s IH]; [reflexivity|].
  cbn [JsonEncoder.escaped]. rewrite append_assoc, scanstring_escape, IH.
  reflexivity.
Qed.

Lemma dumps_cons (kv : string * string) (d : list (string * string)) :
  JsonEncoder.dumps (kv :: d)
  = "{" ++ newline ++ "    " ++ JsonEncoder.member kv ++ Aux.members_tail d.
Proof.
  unfold JsonEncoder.dumps. do 3 f_equal.
  revert kv. induction d as [|kv' d IH]; intros kv; [reflexivity|].
  cbn [map]. rewrite join_cons by discriminate.
  rewrite !append_assoc. f_equal.
  cbn [map] in IH. rewrite IH. reflexivity.
Qed.

Lemma scan_once_string (depth : nat) (s : string) :
  Json.scan_once depth (String (chr 34) s)
  = match Json.scanstring s with
    | Ok (str, rest) => Some (Ok (Json.Str str, rest))
    | Raise e => Some (Raise e)
    end.
Proof. destruct depth; reflexivity. Qed.

Lemma object_members_text (depth : nat) (d : list (string * string)) :
  forall (kv : string * string) (pairs : list (string * Json.value))
         (steps : nat) (tail : string),
    List.length d < steps ->
    Json.object_members (Json.scan_once depth) steps
      (JsonEncoder.escaped (fst kv) ++ dquote ++ ": " ++ dquote
         ++ JsonEncoder.escaped (snd kv) ++ dquote ++ Aux.members_tail d ++ tail)
      pairs
    = Some (Ok (Json.Object
                  (fold_left (fun acc kv => Json.dict_set (fst kv) (Json.Str (snd kv)) acc)
                             (kv :: d) pairs),
                tail)).
Proof.
  induction d as [|kv' d IH]; intros kv pairs steps tail Hsteps.
  - destruct steps as [|steps]; [inversion Hsteps|].
    cbn [Json.object_members]. rewrite scanstring_escaped.
    change (Json.skip_ws (": " ++ dquote ++ JsonEncoder.escaped (snd kv) ++ dquote
                            ++ Aux.members_tail [] ++ tail))
      with (String ":"%char (" " ++ dquote ++ JsonEncoder.escaped (snd kv) ++ dquote
                            ++ Aux.members_tail [] ++ tail)).
    cbv iota beta.
    change (Json.code ":" =? 58)%nat with true. cbv iota.
    change (Json.skip_ws (" " ++ dquote ++ JsonEncoder.escaped (snd kv) ++ dquote
                            ++ Aux.members_tail [] ++ tail))
      with (String (chr 34) (JsonEncoder.escaped (snd kv) ++ dquote
                               ++ Aux.members_tail [] ++ tail)).
    rewrite scan_once_string, scanstring_escaped. reflexivity.
  - destruct steps as [|steps]; [inversion Hsteps|].
    cbn [Json.object_members]. rewrite scanstring_escaped.
    change (Json.skip_ws (": " ++ dquote ++ JsonEncoder.escaped (snd kv) ++ dquote
                            ++ Aux.members_tail (kv' :: d) ++ tail))
      with (String ":"%char (" " ++ dquote ++ JsonEncoder.escaped (snd kv) ++ dquote
                            ++ Aux.members_tail (kv' :: d) ++ tail)).
    cbv iota beta.
    change (Json.code ":" =? 58)%nat with true. cbv iota.
    change (Json.skip_ws (" " ++ dquote ++ JsonEncoder.escaped (snd kv) ++ dquote
                            ++ Aux.members_tail (kv' :: d) ++ tail))
      with (String (chr 34) (JsonEncoder.escaped (snd kv) ++ dquote
                               ++ Aux.members_tail (kv' :: d) ++ tail)).
    rewrite scan_once_string, scanstring_escaped. cbv iota beta.
    cbn [Aux.members_tail]. unfold JsonEncoder.member, JsonEncoder.encode_basestring.
    rewrite !append_assoc.
    change (Json.skip_ws ("," ++ newline ++ "    " ++ dquote
                            ++ JsonEncoder.escaped (fst kv') ++ dquote ++ ": " ++ dquote
                            ++ JsonEncoder.escaped (snd kv') ++ dquote
                            ++ Aux.members_tail d ++ tail))
      with (String ","%char
                   (newline ++ "    " ++ dquote
                      ++ JsonEncoder.escaped (fst kv') ++ dquote ++ ": " ++ dquote
                      ++ JsonEncoder.escaped (snd kv') ++ dquote
                      ++ Aux.members_tail d ++ tail)).
    cbv iota beta.
    change (Json.code "," =? 125)%nat with false.
    change (Json.code "," =? 44)%nat with true. cbv iota.
    change (Json.skip_ws (newline ++ "    " ++ dquote
                      ++ JsonEncoder.escaped (fst kv') ++ dquote ++ ": " ++ dquote
                      ++ JsonEncoder.escaped (snd kv') ++ dquote
                      ++ Aux.members_tail d ++ tail))
      with (String (chr 34)
                   (JsonEncoder.escaped (fst kv') ++ dquote ++ ": " ++ dquote
                      ++ JsonEncoder.escaped (snd kv') ++ dquote
                      ++ Aux.members_tail d ++ tail)).
    cbv iota beta.
    change (Json.code (chr 34) =? 34)%nat with true. cbv iota.
    rewrite IH by (cbn [List.length] in Hsteps; lia).
    reflexivity.
Qed.

Lemma length_append (a b : string) :
  String.length (a ++ b) = String.length a + String.length b.
Proof. induction a as [|c a IH]; simpl; [reflexivity|now rewrite IH]. Qed.

Lemma length_members_tail (d : list (string * string)) :
  List.length d <= String.length (Aux.members_tail d).
Proof.
  induction d as [|kv d IH]; [cbn; lia|].
  cbn [Aux.members_tail List.length]. rewrite !length_append. cbn [String.length].
  lia.
Qed.

Lemma dict_set_fresh {A} (k : string) (v : A) (d : list (string * A)) :
  ~ In k (map fst d) -> Json.dict_set k v d = (d ++ [(k, v)])%list.
Proof.
  induction d as [|[k' v'] d IH]; intros H; [reflexivity|].
  cbn [Json.dict_set]. destruct (String.eqb k' k) eqn:E.
  - apply String.eqb_eq in E. subst k'. exfalso. apply H. now left.
  - cbn [app]. f_equal. apply IH. intros Hin. apply H. now right.
Qed.

Lemma fold_dict_set_distinct (d : list (string * string)) :
  forall pairs : list (string * Json.value),
    NoDup (map fst pairs ++ map fst d) ->
    fold_left (fun acc kv => Json.dict_set (fst kv) (Json.Str (snd kv)) acc) d pairs
    = (pairs ++ Aux.decoded_members d)%list.
Proof.
  induction d as [|[k v] d IH]; intros pairs Hnd.
  - cbn. now rewrite app_nil_r.
  - cbn [fold_left fst snd map Aux.decoded_members] in *.
    rewrite dict_set_fresh.
    + rewrite IH.
      * now rewrite <- app_assoc.
      * rewrite map_app. cbn [map fst]. rewrite <- app_assoc. exact Hnd.
    + apply NoDup_remove_2 in Hnd. intros Hin. apply Hnd.
      apply in_or_app. now left.
Qed.

(** The text that [json.dump] writes for a [dict] of strings decodes to
    that [dict]. *)
Lemma loads_dumps (depth : nat) (d : list (string * string)) :
  NoDup (map fst d) ->
  Json.loads (S depth) (JsonEncoder.dumps d)
  = Ok (Json.Object (Aux.decoded_members d)).
Proof.
  intros Hnd. destruct d as [|kv d]; [reflexivity|].
  rewrite dumps_cons. unfold Json.loads.
  change (Json.skip_ws ("{" ++ newline ++ "    " ++ JsonEncoder.member kv
                          ++ Aux.members_tail d))
    with (String "{"%char (newline ++ "    " ++ JsonEncoder.member kv
                             ++ Aux.members_tail d)).
  cbn [Json.scan_once].
  change (Json.code "{" =? 34)%nat with false.
  change (Json.code "{" =? 123)%nat with true. cbv iota.
  unfold JsonEncoder.member, JsonEncoder.encode_basestring.
  rewrite !append_assoc.
  change (Json.skip_ws (newline ++ "    " ++ dquote ++ JsonEncoder.escaped (fst kv)
                          ++ dquote ++ ": " ++ dquote ++ JsonEncoder.escaped (snd kv)
                          ++ dquote ++ Aux.members_tail d))
    with (String (chr 34) (JsonEncoder.escaped (fst kv)
                             ++ dquote ++ ": " ++ dquote ++ JsonEncoder.escaped (snd kv)
                             ++ dquote ++ Aux.members_tail d)).
  cbv iota beta.
  change (Json.code (chr 34) =? 125)%nat with false.
  change (Json.code (chr 34) =? 34)%nat with true. cbv iota.
  rewrite <- (append_empty_r (Aux.members_tail d)).
  rewrite object_members_text.
  - rewrite (fold_dict_set_distinct (kv :: d) [] Hnd). reflexivity.
  - rewrite append_empty_r, !length_append.
    pose proof (length_members_tail d). lia.
Qed.

(** ** The descriptions of the scripts *)

Lemma generate_file_description_run
      (get_model_answer : string -> list AutoReadme.message -> string -> result string)
      (self : AutoReadme.t) (script_path : string) (w : world) :
  AutoReadme.generate_file_description get_model_answer self script_path w
  = (match FS.read_text (fs_root w) (cwd w) script_path with
     | Ok script_content =>
         get_model_answer (AutoReadme.model self)
                          [("system", AutoReadme.description_instruction self);
                           ("user", script_content)]
                          (AutoReadme.config_dir self)
     | Raise e => Raise e
     end, w).
Proof.
  unfold AutoReadme.generate_file_description, bind, reading, lift, ret.
  destruct (FS.read_text _ _ _) as [content|e]; [|reflexivity].
  destruct (get_model_answer _ _ _); reflexivity.
Qed.

Lemma dict_set_keys {A} (k : string) (v : A) (d : list (string * A)) (x : string) :
  In x (map fst (Json.dict_set k v d)) <-> x = k \/ In x (map fst d).
Proof.
  induction d as [|[k' v'] d IH].
  - cbn. intuition.
  - cbn [Json.dict_set]. destruct (String.eqb k' k) eqn:E.
    + apply String.eqb_eq in E. subst k'. cbn. intuition.
    + cbn [map fst In]. rewrite IH. intuition.
Qed.

Lemma dict_set_NoDup {A} (k : string) (v : A) (d : list (string * A)) :
  NoDup (map fst d) -> NoDup (map fst (Json.dict_set k v d)).
Proof.
  induction d as [|[k' v'] d IH]; intros H.
  - cbn. constructor; [intros []|constructor].
  - cbn [Json.dict_set]. destruct (String.eqb k' k) eqn:E; [exact H|].
    cbn [map fst] in *. inversion H as [|? ? Hnotin Hnd]; subst.
    constructor; [|now apply IH].
    rewrite dict_set_keys. intros [->|Hin]; [|contradiction].
    now rewrite String.eqb_refl in E.
Qed.

Lemma dict_get_set {A} (k : string) (v : A) (d : list (string * A)) (x : string) :
  Json.dict_get x (Json.dict_set k v d)
  = if String.eqb k x then Some v else Json.dict_get x d.
Proof.
  induction d as [|[k' v'] d IH].
  - cbn. now destruct (String.eqb k x).
  - cbn [Json.dict_set]. destruct (String.eqb k' k) eqn:E.
    + apply String.eqb_eq in E. subst k'. cbn [Json.dict_get].
      now destruct (String.eqb k x).
    + cbn [Json.dict_get]. destruct (String.eqb k' x) eqn:E'.
      * apply String.eqb_eq in E'. subst k'.
        now rewrite String.eqb_sym, E.
      * exact IH.
Qed.

(** The answer of the collaborator for the script at [script]. *)
Lemma descriptions_loop
      (get_model_answer : string -> list AutoReadme.message -> string -> result string)
      (self : AutoReadme.t) (scripts : list string) :
  forall (acc d : list (string * string)) (w w' : world),
    for_each scripts
      (fun script script_description =>
         description <- AutoReadme.generate_file_description
                          get_model_answer self script ;;
         logging INFO "Description of {}: {}...{}"
                 [LStr script;
                  LStr (CodePoints.remove_char
                          (chr 10) (CodePoints.slice_to 20 description));
                  LStr (CodePoints.remove_char
                          (chr 10) (CodePoints.slice_last 20 description))] ;;;
         ret (Json.dict_set script description script_description)) acc w
    = (Ok d, w') ->
    (fs_root w' = fs_root w /\ cwd w' = cwd w)
    /\ (NoDup (map fst acc) -> NoDup (map fst d))
    /\ (forall k, In k (map fst d) <-> In k (map fst acc) \/ In k scripts)
    /\ (forall k, In k scripts ->
          exists content description,
            FS.read_text (fs_root w) (cwd w) k = Ok content
            /\ get_model_answer (AutoReadme.model self)
                                [("system", AutoReadme.description_instruction self);
                                 ("user", content)]
                                (AutoReadme.config_dir self)
               = Ok description
            /\ Json.dict_get k d = Some description)
    /\ (forall k, ~ In k scripts -> Json.dict_get k d = Json.dict_get k acc).
Proof.
  induction scripts as [|script scripts IH]; intros acc d w w' H.
  - cbn in H. injection H as <- <-.
    split; [now split|]. split; [auto|]. split; [cbn; intuition|].
    split; [intros k Hin; destruct (in_nil Hin)|reflexivity].
  - cbn [for_each] in H. apply bind_inv in H as [acc1 [w1 [Hbody Hrest]]].
    apply bind_inv in Hbody as [description [w2 [Hdesc Hbody]]].
    rewrite generate_file_description_run in Hdesc.
    destruct (FS.read_text (fs_root w) (cwd w) script) as [content|e] eqn:Eread;
      [|discriminate].
    injection Hdesc as Hanswer <-.
    unfold bind, logging, ret in Hbody. injection Hbody as <- <-.
    destruct (IH _ _ _ _ Hrest) as [[Hroot Hcwd] [Hnd [Hkeys [Hvals Hframe]]]].
    cbn [fs_root cwd] in Hroot, Hcwd, Hvals.
    split; [now split|]. split; [|split; [|split]].
    + intros Hacc. apply Hnd. now apply dict_set_NoDup.
    + intros k. rewrite Hkeys, dict_set_keys. cbn [In]. intuition.
    + intros k [<-|Hin].
      * destruct (in_dec string_dec script scripts) as [Hin|Hnotin];
          [now apply Hvals|].
        exists content, description. split; [exact Eread|]. split; [exact Hanswer|].
        rewrite (Hframe _ Hnotin), dict_get_set. now rewrite String.eqb_refl.
      * now apply Hvals.
    + intros k Hnotin. rewrite Hframe by (intros Hin; apply Hnotin; now right).
      rewrite dict_get_set. destruct (String.eqb script k) eqn:E; [|reflexivity].
      apply String.eqb_eq in E. subst k. exfalso. apply Hnotin. now left.
Qed.

Lemma find_all_value (self : AutoReadme.t) (w w' : world) :
  fs_root w = fs_root w' -> cwd w = cwd w' ->
  fst (AutoReadme.find_all_scripts_and_config_files self w)
  = fst (AutoReadme.find_all_scripts_and_config_files self w').
Proof.
  intros Hroot Hcwd.
  destruct (fst (AutoReadme.load_ignore_files self w)) as [l|e] eqn:El.
  - pose proof El as El'.
    rewrite (load_ignore_files_value self w w' Hroot Hcwd) in El'.
    destruct (FS.resolve (fs_root w) (cwd w) (AutoReadme.project_dir self))
      as [n|e] eqn:E.
    + rewrite (find_all_run self w n l El E).
      rewrite Hroot, Hcwd in E. rewrite (find_all_run self w' n l El' E).
      now rewrite Hcwd.
    + rewrite (find_all_missing self w e l E El).
      rewrite Hroot, Hcwd in E. now rewrite (find_all_missing self w' e l E El').
  - pose proof El as El'.
    rewrite (load_ignore_files_value self w w' Hroot Hcwd) in El'.
    now rewrite (find_all_load_raises self w e El),
      (find_all_load_raises self w' e El').
Qed.

Lemma descriptions_keys_distinct
      (get_model_answer : string -> list AutoReadme.message -> string -> result string)
      (self : AutoReadme.t) (w w' : world) (descriptions : list (string * string)) :
  AutoReadme.generate_description_of_all_scripts get_model_answer self w
  = (Ok descriptions, w') ->
  NoDup (map fst descriptions).
Proof.
  unfold AutoReadme.generate_description_of_all_scripts. intros H.
  apply bind_inv in H as [u0 [w0 [_ H]]].
  apply bind_inv in H as [scripts [w1 [_ Hloop]]].
  apply descriptions_loop in Hloop as [_ [Hnd _]].
  apply Hnd. constructor.
Qed.

(** X23.  The descriptions that [generate_description_of_all_scripts]
    returns have the paths of [find_all_scripts_and_config_files] as their
    keys, each once, and map each path to the answer of the collaborator
    to the prompt made of the instruction and the text of that file. *)
Theorem descriptions_of_all_scripts
        (get_model_answer : string -> list AutoReadme.message -> string -> result string)
        (self : AutoReadme.t) (w w' : world) (descriptions : list (string * string)) :
  AutoReadme.generate_description_of_all_scripts get_model_answer self w
  = (Ok descriptions, w') ->
  exists scripts,
    fst (AutoReadme.find_all_scripts_and_config_files self w) = Ok scripts
    /\ NoDup (map fst descriptions)
    /\ (forall k, In k (map fst descriptions) <-> In k scripts)
    /\ (forall k, In k scripts ->
          exists content description,
            FS.read_text (fs_root w) (cwd w) k = Ok content
            /\ get_model_answer (AutoReadme.model self)
                                [("system", AutoReadme.description_instruction self);
                                 ("user", content)]
                                (AutoReadme.config_dir self)
               = Ok description
            /\ Json.dict_get k descriptions = Some description).
Proof.
  unfold AutoReadme.generate_description_of_all_scripts. intros H.
  apply bind_inv in H as [u0 [w0 [Hlog H]]].
  unfold logging in Hlog. injection Hlog as _ <-.
  apply bind_inv in H as [scripts [w1 [Hfind Hloop]]].
  exists scripts.
  destruct (find_all_log self (World (fs_root w) (cwd w)
                                 (log w ++ [Log INFO
                                              "Generating description of all scripts..."
                                              []])))
    as [records Hw1].
  rewrite Hfind in Hw1. cbn [snd fs_root cwd log] in Hw1.
  split.
  - rewrite (find_all_value
               self w
               (World (fs_root w) (cwd w)
                      (log w ++ [Log INFO "Generating description of all scripts..."
                                     []]))
               eq_refl eq_refl), Hfind.
    reflexivity.
  - apply descriptions_loop in Hloop
      as [_ [Hnd [Hkeys [Hvals _]]]].
    subst w1. cbn [fs_root cwd] in Hvals.
    split; [apply Hnd; constructor|]. split; [|exact Hvals].
    intros k. rewrite Hkeys. cbn. intuition.
Qed.

Lemma descriptions_of_all_scripts_witness :
  exists scripts,
    fst (AutoReadme.find_all_scripts_and_config_files
           (Sample.instance "/proj" "/out") (Sample.machine Sample.scenario_tree "/"))
    = Ok scripts
    /\ NoDup (map fst [("/proj/src/main.py", "text");
                       ("/proj/config/settings.json", "text")])
    /\ (forall k, In k (map fst [("/proj/src/main.py", "text");
                                 ("/proj/config/settings.json", "text")])
                  <-> In k scripts)
    /\ (forall k, In k scripts ->
          exists content description,
            FS.read_text (fs_root (Sample.machine Sample.scenario_tree "/")) "/" k
            = Ok content
            /\ Sample.answering "text" "gpt-4o"
                 [("system",
                   AutoReadme.description_instruction (Sample.instance "/proj" "/out"));
                  ("user", content)]
                 "/cfg"
               = Ok description
            /\ Json.dict_get k [("/proj/src/main.py", "text");
                                ("/proj/config/settings.json", "text")]
               = Some description).
Proof.
  apply (descriptions_of_all_scripts
           (Sample.answering "text") (Sample.instance "/proj" "/out")
           (Sample.machine Sample.scenario_tree "/")
           (snd (AutoReadme.generate_description_of_all_scripts
                   (Sample.answering "text") (Sample.instance "/proj" "/out")
                   (Sample.machine Sample.scenario_tree "/")))).
  vm_compute. reflexivity.
Defined.

(** ** The file of the descriptions *)

Lemma mem_char_append (c : ascii) (a b : string) :
  mem_char c (a ++ b) = mem_char c a || mem_char c b.
Proof.
  induction a as [|x a IH]; [reflexivity|].
  cbn [append mem_char]. now rewrite IH, orb_assoc.
Qed.

Lemma escape_no_return (c : ascii) : mem_char (chr 13) (JsonEncoder.escape c) = false.
Proof. destruct c as [[|] [|] [|] [|] [|] [|] [|] [|]]; reflexivity. Qed.

Lemma escaped_no_return (s : string) :
  mem_char (chr 13) (JsonEncoder.escaped s) = false.
Proof.
  induction s as [|c s IH]; [reflexivity|].
  cbn [JsonEncoder.escaped]. now rewrite mem_char_append, escape_no_return, IH.
Qed.

Lemma member_no_return (kv : string * string) :
  mem_char (chr 13) (JsonEncoder.member kv) = false.
Proof.
  unfold JsonEncoder.member, JsonEncoder.encode_basestring.
  rewrite !mem_char_append, !escaped_no_return. reflexivity.
Qed.

Lemma dumps_no_return (d : list (string * string)) :
  mem_char (chr 13) (JsonEncoder.dumps d) = false.
Proof.
  destruct d as [|kv d]; [reflexivity|].
  rewrite dumps_cons, !mem_char_append, member_no_return.
  cbn [orb]. change (mem_char (chr 13) "{") with false.
  change (mem_char (chr 13) newline) with false.
  change (mem_char (chr 13) "    ") with false. cbn [orb].
  induction d as [|kv' d IH]; [reflexivity|].
  cbn [Aux.members_tail]. rewrite !mem_char_append, member_no_return, IH.
  reflexivity.
Qed.

Lemma universal_newlines_without_return (s : string) :
  mem_char (chr 13) s = false -> universal_newlines s = s.
Proof.
  induction s as [|c s IH]; intros H; [reflexivity|].
  cbn [mem_char] in H. apply orb_false_iff in H as [Hc Hs].
  cbn [universal_newlines].
  assert (Hn : Nat.eqb (nat_of_ascii c) 13 = false).
  { destruct (Nat.eqb (nat_of_ascii c) 13) eqn:E; [|reflexivity].
    apply Nat.eqb_eq in E.
    assert (c = chr 13) by (unfold chr; rewrite <- E; now rewrite ascii_nat_embedding).
    subst c. discriminate. }
  rewrite Hn. now rewrite (IH Hs).
Qed.

Lemma descriptions_keep_the_files
      (get_model_answer : string -> list AutoReadme.message -> string -> result string)
      (self : AutoReadme.t) (w w' : world) (descriptions : list (string * string)) :
  AutoReadme.generate_description_of_all_scripts get_model_answer self w
  = (Ok descriptions, w') ->
  fs_root w' = fs_root w /\ cwd w' = cwd w.
Proof.
  unfold AutoReadme.generate_description_of_all_scripts. intros H.
  apply bind_inv in H as [u0 [w0 [Hlog H]]].
  unfold logging in Hlog. injection Hlog as _ <-.
  apply bind_inv in H as [scripts [w1 [Hfind Hloop]]].
  destruct (find_all_log self (World (fs_root w) (cwd w)
                                 (log w ++ [Log INFO
                                              "Generating description of all scripts..."
                                              []])))
    as [records Hw1].
  rewrite Hfind in Hw1. cbn [snd fs_root cwd log] in Hw1.
  apply descriptions_loop in Hloop as [[Hroot Hcwd] _].
  subst w1. cbn [fs_root cwd] in Hroot, Hcwd. now split.
Qed.

(** X24.  [SCRIPT_DESCRIPTION.json] as [generate_dependency] leaves it
    holds what [json.dump] wrote for the descriptions of the run: the
    [dict] that [generate_description_of_all_scripts] returned on the file
    system as it was before the file was written, the file system at the
    end being that one with the file written.  [json.loads] reads the text
    back as that [dict]: the paths are distinct keys; quotes, backslashes,
    line ends and other control characters in the paths and in the
    descriptions are escaped, and text outside ASCII stands for itself. *)
Theorem script_descriptions_file_decodes
        (get_model_answer : string -> list AutoReadme.message -> string -> result string)
        (pip_freeze : string) (json_depth : nat)
        (self : AutoReadme.t) (w w' : world) :
  AutoReadme.generate_dependency get_model_answer pip_freeze json_depth self w
  = (Ok tt, w') ->
  exists descriptions before,
    fst (AutoReadme.generate_description_of_all_scripts get_model_answer self before)
    = Ok descriptions
    /\ FS.write_text (fs_root before) (cwd before)
                     (PosixPath.join (AutoReadme.out_put_dir self)
                                     "SCRIPT_DESCRIPTION.json")
                     (JsonEncoder.dumps descriptions)
       = Ok (fs_root w')
    /\ cwd before = cwd w'
    /\ FS.read_text (fs_root w') (cwd w')
                    (PosixPath.join (AutoReadme.out_put_dir self)
                                    "SCRIPT_DESCRIPTION.json")
       = Ok (JsonEncoder.dumps descriptions)
    /\ forall depth,
         Json.loads (S depth) (JsonEncoder.dumps descriptions)
         = Ok (Json.Object (Aux.decoded_members descriptions)).
Proof.
  intros H. unfold AutoReadme.generate_dependency in H.
  apply bind_inv in H as [u0 [w0 [_ H]]].
  apply bind_inv in H as [project_structure [w1 [_ H]]].
  apply bind_inv in H as [u2 [w2 [_ H]]].
  apply bind_inv in H as [requirements [w3 [_ H]]].
  apply bind_inv in H as [requirements_text [w4 [_ H]]].
  apply bind_inv in H as [u5 [w5 [_ H]]].
  apply bind_inv in H as [descriptions [w6 [Hdesc H]]].
  apply bind_inv in H as [u7 [w7 [Hwrite H]]].
  unfold logging in H. injection H as <-. cbn [fs_root cwd].
  unfold write_file in Hwrite.
  destruct (FS.write_text (fs_root w6) (cwd w6) _ _) as [root'|e] eqn:E;
    [|discriminate].
  injection Hwrite as _ <-. cbn [fs_root cwd].
  destruct (descriptions_keep_the_files _ _ _ _ _ Hdesc) as [Hroot Hcwd].
  exists descriptions, w5.
  split; [now rewrite Hdesc|].
  split; [now rewrite <- Hroot, <- Hcwd|].
  split; [now rewrite Hcwd|].
  split.
  - rewrite (read_after_write _ _ _ _ _ E).
    now rewrite (universal_newlines_without_return _ (dumps_no_return descriptions)).
  - intros depth. apply loads_dumps.
    exact (descriptions_keys_distinct _ _ _ _ _ Hdesc).
Qed.

Lemma script_descriptions_file_decodes_witness :
  exists descriptions before,
    fst (AutoReadme.generate_description_of_all_scripts
           (Sample.answering (Sample.requirements_reply ["numpy==1.0"]))
           (Sample.instance "/proj" "/out") before)
    = Ok descriptions
    /\ FS.write_text (fs_root before) (cwd before)
                     (PosixPath.join "/out" "SCRIPT_DESCRIPTION.json")
                     (JsonEncoder.dumps descriptions)
       = Ok (fs_root (snd (AutoReadme.generate_dependency
                             (Sample.answering (Sample.requirements_reply ["numpy==1.0"]))
                             "numpy==1.0" 10 (Sample.instance "/proj" "/out")
                             (Sample.machine Sample.scenario_tree "/"))))
    /\ cwd before
       = cwd (snd (AutoReadme.generate_dependency
                     (Sample.answering (Sample.requirements_reply ["numpy==1.0"]))
                     "numpy==1.0" 10 (Sample.instance "/proj" "/out")
                     (Sample.machine Sample.scenario_tree "/")))
    /\ FS.read_text
         (fs_root (snd (AutoReadme.generate_dependency
                          (Sample.answering (Sample.requirements_reply ["numpy==1.0"]))
                          "numpy==1.0" 10 (Sample.instance "/proj" "/out")
                          (Sample.machine Sample.scenario_tree "/"))))
         (cwd (snd (AutoReadme.generate_dependency
                      (Sample.answering (Sample.requirements_reply ["numpy==1.0"]))
                      "numpy==1.0" 10 (Sample.instance "/proj" "/out")
                      (Sample.machine Sample.scenario_tree "/"))))
         (PosixPath.join "/out" "SCRIPT_DESCRIPTION.json")
       = Ok (JsonEncoder.dumps descriptions)
    /\ forall depth,
         Json.loads (S depth) (JsonEncoder.dumps descriptions)
         = Ok (Json.Object (Aux.decoded_members descriptions)).
Proof.
  apply (script_descriptions_file_decodes
           (Sample.answering (Sample.requirements_reply ["numpy==1.0"]))
           "numpy==1.0" 10 (Sample.instance "/proj" "/out")
           (Sample.machine Sample.scenario_tree "/")).
  vm_compute. reflexivity.
Defined.

(** ** The reply about the requirements *)

(** X25.  In [generate_project_requirements] only the parsing of the
    reply is guarded: a failure of the collaborator itself is raised to the
    caller, with no fallback to the empty list. *)
Theorem requirements_collaborator_failure_is_raised
        (get_model_answer : string -> list AutoReadme.message -> string -> result string)
        (pip_freeze : string) (json_depth : nat) (self : AutoReadme.t)
        (w w1 : world) (prompt : list AutoReadme.message) (e : pyerr) :
  AutoReadme.requirements_prompt pip_freeze self w = (Ok prompt, w1) ->
  get_model_answer (AutoReadme.model self) prompt (AutoReadme.config_dir self)
  = Raise e ->
  AutoReadme.generate_project_requirements get_model_answer pip_freeze json_depth self w
  = (Raise e, w1).
Proof.
  intros Hprompt Hreply. unfold AutoReadme.generate_project_requirements.
  rewrite (bind_ok _ _ _ _ _ Hprompt).
  unfold bind at 1. unfold lift at 1. now rewrite Hreply.
Qed.

Lemma requirements_collaborator_failure_is_raised_witness :
  AutoReadme.generate_project_requirements
    (Sample.failing "no network") "numpy==2.0" 100
    (Sample.instance "/proj" "/out") (Sample.machine Sample.scenario_tree "/")
  = (Raise (CollaboratorError "no network"),
     snd (AutoReadme.requirements_prompt
            "numpy==2.0" (Sample.instance "/proj" "/out")
            (Sample.machine Sample.scenario_tree "/"))).
Proof.
  apply (requirements_collaborator_failure_is_raised
           (Sample.failing "no network") "numpy==2.0" 100
           (Sample.instance "/proj" "/out")
           (Sample.machine Sample.scenario_tree "/") _
           (match fst (AutoReadme.requirements_prompt
                         "numpy==2.0" (Sample.instance "/proj" "/out")
                         (Sample.machine Sample.scenario_tree "/")) with
            | Ok prompt => prompt
            | Raise _ => []
            end)).
  - vm_compute. reflexivity.
  - reflexivity.
Defined.

Lemma lstrip_chars_stops (chars s : string) :
  Aux.begins_with_one_of chars s = false -> lstrip_chars chars s = s.
Proof.
  destruct s as [|c s]; [reflexivity|]. cbn. now intros ->.
Qed.

Lemma lstrip_chars_app (chars a b : string) :
  lstrip_chars chars a = EmptyString ->
  lstrip_chars chars (a ++ b) = lstrip_chars chars b.
Proof.
  induction a as [|c a IH]; intros H; [reflexivity|].
  cbn [append lstrip_chars] in *.
  destruct (mem_char c chars); [now apply IH|discriminate].
Qed.

Lemma rstrip_chars_stops (chars s : string) :
  Aux.ends_with_one_of chars s = false -> rstrip_chars chars s = s.
Proof.
  unfold Aux.ends_with_one_of, rstrip_chars. intros H.
  now rewrite (lstrip_chars_stops _ _ H), str_rev_involutive.
Qed.

Lemma rstrip_chars_app (chars a b : string) :
  lstrip_chars chars (rev b) = EmptyString ->
  rstrip_chars chars (a ++ b) = rstrip_chars chars a.
Proof.
  intros H. unfold rstrip_chars. now rewrite str_rev_app, (lstrip_chars_app _ _ _ H).
Qed.

(** The stripping of the fence gives back a body that neither begins with
    a character of [```json] nor ends with a backquote. *)
Lemma without_fence_fenced (body : string) :
  Aux.begins_with_one_of "```json" body = false ->
  Aux.ends_with_one_of "```" body = false ->
  Spec.without_fence (Aux.fenced body) = body
  /\ Spec.without_fence body = body.
Proof.
  intros Hb He. unfold Spec.without_fence, Aux.fenced. split.
  - rewrite (lstrip_chars_app "```json" "```json" (body ++ "```") eq_refl).
    destruct body as [|c body].
    + reflexivity.
    + rewrite (lstrip_chars_stops "```json" (String c body ++ "```")) by exact Hb.
      rewrite (rstrip_chars_app "```" (String c body) "```" eq_refl).
      now apply rstrip_chars_stops.
  - rewrite (lstrip_chars_stops _ _ Hb). now apply rstrip_chars_stops.
Qed.

(** X26.  The fence of a reply is removed by character, not as a prefix:
    [lstrip] takes away every leading character among those of [```json],
    [rstrip] every trailing backquote.  For a body that neither begins with
    one of those characters nor ends with a backquote, the reply in its
    fence and the bare body parse to the same requirements. *)
Theorem fenced_reply_parses_as_its_body (json_depth : nat) (body : string) (w : world) :
  Aux.begins_with_one_of "```json" body = false ->
  Aux.ends_with_one_of "```" body = false ->
  fst (AutoReadme.parse_requirements_output json_depth (Aux.fenced body) w)
  = fst (AutoReadme.parse_requirements_output json_depth body w).
Proof.
  intros Hb He. rewrite !parse_requirements_output_run.
  unfold Spec.decoded_requirements.
  destruct (without_fence_fenced body Hb He) as [-> ->].
  destruct (Json.loads json_depth body) as [doc|e]; [|reflexivity].
  destruct (AutoReadme.subscript doc "requirements"); reflexivity.
Qed.

Lemma fenced_reply_parses_as_its_body_witness :
  fst (AutoReadme.parse_requirements_output
         10 (Aux.fenced (" {" ++ dquote ++ "requirements" ++ dquote ++ ": []} "))
         (Sample.machine Sample.scenario_tree "/"))
  = fst (AutoReadme.parse_requirements_output
           10 (" {" ++ dquote ++ "requirements" ++ dquote ++ ": []} ")
           (Sample.machine Sample.scenario_tree "/")).
Proof.
  apply (fenced_reply_parses_as_its_body
           10 (" {" ++ dquote ++ "requirements" ++ dquote ++ ": []} ")
           (Sample.machine Sample.scenario_tree "/")).
  - reflexivity.
  - reflexivity.
Defined.

Lemma quoted_items (entry : string) (entries : list string) :
  PyStr.join ", " (map (fun entry => dquote ++ entry ++ dquote) (entry :: entries))
    ++ "]"
  = dquote ++ entry ++ dquote ++ Aux.items_tail entries.
Proof.
  revert entry. induction entries as [|entry' entries IH]; intros entry.
  - cbn [map PyStr.join String.concat Aux.items_tail]. now rewrite !append_assoc.
  - cbn [map]. rewrite join_cons by discriminate.
    cbn [map] in IH. rewrite !append_assoc. do 3 f_equal.
    rewrite IH. cbn [Aux.items_tail]. reflexivity.
Qed.

Lemma length_items_tail (entries : list string) :
  List.length entries <= String.length (Aux.items_tail entries).
Proof.
  induction entries as [|entry entries IH]; [cbn; lia|].
  cbn [Aux.items_tail List.length]. rewrite !length_append. cbn [String.length].
  lia.
Qed.

Lemma array_items_text (depth : nat) (entries : list string) :
  forall (entry : string) (values : list Json.value) (steps : nat) (tail : string),
    Forall (fun entry => JsonEncoder.escaped entry = entry) (entry :: entries) ->
    List.length entries < steps ->
    Json.array_items (Json.scan_once depth) steps
      (String (chr 34) (entry ++ dquote ++ Aux.items_tail entries ++ tail)) values
    = Some (Ok (Json.Array (values ++ map Json.Str (entry :: entries)), tail)).
Proof.
  induction entries as [|entry' entries IH]; intros entry values steps tail Hplain Hsteps.
  - destruct steps as [|steps]; [inversion Hsteps|].
    inversion Hplain as [|? ? He _]; subst.
    cbn [Json.array_items]. rewrite scan_once_string.
    rewrite <- He at 1. rewrite scanstring_escaped. reflexivity.
  - destruct steps as [|steps]; [inversion Hsteps|].
    inversion Hplain as [|? ? He Hrest]; subst.
    cbn [Json.array_items]. rewrite scan_once_string.
    rewrite <- He at 1. rewrite scanstring_escaped. cbv iota beta.
    cbn [Aux.items_tail]. rewrite !append_assoc.
    change (Json.skip_ws (", " ++ dquote ++ entry' ++ dquote
                            ++ Aux.items_tail entries ++ tail))
      with (String ","%char (" " ++ dquote ++ entry' ++ dquote
                               ++ Aux.items_tail entries ++ tail)).
    cbv iota beta.
    change (Json.code "," =? 93)%nat with false.
    change (Json.code "," =? 44)%nat with true. cbv iota.
    change (Json.skip_ws (" " ++ dquote ++ entry' ++ dquote
                            ++ Aux.items_tail entries ++ tail))
      with (String (chr 34) (entry' ++ dquote ++ Aux.items_tail entries ++ tail)).
    rewrite IH by (try exact Hrest; cbn [List.length] in Hsteps; lia).
    now rewrite <- app_assoc.
Qed.

Lemma without_fence_requirements_reply (entries : list string) :
  Spec.without_fence (Sample.requirements_reply entries)
  = " {" ++ dquote ++ "requirements" ++ dquote ++ ": ["
    ++ PyStr.join ", " (map (fun entry => dquote ++ entry ++ dquote) entries)
    ++ "]} ".
Proof.
  unfold Spec.without_fence, Sample.requirements_reply.
  change ("```json {" ++ dquote ++ "requirements" ++ dquote ++ ": ["
            ++ PyStr.join ", " (map (fun entry => dquote ++ entry ++ dquote) entries)
            ++ "]} ```")
    with ("```json"
            ++ (" {" ++ dquote ++ "requirements" ++ dquote ++ ": ["
                  ++ PyStr.join ", "
                       (map (fun entry => dquote ++ entry ++ dquote) entries)
                  ++ "]} ```")).
  rewrite (lstrip_chars_app "```json" "```json" _ eq_refl).
  rewrite lstrip_chars_stops by reflexivity.
  set (J := PyStr.join ", " (map (fun entry => dquote ++ entry ++ dquote) entries)).
  replace (" {" ++ dquote ++ "requirements" ++ dquote ++ ": [" ++ J ++ "]} ```")
    with ((" {" ++ dquote ++ "requirements" ++ dquote ++ ": [" ++ J ++ "]} ") ++ "```")
    by (rewrite !append_assoc; reflexivity).
  rewrite (rstrip_chars_app "```" _ "```" eq_refl).
  apply rstrip_chars_stops. unfold Aux.ends_with_one_of.
  replace (" {" ++ dquote ++ "requirements" ++ dquote ++ ": [" ++ J ++ "]} ")
    with ((" {" ++ dquote ++ "requirements" ++ dquote ++ ": [" ++ J) ++ "]} ")
    by (rewrite !append_assoc; reflexivity).
  now rewrite str_rev_app.
Qed.

Lemma loads_requirements_text (depth : nat) (entries : list string) :
  Forall (fun entry => JsonEncoder.escaped entry = entry) entries ->
  Json.loads (S (S depth))
    (" {" ++ dquote ++ "requirements" ++ dquote ++ ": ["
       ++ PyStr.join ", " (map (fun entry => dquote ++ entry ++ dquote) entries)
       ++ "]} ")
  = Ok (Json.Object [("requirements", Json.Array (map Json.Str entries))]).
Proof.
  intros Hplain. unfold Json.loads.
  set (J := PyStr.join ", " (map (fun entry => dquote ++ entry ++ dquote) entries)).
  change (Json.skip_ws (" {" ++ dquote ++ "requirements" ++ dquote ++ ": ["
                          ++ J ++ "]} "))
    with (String "{"%char (dquote ++ "requirements" ++ dquote ++ ": ["
                             ++ J ++ "]} ")).
  cbn [Json.scan_once].
  change (Json.code "{" =? 34)%nat with false.
  change (Json.code "{" =? 123)%nat with true. cbv iota.
  change (Json.skip_ws (dquote ++ "requirements" ++ dquote ++ ": [" ++ J ++ "]} "))
    with (String (chr 34) ("requirements" ++ dquote ++ ": [" ++ J ++ "]} ")).
  cbv iota beta.
  change (Json.code (chr 34) =? 125)%nat with false.
  change (Json.code (chr 34) =? 34)%nat with true. cbv iota.
  cbn [Json.object_members].
  change (Json.scanstring ("requirements" ++ dquote ++ ": [" ++ J ++ "]} "))
    with (Json.scanstring (JsonEncoder.escaped "requirements" ++ dquote
                             ++ ": [" ++ J ++ "]} ")).
  rewrite scanstring_escaped. cbv iota beta.
  change (Json.skip_ws (": [" ++ J ++ "]} "))
    with (String ":"%char (" [" ++ J ++ "]} ")).
  cbv iota beta.
  change (Json.code ":" =? 58)%nat with true. cbv iota.
  change (Json.skip_ws (" [" ++ J ++ "]} "))
    with (String "["%char (J ++ "]} ")).
  cbn [Json.scan_once].
  change (Json.code "[" =? 34)%nat with false.
  change (Json.code "[" =? 123)%nat with false.
  change (Json.code "[" =? 91)%nat with true. cbv iota.
  subst J. destruct entries as [|entry entries].
  - reflexivity.
  - assert (E : PyStr.join ", " (map (fun entry => dquote ++ entry ++ dquote)
                                    (entry :: entries)) ++ "]} "
                = dquote ++ entry ++ dquote ++ Aux.items_tail entries ++ "} ").
    { change "]} " with ("]" ++ "} ").
      rewrite <- append_assoc, quoted_items, !append_assoc. reflexivity. }
    rewrite E.
    change (Json.skip_ws (dquote ++ entry ++ dquote ++ Aux.items_tail entries ++ "} "))
      with (String (chr 34) (entry ++ dquote ++ Aux.items_tail entries ++ "} ")).
    cbv iota beta.
    change (Json.code (chr 34) =? 93)%nat with false. cbv iota.
    rewrite array_items_text.
    + reflexivity.
    + exact Hplain.
    + rewrite !length_append. pose proof (length_items_tail entries). lia.
Qed.

Lemma parse_requested_form (depth : nat) (entries : list string) (w : world) :
  Forall (fun entry => JsonEncoder.escaped entry = entry) entries ->
  AutoReadme.parse_requirements_output (S (S depth))
                                       (Sample.requirements_reply entries) w
  = (Ok (Json.Array (map Json.Str entries)), w).
Proof.
  intros Hplain. rewrite parse_requirements_output_run.
  unfold Spec.decoded_requirements.
  rewrite without_fence_requirements_reply, (loads_requirements_text depth entries Hplain).
  reflexivity.
Qed.

(** X27.  A reply in the form that the prompt asks for, a fenced JSON
    object whose [requirements] member lists the entries, parses to these
    entries, in their order, with nothing logged; the entries may hold any
    characters that JSON lets stand for themselves. *)
Theorem reply_in_the_requested_form_parses (depth : nat) (entries : list string)
        (w : world) :
  Forall (fun entry => JsonEncoder.escaped entry = entry) entries ->
  AutoReadme.parse_requirements_output (S (S depth))
                                       (Sample.requirements_reply entries) w
  = (Ok (Json.Array (map Json.Str entries)), w).
Proof.
  intros Hplain. rewrite parse_requirements_output_run.
  unfold Spec.decoded_requirements.
  rewrite without_fence_requirements_reply.
  now rewrite (loads_requirements_text depth entries Hplain).
Qed.

Lemma reply_in_the_requested_form_parses_witness :
  AutoReadme.parse_requirements_output
    2 (Sample.requirements_reply ["numpy==1.26.4"; "requests>=2.31"; "é"])
    (Sample.machine Sample.scenario_tree "/")
  = (Ok (Json.Array (map Json.Str ["numpy==1.26.4"; "requests>=2.31"; "é"])),
     Sample.machine Sample.scenario_tree "/").
Proof.
  apply (reply_in_the_requested_form_parses
           0 ["numpy==1.26.4"; "requests>=2.31"; "é"]
           (Sample.machine Sample.scenario_tree "/")).
  repeat constructor.
Defined.

(** ** The file of the requirements *)

Lemma requirements_prompt_shape (pip_freeze : string) (self : AutoReadme.t)
      (w w1 : world) (prompt : list AutoReadme.message) :
  AutoReadme.requirements_prompt pip_freeze self w = (Ok prompt, w1) ->
  exists instruction, prompt = [("system", instruction)].
Proof.
  unfold AutoReadme.requirements_prompt. intros H.
  apply bind_inv in H as [environment_requirements [wa [_ H]]].
  apply bind_inv in H as [u [wb [_ H]]].
  apply bind_inv in H as [scripts [wc [_ H]]].
  apply bind_inv in H as [import_code_lines [wd [_ H]]].
  unfold ret in H. injection H as <- _. eauto.
Qed.

Lemma join_value_strings (sep : string) (entries : list string) :
  AutoReadme.join_value sep (Json.Array (map Json.Str entries))
  = Ok (PyStr.join sep entries).
Proof.
  unfold AutoReadme.join_value.
  assert (H : fold_right (fun item strs =>
                            match item, strs with
                            | Json.Str s, Some l => Some (s :: l)
                            | _, _ => None
                            end) (Some []) (map Json.Str entries)
              = Some entries).
  { induction entries as [|entry entries IH]; [reflexivity|].
    cbn [map fold_right]. now rewrite IH. }
  now rewrite H.
Qed.

Lemma opendir_resolve (root : node) (cwd dir : string) (entries : list (string * node)) :
  FS.opendir root cwd dir = Ok entries -> FS.resolve root cwd dir = Ok (Dir entries).
Proof.
  unfold FS.opendir. destruct (FS.resolve root cwd dir) as [[| |es]|e];
    try discriminate.
  now intros H; injection H as ->.
Qed.

(** X28.  When the collaborator answers the prompt about the requirements
    in the form that the prompt asks for, [requirements.txt] as
    [generate_dependency] leaves it holds the entries of the reply, one on
    each line, in their order. *)
Theorem requirements_file_holds_the_entries
        (get_model_answer : string -> list AutoReadme.message -> string -> result string)
        (pip_freeze : string) (depth : nat) (self : AutoReadme.t) (w w' : world)
        (entries : list string) :
  is_empty (AutoReadme.out_put_dir self) = false ->
  Forall (fun entry => JsonEncoder.escaped entry = entry) entries ->
  (forall model instruction config,
      get_model_answer model [("system", instruction)] config
      = Ok (Sample.requirements_reply entries)) ->
  AutoReadme.generate_dependency get_model_answer pip_freeze (S (S depth)) self w
  = (Ok tt, w') ->
  FS.read_text (fs_root w') (cwd w')
               (PosixPath.join (AutoReadme.out_put_dir self) "requirements.txt")
  = Ok (universal_newlines (PyStr.join newline entries)).
Proof.
  intros Hout Hplain Hreply H. unfold AutoReadme.generate_dependency in H.
  apply bind_inv in H as [u0 [w0 [_ H]]].
  apply bind_inv in H as [project_structure [w1 [_ H]]].
  apply bind_inv in H as [u2 [w2 [_ H]]].
  apply bind_inv in H as [requirements [w3 [Hreq H]]].
  apply bind_inv in H as [requirements_text [w4 [Htext H]]].
  apply bind_inv in H as [u5 [w5 [Hsave H]]].
  apply bind_inv in H as [descriptions [w6 [Hdesc H]]].
  apply bind_inv in H as [u7 [w7 [Hwrite H]]].
  unfold logging in H. injection H as <-. cbn [fs_root cwd].
  (* the requirements *)
  unfold AutoReadme.generate_project_requirements in Hreq.
  apply bind_inv in Hreq as [prompt [wa [Hprompt Hreq]]].
  apply bind_inv in Hreq as [answer [wb [Hanswer Hreq]]].
  apply bind_inv in Hreq as [requirements_list [wc [Hparse Hreq]]].
  unfold ret in Hreq. injection Hreq as -> ->.
  destruct (requirements_prompt_shape _ _ _ _ _ Hprompt) as [instruction ->].
  unfold lift in Hanswer. rewrite Hreply in Hanswer. injection Hanswer as <- <-.
  rewrite (parse_requested_form depth entries wa Hplain) in Hparse.
  injection Hparse as <- <-.
  unfold lift in Htext. rewrite join_value_strings in Htext.
  injection Htext as <- <-.
  (* the two writes *)
  rewrite save_content_to_file_run in Hsave.
  destruct (FS.write_text (fs_root wa) (cwd wa) _ _) as [root5|e] eqn:E5;
    [|discriminate].
  injection Hsave as Hw5. subst w5.
  destruct (descriptions_keep_the_files _ _ _ _ _ Hdesc) as [Hroot6 Hcwd6].
  cbn [fs_root cwd] in Hroot6, Hcwd6.
  unfold write_file in Hwrite. rewrite Hroot6, Hcwd6 in Hwrite.
  destruct (FS.write_text root5 (cwd wa) _ _) as [root7|e] eqn:E7; [|discriminate].
  injection Hwrite as Hw7. subst w7. cbn [fs_root cwd].
  destruct (opendir_after_write
              (fs_root wa) root5 (cwd wa) (AutoReadme.out_put_dir self)
              "requirements.txt" (PyStr.join newline entries)
              eq_refl eq_refl eq_refl Hout E5) as [entries3 [_ H5]].
  destruct (opendir_after_write
              root5 root7 (cwd wa) (AutoReadme.out_put_dir self)
              "SCRIPT_DESCRIPTION.json" (JsonEncoder.dumps descriptions)
              eq_refl eq_refl eq_refl Hout E7) as [entries5 [H5' H7]].
  rewrite H5 in H5'. injection H5' as <-.
  unfold FS.read_text.
  rewrite (resolve_child root7 (cwd wa) (AutoReadme.out_put_dir self)
                         "requirements.txt" _ (opendir_resolve _ _ _ _ H7)
                         eq_refl eq_refl eq_refl).
  rewrite lookup_set_file_other by reflexivity.
  now rewrite lookup_set_file.
Qed.

Lemma requirements_file_holds_the_entries_witness :
  FS.read_text
    (fs_root (snd (AutoReadme.generate_dependency
                     (Sample.answering (Sample.requirements_reply ["numpy==1.0"; "six"]))
                     "numpy==1.0" 2 (Sample.instance "/proj" "/out")
                     (Sample.machine Sample.scenario_tree "/"))))
    (cwd (snd (AutoReadme.generate_dependency
                 (Sample.answering (Sample.requirements_reply ["numpy==1.0"; "six"]))
                 "numpy==1.0" 2 (Sample.instance "/proj" "/out")
                 (Sample.machine Sample.scenario_tree "/"))))
    (PosixPath.join "/out" "requirements.txt")
  = Ok (universal_newlines (PyStr.join newline ["numpy==1.0"; "six"])).
Proof.
  apply (requirements_file_holds_the_entries
           (Sample.answering (Sample.requirements_reply ["numpy==1.0"; "six"]))
           "numpy==1.0" 0 (Sample.instance "/proj" "/out")
           (Sample.machine Sample.scenario_tree "/")).
  - reflexivity.
  - repeat constructor.
  - reflexivity.
  - vm_compute. reflexivity.
Defined.

(** ** The order of a listing *)

Lemma ascii_compare_trans (a b c : ascii) :
  Ascii.compare a b = Lt -> Ascii.compare b c = Lt -> Ascii.compare a c = Lt.
Proof.
  unfold Ascii.compare. rewrite !N.compare_lt_iff. apply N.lt_trans.
Qed.

Lemma leb_trans (s1 s2 s3 : string) :
  String.leb s1 s2 = true -> String.leb s2 s3 = true -> String.leb s1 s3 = true.
Proof.
  unfold String.leb. revert s2 s3.
  induction s1 as [|c1 s1 IH]; intros s2 s3 H12 H23.
  - now destruct s3.
  - destruct s2 as [|c2 s2]; [discriminate|].
    destruct s3 as [|c3 s3]; [discriminate|].
    cbn [String.compare] in *.
    destruct (Ascii.compare c1 c2) eqn:E12; try discriminate.
    + apply Ascii.compare_eq_iff in E12. subst c2.
      destruct (Ascii.compare c1 c3); try discriminate; [|reflexivity].
      now apply (IH s2 s3).
    + destruct (Ascii.compare c2 c3) eqn:E23; try discriminate.
      * apply Ascii.compare_eq_iff in E23. subst c3. now rewrite E12.
      * now rewrite (ascii_compare_trans _ _ _ E12 E23).
Qed.

Lemma insert_sorted_Permutation {A} (x : string * A) (l : list (string * A)) :
  Permutation (AutoReadme.insert_sorted x l) (x :: l).
Proof.
  induction l as [|y l IH]; [reflexivity|].
  cbn [AutoReadme.insert_sorted]. destruct (String.leb (fst x) (fst y)); [reflexivity|].
  rewrite IH. apply perm_swap.
Qed.

Lemma sorted_Permutation {A} (l : list (string * A)) :
  Permutation (AutoReadme.sorted l) l.
Proof.
  induction l as [|x l IH]; [reflexivity|].
  unfold AutoReadme.sorted. cbn [fold_right].
  rewrite insert_sorted_Permutation. now constructor.
Qed.

Lemma insert_sorted_ordered {A} (x : string * A) (l : list (string * A)) :
  StronglySorted (fun a b => String.leb (fst a) (fst b) = true) l ->
  StronglySorted (fun a b => String.leb (fst a) (fst b) = true)
                 (AutoReadme.insert_sorted x l).
Proof.
  induction 1 as [|y l Hl IH Hy]; cbn [AutoReadme.insert_sorted].
  - repeat constructor.
  - destruct (String.leb (fst x) (fst y)) eqn:E.
    + constructor; [now constructor|].
      constructor; [exact E|].
      rewrite Forall_forall in *. intros z Hz.
      apply (leb_trans _ _ _ E). now apply Hy.
    + constructor; [exact IH|].
      rewrite Forall_forall in *. intros z Hz.
      apply (Permutation_in _ (insert_sorted_Permutation x l)) in Hz.
      destruct Hz as [<-|Hz]; [|now apply Hy].
      destruct (String.leb_total (fst x) (fst y)) as [H|H]; [congruence|exact H].
Qed.

Lemma sorted_ordered {A} (l : list (string * A)) :
  StronglySorted (fun a b => String.leb (fst a) (fst b) = true) (AutoReadme.sorted l).
Proof.
  induction l as [|x l IH]; [constructor|].
  unfold AutoReadme.sorted. cbn [fold_right]. now apply insert_sorted_ordered.
Qed.

Lemma same_key_same_entry {A} (l : list (string * A)) (x y : string * A) :
  NoDup (map fst l) -> In x l -> In y l -> fst x = fst y -> x = y.
Proof.
  induction l as [|z l IH]; intros Hnd Hx Hy Hk; [contradiction|].
  cbn [map] in Hnd. inversion Hnd as [|? ? Hnotin Hnd']; subst.
  destruct Hx as [->|Hx], Hy as [->|Hy].
  - reflexivity.
  - exfalso. apply Hnotin. rewrite Hk. now apply in_map.
  - exfalso. apply Hnotin. rewrite <- Hk. now apply in_map.
  - now apply IH.
Qed.

(** Two ordered lists with the same members and distinct keys are the
    same list. *)
Lemma ordered_unique {A} (l1 : list (string * A)) :
  forall l2,
    StronglySorted (fun a b => String.leb (fst a) (fst b) = true) l1 ->
    StronglySorted (fun a b => String.leb (fst a) (fst b) = true) l2 ->
    NoDup (map fst l1) ->
    Permutation l1 l2 ->
    l1 = l2.
Proof.
  induction l1 as [|x l1 IH]; intros l2 H1 H2 Hnd Hp.
  - apply Permutation_nil in Hp. now subst.
  - destruct l2 as [|y l2].
    { apply Permutation_sym, Permutation_nil in Hp. discriminate. }
    inversion H1 as [|? ? H1' Hx]; subst. inversion H2 as [|? ? H2' Hy]; subst.
    rewrite Forall_forall in Hx, Hy.
    assert (Hxy : x = y).
    { assert (Hyin : In y (x :: l1))
        by (apply (Permutation_in _ (Permutation_sym Hp)); now left).
      assert (Hxin : In x (y :: l2)) by (apply (Permutation_in _ Hp); now left).
      destruct Hyin as [Heq|Hyin]; [exact Heq|].
      destruct Hxin as [Heq|Hxin]; [now symmetry|].
      apply (same_key_same_entry (x :: l1) x y Hnd); [now left|now right|].
      apply String.leb_antisym; [now apply Hx|now apply Hy]. }
    subst y. f_equal.
    apply IH; try assumption.
    + cbn [map] in Hnd. now inversion Hnd.
    + now apply Permutation_cons_inv in Hp.
Qed.

(** [sorted] gives the same list for every order of distinct names. *)
Lemma sorted_of_Permutation {A} (l l' : list (string * A)) :
  NoDup (map fst l) -> Permutation l l' -> AutoReadme.sorted l = AutoReadme.sorted l'.
Proof.
  intros Hnd Hp. apply ordered_unique.
  - apply sorted_ordered.
  - apply sorted_ordered.
  - apply (Permutation_NoDup (l := map fst l)); [|exact Hnd].
    apply Permutation_map, Permutation_sym, sorted_Permutation.
  - rewrite sorted_Permutation, Hp. symmetry. apply sorted_Permutation.
Qed.

Lemma listing_Dir (cwd : string) (self : AutoReadme.t) (ignore_files : list string)
      (entries : list (string * node)) (dir_path : string) (indent_level : nat) :
  Aux.listing cwd self ignore_files (Dir entries) dir_path indent_level
  = flat_map (fun '(item, (isdir, below)) =>
                match AutoReadme.is_ignored_from
                        cwd self (PosixPath.join dir_path item) ignore_files
                with
                | Ok false =>
                    if isdir : bool
                    then (PosixPath.join dir_path item,
                          AutoReadme.directory_line indent_level item) :: below
                    else [(PosixPath.join dir_path item,
                           AutoReadme.file_line indent_level item)]
                | _ => []
                end)
             (AutoReadme.sorted
                (map (fun e =>
                        (fst e,
                         (FS.is_dir (snd e),
                          Aux.listing cwd self ignore_files (snd e)
                                      (PosixPath.join dir_path (fst e))
                                      (S indent_level))))
                     entries)).
Proof.
  cbn [Aux.listing]. cbv zeta. do 2 f_equal.
  induction entries as [|[item child] entries IH]; [reflexivity|].
  cbn [map fst snd]. now rewrite IH.
Qed.

Lemma same_tree_is_dir (n n' : node) :
  Aux.same_tree n n' -> FS.is_dir n = FS.is_dir n'.
Proof. destruct n, n'; cbn; intros H; try reflexivity; contradiction. Qed.

(** The structural walk of two trees with the same entries. *)
Lemma listing_same_tree (cwd : string) (self : AutoReadme.t)
      (ignore_files : list string) (n : node) :
  forall (n' : node) (dir_path : string) (indent_level : nat),
    Aux.listable n ->
    Aux.same_tree n n' ->
    Aux.listing cwd self ignore_files n dir_path indent_level
    = Aux.listing cwd self ignore_files n' dir_path indent_level.
Proof.
  induction n as [content| |entries IH] using node_nested_ind;
    intros n' dir_path indent_level Hl Hsame.
  - destruct n'; try contradiction. reflexivity.
  - destruct n'; try contradiction. reflexivity.
  - destruct n' as [| |entries']; try contradiction.
    cbn [Aux.same_tree] in Hsame. destruct Hsame as [reordered [Hperm Hsame]].
    rewrite !listing_Dir. f_equal.
    apply (proj1 (listable_Dir entries)) in Hl as [Hnd Hall].
    set (g := fun e : string * node =>
                (fst e,
                 (FS.is_dir (snd e),
                  Aux.listing cwd self ignore_files (snd e)
                              (PosixPath.join dir_path (fst e)) (S indent_level)))).
    assert (Hmap : map g entries = map g reordered
                   /\ map fst entries = map fst reordered).
    { clear Hperm Hnd. revert reordered Hsame.
      induction entries as [|[name child] entries IHe]; intros reordered Hsame.
      - destruct reordered; [now split|contradiction].
      - destruct reordered as [|[name' child'] reordered]; [contradiction|].
        destruct Hsame as [<- [Hchild Hrest]].
        inversion IH as [|? ? IHchild IHrest]; subst.
        inversion Hall as [|? ? [_ Hlchild] Hallrest]; subst.
        destruct (IHe IHrest Hallrest reordered Hrest) as [E1 E2].
        cbn [map fst snd]. rewrite E1, E2. split; [|reflexivity].
        f_equal. subst g. cbn [fst snd]. f_equal. f_equal.
        + now apply same_tree_is_dir.
        + now apply IHchild. }
    destruct Hmap as [-> Hnames].
    apply sorted_of_Permutation.
    + rewrite map_map. rewrite (map_ext _ fst) by reflexivity. now rewrite <- Hnames.
    + now apply Permutation_map.
Qed.

(** X29.  The result of [generate_project_structure] does not depend on
    the order in which the operating system lists the directories: for two
    file systems that hold the same entries below [dir_path], listed in
    any order, the lines are the same. *)
Theorem structure_is_independent_of_listing_order (self : AutoReadme.t)
        (dir_path : string) (indent_level : nat) (ignore_files : list string)
        (w w' : world) (n n' : node) :
  cwd w = cwd w' ->
  FS.resolve (fs_root w) (cwd w) dir_path = Ok n ->
  FS.resolve (fs_root w') (cwd w') dir_path = Ok n' ->
  Aux.listable n ->
  Aux.same_tree n n' ->
  fst (AutoReadme.generate_project_structure self dir_path indent_level
                                             (Some ignore_files) w)
  = fst (AutoReadme.generate_project_structure self dir_path indent_level
                                               (Some ignore_files) w').
Proof.
  intros Hcwd Hn Hn' Hl Hsame.
  rewrite !generate_project_structure_given, Hn, Hn', <- Hcwd.
  rewrite <- (same_tree_is_dir n n' Hsame).
  destruct (FS.is_dir n); [|reflexivity].
  cbn [fst]. now rewrite (listing_same_tree _ _ _ n n' _ _ Hl Hsame).
Qed.

Lemma scenario_trees_same :
  Aux.same_tree Sample.scenario_tree Sample.scenario_tree_reordered.
Proof.
  unfold Sample.scenario_tree, Sample.scenario_tree_reordered. cbn [Aux.same_tree].
  exists [("src", Dir [("README", File "notes"); ("main.py", File "import os")]);
          (".git", Dir [("config", File "[core]")]);
          ("config", Dir [("settings.json", File "{}")])].
  split.
  - eapply perm_trans;
      [apply (Permutation_app_comm
                [("src", Dir [("README", File "notes"); ("main.py", File "import os")])]
                [(".git", Dir [("config", File "[core]")]);
                 ("config", Dir [("settings.json", File "{}")])])|].
    cbn [app]. apply perm_swap.
  - split; [reflexivity|]. split.
    + exists [("main.py", File "import os"); ("README", File "notes")].
      split; [apply perm_swap|]. repeat split.
    + split; [reflexivity|]. split.
      * exists [("config", File "[core]")]. split; [reflexivity|]. repeat split.
      * split; [reflexivity|]. split; [|exact I].
        exists [("settings.json", File "{}")]. split; [reflexivity|]. repeat split.
Qed.

Lemma structure_is_independent_of_listing_order_witness :
  fst (AutoReadme.generate_project_structure
         (Sample.instance "/proj" "/out") "/proj" 0 (Some [])
         (Sample.machine Sample.scenario_tree "/"))
  = fst (AutoReadme.generate_project_structure
           (Sample.instance "/proj" "/out") "/proj" 0 (Some [])
           (Sample.machine Sample.scenario_tree_reordered "/")).
Proof.
  apply (structure_is_independent_of_listing_order
           (Sample.instance "/proj" "/out") "/proj" 0 []
           (Sample.machine Sample.scenario_tree "/")
           (Sample.machine Sample.scenario_tree_reordered "/")
           Sample.scenario_tree Sample.scenario_tree_reordered).
  - reflexivity.
  - reflexivity.
  - reflexivity.
  - exact scenario_tree_listable.
  - exact scenario_trees_same.
Defined.

(** ** The requirements of the environment *)

Lemma write_text_in_directory (root : node) (cwd dir name content : string)
      (entries : list (string * node)) :
  Spec.valid_name name = true ->
  String.eqb name "." = false ->
  String.eqb name ".." = false ->
  FS.opendir root cwd dir = Ok entries ->
  match FS.lookup name entries with
  | Some (Dir _) | Some Special => False
  | _ => True
  end ->
  exists root', FS.write_text root cwd (PosixPath.join dir name) content = Ok root'.
Proof.
  intros Hn Hdot Hdotdot Hdir Hfree.
  assert (Hd : is_empty dir = false).
  { apply opendir_resolve in Hdir. exact (resolve_not_empty _ _ _ _ Hdir). }
  destruct (comps_join_name cwd dir name Hd Hn) as [base [Hbase Hcomps]].
  rewrite (write_text_join root cwd dir name content base Hd Hn Hdot Hdotdot Hcomps).
  rewrite (opendir_base root cwd dir base Hd Hbase) in Hdir.
  destruct (FS.resolve_comps [] root base) as [[trail n]|e]; [|discriminate].
  destruct n as [| |es]; try discriminate. injection Hdir as ->.
  destruct (FS.lookup name entries) as [[| |d]|]; try contradiction; eauto.
Qed.

Lemma resolve_needs_directory (root : node) (cwd dir name : string) :
  Spec.valid_name name = true ->
  is_empty dir = false ->
  FS.path_isdir root cwd dir = false ->
  FS.resolve root cwd (PosixPath.join dir name)
  = Raise (match FS.resolve root cwd dir with
           | Raise e => e
           | Ok _ => NotADirectoryError
           end).
Proof.
  intros Hn Hd Hnot.
  destruct (comps_join_name cwd dir name Hd Hn) as [base [Hbase Hcomps]].
  unfold FS.path_isdir in Hnot.
  rewrite (resolve_base root cwd dir base Hd Hbase) in Hnot |- *.
  unfold FS.resolve, FS.resolve_trail.
  rewrite (join_not_empty dir name Hd), Hcomps, resolve_comps_app.
  destruct (FS.resolve_comps [] root base) as [[trail n]|e]; [|reflexivity].
  destruct n as [| |entries]; try discriminate;
    now destruct (list_eq_dec _ _ _).
Qed.

(** X30.  For an output directory whose path the shell reads as one
    word: [generate_environment_requirements] returns what [pip freeze]
    printed, line by line and stripped, by way of the file
    [requirements_env.txt] that the shell writes in the output directory
    and that stays there.  It does not notice a failure of the shell: when
    the output directory is missing, it is the reading of the file that
    raises. *)
Theorem environment_requirements_go_through_the_file
        (pip_freeze : string) (self : AutoReadme.t) (w : world) :
  Aux.shell_word (AutoReadme.out_put_dir self) = true ->
  (forall entries,
      FS.opendir (fs_root w) (cwd w) (AutoReadme.out_put_dir self) = Ok entries ->
      match FS.lookup "requirements_env.txt" entries with
      | Some (Dir _) | Some Special => False
      | _ => True
      end ->
      exists w',
        AutoReadme.generate_environment_requirements pip_freeze self w
        = (Ok (map strip (file_lines pip_freeze)), w')
        /\ FS.read_text (fs_root w') (cwd w')
                        (PosixPath.join (AutoReadme.out_put_dir self)
                                        "requirements_env.txt")
           = Ok (universal_newlines pip_freeze))
  /\ (is_empty (AutoReadme.out_put_dir self) = false ->
      FS.path_isdir (fs_root w) (cwd w) (AutoReadme.out_put_dir self) = false ->
      exists w',
        AutoReadme.generate_environment_requirements pip_freeze self w
        = (Raise (match FS.resolve (fs_root w) (cwd w)
                                   (AutoReadme.out_put_dir self) with
                  | Raise e => e
                  | Ok _ => NotADirectoryError
                  end), w')
        /\ fs_root w' = fs_root w).
Proof.
  intros _. split.
  - intros entries Hdir Hfree.
    destruct (write_text_in_directory
                (fs_root w) (cwd w) (AutoReadme.out_put_dir self)
                "requirements_env.txt" pip_freeze entries
                eq_refl eq_refl eq_refl Hdir Hfree) as [root' Hwrite].
    unfold AutoReadme.generate_environment_requirements. cbv zeta.
    unfold bind at 1. unfold logging at 1.
    unfold bind at 1. unfold logging at 1.
    unfold bind at 1. unfold AutoReadme.system_pip_freeze at 1.
    cbn [fs_root cwd log]. rewrite Hwrite.
    unfold bind at 1. unfold logging at 1.
    unfold bind at 1. unfold reading at 1. cbn [fs_root cwd log].
    rewrite (read_after_write _ _ _ _ _ Hwrite).
    unfold ret. eexists. split; [reflexivity|].
    cbn [fs_root cwd]. exact (read_after_write _ _ _ _ _ Hwrite).
  - intros Hout Hnot.
    unfold AutoReadme.generate_environment_requirements. cbv zeta.
    unfold bind at 1. unfold logging at 1.
    unfold bind at 1. unfold logging at 1.
    unfold bind at 1. unfold AutoReadme.system_pip_freeze at 1.
    cbn [fs_root cwd log].
    rewrite (write_text_needs_directory
               (fs_root w) (cwd w) (AutoReadme.out_put_dir self)
               "requirements_env.txt" pip_freeze
               eq_refl eq_refl eq_refl Hout Hnot).
    unfold bind at 1. unfold logging at 1.
    unfold bind at 1. unfold reading at 1. cbn [fs_root cwd log].
    unfold FS.read_text.
    rewrite (resolve_needs_directory
               (fs_root w) (cwd w) (AutoReadme.out_put_dir self)
               "requirements_env.txt" eq_refl Hout Hnot).
    eexists. split; reflexivity.
Qed.

Lemma environment_requirements_go_through_the_file_witness :
  (exists w',
      AutoReadme.generate_environment_requirements
        ("numpy==1.0" ++ newline ++ "six==1.16 " ++ newline)
        (Sample.instance "/proj" "/out") (Sample.machine Sample.scenario_tree "/")
      = (Ok (map strip (file_lines ("numpy==1.0" ++ newline ++ "six==1.16 " ++ newline))),
         w')
      /\ FS.read_text (fs_root w') (cwd w')
                      (PosixPath.join "/out" "requirements_env.txt")
         = Ok (universal_newlines ("numpy==1.0" ++ newline ++ "six==1.16 " ++ newline)))
  /\ (exists w',
         AutoReadme.generate_environment_requirements
           "numpy==1.0" (Sample.instance "/proj" "/missing")
           (Sample.machine Sample.scenario_tree "/")
         = (Raise FileNotFoundError, w')
         /\ fs_root w' = fs_root (Sample.machine Sample.scenario_tree "/")).
Proof.
  split.
  - apply (proj1 (environment_requirements_go_through_the_file
                    ("numpy==1.0" ++ newline ++ "six==1.16 " ++ newline)
                    (Sample.instance "/proj" "/out")
                    (Sample.machine Sample.scenario_tree "/") eq_refl)
                 [("notes.txt", File "to do")]).
    + reflexivity.
    + exact I.
  - apply (proj2 (environment_requirements_go_through_the_file
                    "numpy==1.0" (Sample.instance "/proj" "/missing")
                    (Sample.machine Sample.scenario_tree "/") eq_refl)).
    + reflexivity.
    + reflexivity.
Defined.

(** ** Nothing below an ignored entry *)

Lemma In_insert_sorted {A} (x y : string * A) (l : list (string * A)) :
  In y (AutoReadme.insert_sorted x l) <-> y = x \/ In y l.
Proof.
  induction l as [|z l IH]; simpl.
  - intuition.
  - destruct (String.leb (fst x) (fst z)); simpl; [intuition|].
    rewrite IH. intuition.
Qed.

Lemma In_sorted {A} (y : string * A) (l : list (string * A)) :
  In y (AutoReadme.sorted l) <-> In y l.
Proof.
  induction l as [|x l IH]; [reflexivity|].
  unfold AutoReadme.sorted. simpl. rewrite In_insert_sorted.
  unfold AutoReadme.sorted in IH. rewrite IH. intuition.
Qed.

Lemma valid_name_no_trailing_sep (name : string) :
  Spec.valid_name name = true -> endswith name "/" = false.
Proof.
  intros H. destruct (endswith name "/") eqn:E; [|reflexivity].
  apply endswith_sep_inv in E as [s ->].
  apply valid_name_no_sep in H. rewrite mem_char_append in H.
  apply orb_false_iff in H as [_ H]. cbn in H. discriminate.
Qed.

(** [os.path.join(dir_path, "")]: the path with a separator at its end. *)
Lemma join_name (dir_path name : string) :
  Spec.valid_name name = true ->
  PosixPath.join dir_path name = PosixPath.join dir_path EmptyString ++ name.
Proof.
  intros H. rewrite (join_relative dir_path name (valid_name_not_absolute name H)).
  unfold PosixPath.join. cbn [startswith].
  destruct (is_empty dir_path || endswith dir_path "/").
  - now rewrite append_empty_r.
  - now rewrite !append_assoc.
Qed.

Lemma join_after_name (dir_path name : string) :
  Spec.valid_name name = true ->
  PosixPath.join (PosixPath.join dir_path name) EmptyString
  = PosixPath.join dir_path EmptyString ++ name ++ "/".
Proof.
  intros H. rewrite (join_name dir_path name H).
  unfold PosixPath.join at 1. cbn [startswith].
  rewrite (append_not_empty_r _ name (valid_name_not_empty name H)).
  rewrite (endswith_sep_app _ name (valid_name_not_empty name H)).
  rewrite (valid_name_no_trailing_sep name H). cbn [orb].
  now rewrite !append_assoc, append_empty_r.
Qed.

(** The path reached from [dir_path] through [names]: [dir_path] with a
    separator at its end, then the names with separators between them. *)
Lemma join_many_names (names : list string) :
  forall dir_path,
    names <> [] ->
    Forall (fun name => Spec.valid_name name = true) names ->
    PosixPath.join_many dir_path names
    = PosixPath.join dir_path EmptyString ++ PyStr.join "/" names.
Proof.
  induction names as [|name names IH]; intros dir_path Hne Hall; [congruence|].
  inversion Hall as [|? ? Hname Hnames]; subst.
  destruct names as [|name' names].
  - unfold PosixPath.join_many, PyStr.join. cbn [fold_left String.concat].
    exact (join_name dir_path name Hname).
  - change (PosixPath.join_many dir_path (name :: name' :: names))
      with (PosixPath.join_many (PosixPath.join dir_path name) (name' :: names)).
    rewrite IH by (auto; discriminate).
    rewrite (join_after_name dir_path name Hname).
    rewrite (join_cons "/" name (name' :: names)) by discriminate.
    now rewrite !append_assoc.
Qed.

Lemma append_inv_head (a x y : string) : a ++ x = a ++ y -> x = y.
Proof.
  induction a as [|c a IH]; [trivial|].
  cbn. intros H. injection H as H. now apply IH.
Qed.

(** Two lists of names that lead to the same path are the same list. *)
Lemma join_many_inj (dir_path : string) (names names' : list string) :
  names <> [] ->
  names' <> [] ->
  Forall (fun name => Spec.valid_name name = true) names ->
  Forall (fun name => Spec.valid_name name = true) names' ->
  PosixPath.join_many dir_path names = PosixPath.join_many dir_path names' ->
  names = names'.
Proof.
  intros Hne Hne' Hall Hall' H.
  rewrite !join_many_names in H by assumption.
  apply append_inv_head in H.
  assert (Hsep : forall l,
             Forall (fun name => Spec.valid_name name = true) l ->
             Forall (fun piece => mem_char PosixPath.sep piece = false) l).
  { intros l Hl. eapply Forall_impl; [|exact Hl].
    intros name Hn. now apply valid_name_no_sep. }
  rewrite <- (split_join_pieces PosixPath.sep names Hne (Hsep _ Hall)).
  rewrite <- (split_join_pieces PosixPath.sep names' Hne' (Hsep _ Hall')).
  change (str1 PosixPath.sep) with "/". now rewrite H.
Qed.

(** A chain read as the names that it goes through: each path on the
    way, the last included, is one that [is_ignored] does not hold back. *)
Lemma kept_chain_names (cwd : string) (self : AutoReadme.t)
      (ignore_files : list string) (n : node) (dir_path path : string) :
  Aux.kept_chain cwd self ignore_files n dir_path path ->
  exists names,
    names <> []
    /\ Forall (fun name => Spec.valid_name name = true) names
    /\ path = PosixPath.join_many dir_path names
    /\ forall first rest,
         first <> [] ->
         names = (first ++ rest)%list ->
         AutoReadme.is_ignored_from cwd self (PosixPath.join_many dir_path first)
                                    ignore_files
         = Ok false.
Proof.
  induction 1 as [entries dir_path item child Hin Hvalid Hkept
                 |entries dir_path item path child Hin Hvalid Hkept Hchain IH].
  - exists [item]. split; [discriminate|]. split; [now constructor|].
    split; [reflexivity|].
    intros first rest Hne Heq.
    destruct first as [|x first]; [congruence|].
    injection Heq as <- Heq. destruct first; [exact Hkept|discriminate].
  - destruct IH as [names [Hne [Hall [Hpath Hprefix]]]].
    exists (item :: names). split; [discriminate|]. split; [now constructor|].
    split; [exact Hpath|].
    intros first rest Hfirst Heq.
    destruct first as [|x first]; [congruence|].
    injection Heq as <- Heq.
    destruct first as [|y first]; [exact Hkept|].
    apply (Hprefix (y :: first) rest); [discriminate|exact Heq].
Qed.

Lemma listing_kept (cwd : string) (self : AutoReadme.t) (ignore_files : list string)
      (n : node) :
  forall (dir_path : string) (indent_level : nat) (p : string * string),
    Aux.listable n ->
    In p (Aux.listing cwd self ignore_files n dir_path indent_level) ->
    Aux.kept_chain cwd self ignore_files n dir_path (fst p).
Proof.
  induction n as [content| |entries IH] using node_nested_ind;
    intros dir_path indent_level p Hlist Hin; try contradiction.
  cbn [Aux.listing] in Hin. cbv zeta in Hin.
  apply in_flat_map in Hin as [[item [isdir below]] [Hitem Hp]].
  apply (proj1 (In_sorted _ _)) in Hitem.
  apply listable_Dir in Hlist as [_ Hentries].
  assert (Hchild :
            forall es,
              incl es entries ->
              In (item, (isdir, below))
                 ((fix pair_up (entries : list (string * node)) :=
                     match entries with
                     | [] => []
                     | (item, child) :: entries' =>
                         (item,
                          (FS.is_dir child,
                           Aux.listing cwd self ignore_files child
                                       (PosixPath.join dir_path item)
                                       (S indent_level)))
                         :: pair_up entries'
                     end) es) ->
              exists child,
                In (item, child) entries
                /\ below = Aux.listing cwd self ignore_files child
                                       (PosixPath.join dir_path item) (S indent_level)).
  { induction es as [|[item' child'] es IHes]; intros Hincl Hpair; [contradiction|].
    destruct Hpair as [Heq|Hpair].
    - injection Heq as <- _ <-. exists child'. split; [|reflexivity].
      apply Hincl. now left.
    - apply IHes; [|exact Hpair]. intros e He. apply Hincl. now right. }
  destruct (Hchild entries (incl_refl _) Hitem) as [child [Hin Hbelow]].
  rewrite Forall_forall in IH, Hentries.
  destruct (Hentries _ Hin) as [[Hvalid _] Hlistable]. cbn [fst snd] in *.
  destruct (AutoReadme.is_ignored_from cwd self (PosixPath.join dir_path item)
                                       ignore_files) as [[|]|e] eqn:E;
    try contradiction.
  destruct isdir.
  - destruct Hp as [<-|Hp].
    + now apply Aux.kept_entry with (child := child).
    + apply Aux.kept_below with (item := item) (child := child); try assumption.
      subst below. exact (IH _ Hin _ _ _ Hlistable Hp).
  - destruct Hp as [<-|[]]. now apply Aux.kept_entry with (child := child).
Qed.

Lemma build_tree_listable : Aux.listable Sample.build_tree.
Proof.
  unfold Sample.build_tree. cbn.
  repeat split; try (repeat constructor; cbn; intuition discriminate).
Qed.

(** X10.  The structural walk prunes.  Every entry that
    [generate_project_structure] adds is reached from [dir_path] through
    entries of the tree none of which [is_ignored] holds back; and for a
    path below [dir_path] that [is_ignored] holds back, neither the path
    nor anything below it is added.  The log gains one
    [Add to structure] record for each line, and the file system is left
    as it was. *)
Theorem structure_prunes (self : AutoReadme.t) (dir_path : string)
        (indent_level : nat) (ignore_files : list string) (lines : list string)
        (w w' : world) :
  (forall n, FS.resolve (fs_root w) (cwd w) dir_path = Ok n -> Aux.listable n) ->
  AutoReadme.generate_project_structure self dir_path indent_level
                                        (Some ignore_files) w
  = (Ok lines, w') ->
  exists n paths,
    FS.resolve (fs_root w) (cwd w) dir_path = Ok n
    /\ w' = World (fs_root w) (cwd w) (log w ++ map Aux.add_record paths)
    /\ List.length paths = List.length lines
    /\ Forall (Aux.kept_chain (cwd w) self ignore_files n dir_path) paths
    /\ (forall names rest,
          names <> [] ->
          Forall (fun name => Spec.valid_name name = true) (names ++ rest) ->
          AutoReadme.is_ignored_from (cwd w) self
                                     (PosixPath.join_many dir_path names) ignore_files
          = Ok true ->
          ~ In (PosixPath.join_many dir_path (names ++ rest)) paths).
Proof.
  intros Hlistable. rewrite generate_project_structure_given.
  destruct (FS.resolve (fs_root w) (cwd w) dir_path) as [n|e] eqn:Hres; [|discriminate].
  destruct (FS.is_dir n); [|discriminate].
  intros H. injection H as <- <-.
  specialize (Hlistable n eq_refl).
  assert (Hkept : Forall (Aux.kept_chain (cwd w) self ignore_files n dir_path)
                         (map fst (Aux.listing (cwd w) self ignore_files n dir_path
                                               indent_level))).
  { apply Forall_forall. intros path Hin. apply in_map_iff in Hin as [p [<- Hp]].
    exact (listing_kept _ _ _ _ _ _ _ Hlistable Hp). }
  exists n, (map fst (Aux.listing (cwd w) self ignore_files n dir_path indent_level)).
  split; [reflexivity|]. split; [now rewrite map_map|].
  split; [now rewrite !length_map|]. split; [exact Hkept|].
  intros names rest Hne Hvalid Hignored Hin.
  rewrite Forall_forall in Hkept.
  destruct (kept_chain_names _ _ _ _ _ _ (Hkept _ Hin)) as [names' [Hne' [Hvalid' [Heq Hprefix]]]].
  apply join_many_inj in Heq; try assumption.
  - rewrite (Hprefix names rest Hne (eq_sym Heq)) in Hignored. discriminate.
  - destruct names; [congruence|discriminate].
Qed.

Lemma structure_prunes_witness :
  exists n paths,
    FS.resolve (fs_root (Sample.machine Sample.build_tree "/")) "/" "/proj" = Ok n
    /\ snd (AutoReadme.generate_project_structure
              (Sample.instance "/proj" "/out") "/proj" 0 (Some ["build"])
              (Sample.machine Sample.build_tree "/"))
       = World (fs_root (Sample.machine Sample.build_tree "/")) "/"
               ([] ++ map Aux.add_record paths)
    /\ List.length paths = List.length ["- app.py"]
    /\ Forall (Aux.kept_chain "/" (Sample.instance "/proj" "/out") ["build"] n "/proj")
              paths
    /\ (forall names rest,
          names <> [] ->
          Forall (fun name => Spec.valid_name name = true) (names ++ rest) ->
          AutoReadme.is_ignored_from "/" (Sample.instance "/proj" "/out")
                                     (PosixPath.join_many "/proj" names) ["build"]
          = Ok true ->
          ~ In (PosixPath.join_many "/proj" (names ++ rest)) paths).
Proof.
  apply (structure_prunes
           (Sample.instance "/proj" "/out") "/proj" 0 ["build"] ["- app.py"]
           (Sample.machine Sample.build_tree "/")).
  - intros n H. injection H as <-. exact build_tree_listable.
  - reflexivity.
Defined.

